(** * SAPInvokeFM: a shallow embedding of [execInvokeFM.py]

    The script connects to an SAP system over RFC, calls one function module
    and prints the returned data, optionally projected on a set of capture
    specifiers.  This development embeds the script's own code (the classes
    [ConnectionParams], [SAPConnection], [ConfigManager] and [main]) and
    states its properties.

    Conventions of the embedding.
    - A Python [str] is a Rocq [string] holding its UTF-8 bytes.  Comparing
      such strings byte by byte agrees with Python's comparison by code
      point.  [str_upper] and [str_lower] act on ASCII letters.
    - A Python [dict] is an association list in insertion order whose
      lookups take the first binding of a key; [dict_set] keeps keys unique.
    - A Python [set] is given by the list of its elements in the order in
      which a [for] loop visits them.  That order comes from the hash table
      and is not fixed by the program.
    - Raised exceptions are values of [exn]; code that may raise returns
      [res].  Code that prints or talks to the RFC library runs in the trace
      monad [io], which records what it did. *)

From Stdlib Require Import String Ascii List ZArith Bool Lia.
From Stdlib Require Import Permutation Sorted OrdersEx RelationClasses.
From Stdlib Require Import SpecFloat.
Import ListNotations.

Local Open Scope string_scope.
Local Open Scope list_scope.

#[local] Set Warnings "-register-all".

(** ** Python values *)

(** The values the RFC library hands back and [json.load] produces.  Both
    give [None], booleans, integers, floats, strings, lists and dicts with
    string keys; the RFC library also gives a [Decimal] for a packed or
    decimal floating point field and [bytes] for a raw field, which
    [json.dumps] does not serialise.  A [Decimal] is held as a finite
    coefficient and exponent. *)
Inductive value : Type :=
| VNone
| VBool (b : bool)
| VInt (n : Z)
| VStr (s : string)
| VList (items : list value)
| VDict (entries : list (string * value))
| VFloat (x : spec_float)
| VDecimal (coefficient exponent : Z)
| VBytes (b : string).

Definition dict : Type := list (string * value).

(** Python truthiness ([bool(v)]). *)
Definition truthy (v : value) : bool :=
  match v with
  | VNone => false
  | VBool b => b
  | VInt n => negb (Z.eqb n 0)
  | VStr s => negb (String.eqb s "")
  | VList items => match items with [] => false | _ => true end
  | VDict entries => match entries with [] => false | _ => true end
  | VFloat x => match x with S754_zero _ => false | _ => true end
  | VDecimal coefficient _ => negb (Z.eqb coefficient 0)
  | VBytes b => negb (String.eqb b "")
  end.

(** [x or y]. *)
Definition py_or (x y : value) : value := if truthy x then x else y.

Definition isinstance_list (v : value) : bool :=
  match v with VList _ => true | _ => false end.

Definition isinstance_dict (v : value) : bool :=
  match v with VDict _ => true | _ => false end.

(** [hash(v)] succeeds: lists and dicts are the values that have no hash. *)
Definition hashable (v : value) : bool :=
  match v with VList _ | VDict _ => false | _ => true end.

(** [type(v).__name__], as the message of [json.dumps] has it. *)
Definition type_name_of (v : value) : string :=
  match v with
  | VNone => "NoneType"
  | VBool _ => "bool"
  | VInt _ => "int"
  | VStr _ => "str"
  | VList _ => "list"
  | VDict _ => "dict"
  | VFloat _ => "float"
  | VDecimal _ _ => "Decimal"
  | VBytes _ => "bytes"
  end.

(** The name of the type as the messages of the interpreter have it. *)
Definition qualified_type_name (v : value) : string :=
  match v with
  | VDecimal _ _ => "decimal.Decimal"
  | _ => type_name_of v
  end.

(** The first of a list of optional findings. *)
Fixpoint first_some {A : Type} (l : list (option A)) : option A :=
  match l with
  | [] => None
  | Some a :: _ => Some a
  | None :: l' => first_some l'
  end.

(** The type name of the first object in [v] that [json.dumps] cannot
    serialise, in the order in which the encoder walks [v]: the items of a
    list and the values of a dict, front to back and depth first. *)
Fixpoint json_fault (v : value) : option string :=
  match v with
  | VList items => first_some (map json_fault items)
  | VDict entries => first_some (map (fun kv => json_fault (snd kv)) entries)
  | VDecimal _ _ => Some "Decimal"
  | VBytes _ => Some "bytes"
  | _ => None
  end.

(** ** Exceptions and fallible code *)

Inductive exn : Type :=
| SystemExit (code : Z)
| KeyboardInterrupt
| RFCError (msg : string)
| ABAPApplicationError (msg : string)
| LogonError (msg : string)
| CommunicationError (msg : string)
| AttributeError (msg : string)
| ValueError (msg : string)
| TypeError (msg : string)
| KeyError (msg : string)
| RuntimeError (msg : string)
| OSError (msg : string)
| ConfigParserError (msg : string).

(** [isinstance(e, Exception)]: everything but [SystemExit] and
    [KeyboardInterrupt], which derive from [BaseException] only. *)
Definition is_Exception (e : exn) : bool :=
  match e with
  | SystemExit _ | KeyboardInterrupt => false
  | _ => true
  end.

(** [isinstance(e, RFCError)]: pyrfc derives its other errors from it. *)
Definition is_RFCError (e : exn) : bool :=
  match e with
  | RFCError _ | ABAPApplicationError _ | LogonError _ | CommunicationError _ => true
  | _ => false
  end.

(** [str(e)]. *)
Definition exn_str (e : exn) : string :=
  match e with
  | SystemExit _ => ""
  | KeyboardInterrupt => ""
  | RFCError m | ABAPApplicationError m | LogonError m | CommunicationError m
  | AttributeError m | ValueError m | TypeError m | KeyError m
  | RuntimeError m | OSError m | ConfigParserError m => m
  end.

Inductive res (A : Type) : Type :=
| Ok (a : A)
| Raise (e : exn).

Arguments Ok {A} a.
Arguments Raise {A} e.

Definition res_bind {A B : Type} (m : res A) (k : A -> res B) : res B :=
  match m with
  | Ok a => k a
  | Raise e => Raise e
  end.

Declare Scope res_scope.
Delimit Scope res_scope with res.
Notation "x <- m ;; k" := (res_bind m (fun x => k))
  (at level 61, m at next level, right associativity) : res_scope.

(** ** Strings *)

(** [c in s] for a one-character [c]. *)
Fixpoint str_contains (c : ascii) (s : string) : bool :=
  match s with
  | EmptyString => false
  | String a s' => Ascii.eqb a c || str_contains c s'
  end.

(** [s.endswith(c)] for a one-character [c]. *)
Fixpoint str_endswith (c : ascii) (s : string) : bool :=
  match s with
  | EmptyString => false
  | String a s' =>
      match s' with
      | EmptyString => Ascii.eqb a c
      | String _ _ => str_endswith c s'
      end
  end.

(** The text before and after the first [c], when there is one. *)
Fixpoint str_partition (c : ascii) (s : string) : option (string * string) :=
  match s with
  | EmptyString => None
  | String a s' =>
      if Ascii.eqb a c then Some (EmptyString, s')
      else match str_partition c s' with
           | Some (l, r) => Some (String a l, r)
           | None => None
           end
  end.

(** [s.split(c, 1)]. *)
Definition str_split1 (c : ascii) (s : string) : list string :=
  match str_partition c s with
  | Some (l, r) => [l; r]
  | None => [s]
  end.

(** [s.rstrip(c)] for a one-character [c]: every trailing [c] goes. *)
Fixpoint str_rstrip (c : ascii) (s : string) : string :=
  match s with
  | EmptyString => EmptyString
  | String a s' =>
      match str_rstrip c s' with
      | EmptyString => if Ascii.eqb a c then EmptyString else String a EmptyString
      | r => String a r
      end
  end.

(** [c * n]. *)
Fixpoint str_repeat (c : ascii) (n : nat) : string :=
  match n with
  | O => EmptyString
  | S n' => String c (str_repeat c n')
  end.

(** [s.lower()] on ASCII letters. *)
Definition ascii_lower (c : ascii) : ascii :=
  let n := nat_of_ascii c in
  if (65 <=? n)%nat && (n <=? 90)%nat then ascii_of_nat (n + 32) else c.

Fixpoint str_lower (s : string) : string :=
  match s with
  | EmptyString => EmptyString
  | String c s' => String (ascii_lower c) (str_lower s')
  end.

(** The number of bytes of the UTF-8 sequence that [c] starts. *)
Definition utf8_width (c : ascii) : nat :=
  let n := nat_of_ascii c in
  if (n <? 192)%nat then 1 else if (n <? 224)%nat then 2 else if (n <? 240)%nat then 3 else 4.

(** The characters of [s] after [current], a character of which [need]
    bytes are still to come. *)
Fixpoint str_chars_from (need : nat) (current s : string) : list string :=
  match s with
  | EmptyString => match current with EmptyString => [] | _ => [current] end
  | String c s' =>
      match need with
      | S O => (current ++ String c EmptyString)%string :: str_chars_from 0 EmptyString s'
      | S need' => str_chars_from need' (current ++ String c EmptyString)%string s'
      | O =>
          match utf8_width c with
          | S O => String c EmptyString :: str_chars_from 0 EmptyString s'
          | width => str_chars_from (pred width) (String c EmptyString) s'
          end
      end
  end.

(** [list(s)]: the characters of [s], one string for each code point. *)
Definition str_chars (s : string) : list string := str_chars_from 0 EmptyString s.

Definition hex_digit (n : nat) : ascii :=
  ascii_of_nat (if (n <? 10)%nat then 48 + n else 87 + n).

Definition backslash : ascii := ascii_of_nat 92.

Definition double_quote : ascii := ascii_of_nat 34.

(** How [repr] writes one character inside the quotes [q]. *)
Definition repr_char (q c : ascii) : string :=
  let n := nat_of_ascii c in
  if Ascii.eqb c backslash then String backslash (String backslash EmptyString)
  else if Ascii.eqb c q then String backslash (String c EmptyString)
  else if (n =? 10)%nat then String backslash "n"
  else if (n =? 13)%nat then String backslash "r"
  else if (n =? 9)%nat then String backslash "t"
  else if (n <? 32)%nat || (n =? 127)%nat then
    String backslash
      (String "x" (String (hex_digit (n / 16)) (String (hex_digit (n mod 16)) EmptyString)))
  else String c EmptyString.

Fixpoint repr_chars (q : ascii) (s : string) : string :=
  match s with
  | EmptyString => EmptyString
  | String c s' => (repr_char q c ++ repr_chars q s')%string
  end.

(** [repr(s)] for a string of printable characters: single quotes, unless
    the string holds a single quote and no double quote. *)
Definition py_repr (s : string) : string :=
  let q := if str_contains "'" s && negb (str_contains double_quote s)
           then double_quote else "'"%char in
  String q (repr_chars q s ++ String q EmptyString)%string.

(** ** Dictionaries *)

Section Dict.
Context {V : Type}.

(** [d.get(k)], with [None] for a missing key. *)
Fixpoint dict_get (d : list (string * V)) (k : string) : option V :=
  match d with
  | [] => None
  | (k', v) :: d' => if String.eqb k' k then Some v else dict_get d' k
  end.

(** [k in d]. *)
Definition dict_mem (d : list (string * V)) (k : string) : bool :=
  match dict_get d k with Some _ => true | None => false end.

(** [d[k] = v]: an existing key keeps its place, a new one goes last. *)
Fixpoint dict_set (d : list (string * V)) (k : string) (v : V) : list (string * V) :=
  match d with
  | [] => [(k, v)]
  | (k', v') :: d' =>
      if String.eqb k' k then (k', v) :: d' else (k', v') :: dict_set d' k v
  end.

(** [list(d.keys())]. *)
Definition dict_keys (d : list (string * V)) : list string := map fst d.

(** [d.update(e)]. *)
Definition dict_update (d e : list (string * V)) : list (string * V) :=
  fold_left (fun acc kv => dict_set acc (fst kv) (snd kv)) e d.
End Dict.

(** [row.get(k)] as Python sees it: the value [None] for a missing key. *)
Definition dict_get_value (d : dict) (k : string) : value :=
  match dict_get d k with Some v => v | None => VNone end.

(** ** What the RFC library describes and what the script prints *)

(** A function description of pyrfc: the parameters of a function module,
    each with the keys the script reads, and the structure behind a
    parameter when it has one. *)
Record field_description : Type := {
  field_name : string;
  field_type : string;
  field_nuc_length : Z;
  field_nuc_offset : Z;
  field_uc_length : Z;
  field_uc_offset : Z;
  field_decimals : Z;
  field_type_description : option string
}.

Record type_description : Type := {
  type_name : string;
  type_nuc_length : Z;
  type_uc_length : Z;
  fields : list field_description
}.

Record parameter : Type := {
  name : string;
  parameter_type : string;
  direction : string;
  nuc_length : Z;
  uc_length : Z;
  decimals : Z;
  default_value : option string;
  optional : bool;
  type_desc : option type_description;
  parameter_text : string
}.

Record function_description : Type := {
  parameters : list parameter
}.

(** How [_display_all_results] and [_display_captured_results] show a value:
    the text of [json.dumps(value, indent=2)] for a list or a dict, the
    value itself otherwise. *)
Inductive formatted : Type :=
| Json (v : value)
| Plain (v : value).

(** [json.dumps(v, indent=2)]: [TypeError] at the first object the encoder
    cannot serialise. *)
Definition json_dumps (v : value) : res formatted :=
  match json_fault v with
  | None => Ok (Json v)
  | Some type_name =>
      Raise (TypeError ("Object of type " ++ type_name ++ " is not JSON serializable"))
  end.

Inductive level : Type := info | success | warning | error.

(** The lines the script writes to standard output. *)
Inductive line : Type :=
| Banner
| Blank
| Log (l : level) (msg : string)
| Item (key : string) (shown : formatted)
| ParameterHeader
| ParameterRow (p : parameter)
| StructureBegin (t : type_description)
| FieldHeader
| FieldRow (f : field_description)
| StructureEnd (t : type_description)
| Rule.

(** ** The trace monad *)

Inductive event : Type :=
| Print (l : line)
| RfcOpen (params : list (string * string))
| RfcAttributes
| RfcDescribe (function_name : string)
| RfcCall (function_name : string) (params : dict)
| RfcClose.

Definition io (A : Type) : Type := (list event * res A)%type.

Definition io_ret {A : Type} (a : A) : io A := ([], Ok a).

Definition io_raise {A : Type} (e : exn) : io A := ([], Raise e).

Definition io_bind {A B : Type} (m : io A) (k : A -> io B) : io B :=
  match m with
  | (t, Ok a) => let (t', r) := k a in (t ++ t', r)
  | (t, Raise e) => (t, Raise e)
  end.

Definition emit (ev : event) : io unit := ([ev], Ok tt).

Definition print (l : line) : io unit := emit (Print l).

(** A call into the RFC library: the event, then what the library answers. *)
Definition rfc {A : Type} (ev : event) (answer : res A) : io A := ([ev], answer).

(** [try: m  except ...: h e]; [h] gives [None] for an exception that no
    [except] clause matches, which then propagates. *)
Definition io_try {A : Type} (m : io A) (h : exn -> option (io A)) : io A :=
  match m with
  | (t, Raise e) =>
      match h e with
      | Some (t', r) => (t ++ t', r)
      | None => (t, Raise e)
      end
  | (t, Ok a) => (t, Ok a)
  end.

(** Leaving a [with] block: [cleanup] runs whether [m] returned or raised,
    and what [m] raised propagates afterwards. *)
Definition io_finally {A : Type} (m : io A) (cleanup : io unit) : io A :=
  match m, cleanup with
  | (t, r), (t', Ok _) => (t ++ t', r)
  | (t, _), (t', Raise e) => (t ++ t', Raise e)
  end.

Declare Scope io_scope.
Delimit Scope io_scope with io.
Notation "x <- m ;; k" := (io_bind m (fun x => k))
  (at level 61, m at next level, right associativity) : io_scope.
Notation "m ;; k" := (io_bind m (fun _ => k))
  (at level 61, right associativity) : io_scope.

Fixpoint io_for {A : Type} (l : list A) (body : A -> io unit) : io unit :=
  match l with
  | [] => io_ret tt
  | a :: l' => (body a ;; io_for l' body)%io
  end.

Module Logger.
Definition log (l : level) (message : string) : io unit := print (Log l message).
Definition info := log info.
Definition success := log success.
Definition warning := log warning.
Definition error := log error.
End Logger.

(** [d[k]]: [KeyError] for a missing key. *)
Definition dict_item {V : Type} (d : list (string * V)) (k : string) : res V :=
  match dict_get d k with
  | Some v => Ok v
  | None => Raise (KeyError k)
  end.

(** [d.get(k, default)]. *)
Definition dict_get_default {V : Type} (d : list (string * V)) (k : string) (default : V) : V :=
  match dict_get d k with
  | Some v => v
  | None => default
  end.

(** [k in ks] for a list of strings. *)
Definition list_mem (k : string) (ks : list string) : bool :=
  existsb (String.eqb k) ks.

(** ** class ConnectionParams *)

Module ConnectionParams.

Record t : Type := {
  user : string;
  passwd : string;
  ashost : string;
  client : string;
  sysnr : string;
  saprouter : option string;
  dest : option string;
  lang : option string
}.

(** [self.__dict__.items()]: the fields in declaration order; a field of
    type [str] is never [None]. *)
Definition __dict__ (self : t) : list (string * option string) :=
  [ ("user", Some (user self));
    ("passwd", Some (passwd self));
    ("ashost", Some (ashost self));
    ("client", Some (client self));
    ("sysnr", Some (sysnr self));
    ("saprouter", saprouter self);
    ("dest", dest self);
    ("lang", lang self) ].

Definition to_dict (self : t) : list (string * string) :=
  flat_map
    (fun kv =>
       match snd kv with
       | Some v => if negb (list_mem (fst kv) ["dest"; "lang"]) then [(fst kv, v)] else []
       | None => []
       end)
    (__dict__ self).

Definition field_names : list string :=
  ["user"; "passwd"; "ashost"; "client"; "sysnr"; "saprouter"; "dest"; "lang"].

(** [ConnectionParams] called with the entries of [d] as keywords: the
    generated [__init__] refuses a keyword it does not know and a missing
    required field. *)
Definition of_dict (d : list (string * string)) : res t :=
  if negb (forallb (fun k => list_mem k field_names) (dict_keys d)) then
    Raise (TypeError "__init__() got an unexpected keyword argument")
  else
    match dict_get d "user", dict_get d "passwd", dict_get d "ashost", dict_get d "client" with
    | Some u, Some p, Some h, Some c =>
        Ok {| user := u; passwd := p; ashost := h; client := c;
              sysnr := dict_get_default d "sysnr" "00";
              saprouter := dict_get d "saprouter";
              dest := dict_get d "dest";
              lang := dict_get d "lang" |}
    | _, _, _, _ => Raise (TypeError "__init__() missing required positional arguments")
    end.

End ConnectionParams.

(** ** The RFC library *)

(** What pyrfc and the remote system answer.  [rfc_open] is [Connection]
    called with the parameters as keywords, [rfc_attributes] is
    [get_connection_attributes()], [rfc_description] is
    [get_function_description(name)] ([None] for a description that is
    falsy), [rfc_call] is [call] with the function name and the import
    parameters as keywords.  A connection stays alive until it is closed,
    and closing it does not raise. *)
Record rfc_library : Type := {
  rfc_open : list (string * string) -> res unit;
  rfc_attributes : res (list (string * string));
  rfc_description : string -> res (option function_description);
  rfc_call : string -> dict -> res dict
}.

(** ** Sorting *)

(** [s.upper()] on ASCII letters. *)
Definition ascii_upper (c : ascii) : ascii :=
  let n := nat_of_ascii c in
  if (97 <=? n)%nat && (n <=? 122)%nat then ascii_of_nat (n - 32) else c.

Fixpoint str_upper (s : string) : string :=
  match s with
  | EmptyString => EmptyString
  | String c s' => String (ascii_upper c) (str_upper s')
  end.

(** [a < b] on tuples [(int, str)]: the first components decide unless they
    are equal. *)
Definition key_lt (a b : Z * string) : bool :=
  (fst a <? fst b)%Z || ((fst a =? fst b)%Z && String.ltb (snd a) (snd b)).

Section Sorted.
Context {A K : Type}.
Variable lt : K -> K -> bool.
Variable key : A -> K.

(** [x] goes in front of the first element it does not come after. *)
Fixpoint insert_by (x : A) (l : list A) : list A :=
  match l with
  | [] => [x]
  | y :: l' => if lt (key y) (key x) then y :: insert_by x l' else x :: y :: l'
  end.

(** [sorted(l, key=key)].  Python's sort is stable, and the stable
    arrangement of a list by a total preorder on keys is unique: it is
    the one this insertion sort builds. *)
Definition sorted (l : list A) : list A := fold_right insert_by [] l.
End Sorted.

(** ** class SAPConnection *)

Definition direction_order : list (string * Z) :=
  [("IMPORTING", 1%Z); ("EXPORTING", 2%Z); ("CHANGING", 3%Z); ("TABLES", 4%Z)].

(** The sort key local to [get_function_metadata]. *)
Definition parameter_key_function (p : parameter) : Z * string :=
  (dict_get_default direction_order (str_upper (direction p)) 5%Z, name p).

Module SAPConnection.

(** The object: its parameters, and whether [self.connection] holds a
    connection ([None] until [connect] has opened one). *)
Record t : Type := {
  conn_params : ConnectionParams.t;
  connection : bool
}.

Definition __init__ (conn_params : ConnectionParams.t) : t :=
  {| conn_params := conn_params; connection := false |}.

(** *** The result projector *)

(** The table name and the field of a specifier in indexed-table form:
    [table_name, field = param.split('[', 1)], then
    [field = field.rstrip(']')]. *)
Definition split_specifier (param : string) : res (string * string) :=
  match str_split1 "[" param with
  | [table_name; field] => Ok (table_name, str_rstrip "]" field)
  | _ => Raise (ValueError "not enough values to unpack")
  end.

(** [row.get(field) or row.get("WA")]. *)
Definition extract (field : string) (row : dict) : value :=
  py_or (dict_get_value row field) (dict_get_value row "WA").

(** The generator handed to [extend]: one element for each row that is a
    dict, in the order of the rows. *)
Definition column (field : string) (rows : list value) : list value :=
  flat_map
    (fun row =>
       match row with
       | VDict r => [extract field r]
       | _ => []
       end)
    rows.

(** [captured_results[param].extend(xs)] on a [defaultdict(list)]: a
    missing key is first bound to an empty list. *)
Definition extend (captured_results : dict) (param : string) (xs : list value) : res dict :=
  match dict_get captured_results param with
  | None => Ok (dict_set captured_results param (VList xs))
  | Some (VList old) => Ok (dict_set captured_results param (VList (old ++ xs)))
  | Some _ => Raise (AttributeError "object has no attribute 'extend'")
  end.

(** The test for the indexed-table form:
    ['[' in param and param.endswith(']')]. *)
Definition indexed_form (param : string) : bool :=
  str_contains "[" param && str_endswith "]" param.

(** One turn of the loop over [params_to_capture], for an element that is
    a string. *)
Definition capture (result captured_results : dict) (param : string) : res dict :=
  if indexed_form param then
    (tf <- split_specifier param ;;
     let table_name := fst tf in
     let field := snd tf in
     match dict_get result table_name with
     | Some (VList rows) => extend captured_results param (column field rows)
     | _ => Ok captured_results
     end)%res
  else
    match dict_get result param with
    | Some v => Ok (dict_set captured_results param v)
    | None => Ok captured_results
    end.

(** One turn of the loop, for any element of the set.  The set is built
    from the file as it is, so an element may be a number, a boolean or
    [None]; the test ['[' in param] raises [TypeError] on those.  A list or
    a dict cannot be in a set; on one, the test is a membership test, after
    which [endswith] or the lookup [param in result] raises. *)
Definition capture_element (result captured_results : dict) (param : value) : res dict :=
  match param with
  | VStr param => capture result captured_results param
  | VBytes _ => Raise (TypeError "a bytes-like object is required, not 'str'")
  | VList items =>
      if existsb (fun item => match item with VStr s => String.eqb s "[" | _ => false end) items
      then Raise (AttributeError "'list' object has no attribute 'endswith'")
      else Raise (TypeError "unhashable type: 'list'")
  | VDict entries =>
      if dict_mem entries "["
      then Raise (AttributeError "'dict' object has no attribute 'endswith'")
      else Raise (TypeError "unhashable type: 'dict'")
  | _ =>
      Raise (TypeError ("argument of type '" ++ qualified_type_name param
                        ++ "' is not iterable"))
  end.

(** The loop: [captured_results] after the elements [params] have been
    visited in that order, starting from [acc]. *)
Fixpoint capture_loop (result acc : dict) (params : list value) : res dict :=
  match params with
  | [] => Ok acc
  | param :: params' =>
      (acc' <- capture_element result acc param ;; capture_loop result acc' params')%res
  end.

(** The loop over a set of strings, which is what the signatures of the
    script take [params_to_capture] to be. *)
Definition capture_all (result acc : dict) (params : list string) : res dict :=
  capture_loop result acc (map VStr params).

(** [json.dumps(value, indent=2) if isinstance(value, (list, dict)) else
    value]. *)
Definition format_value (v : value) : res formatted :=
  if isinstance_list v || isinstance_dict v then json_dumps v else Ok (Plain v).

(** One turn of the loop of the two display methods: the value is
    formatted, which may raise, and then the line is printed. *)
Definition display_item (kv : string * value) : io unit :=
  (formatted_value <- ([], format_value (snd kv)) ;;
   print (Item (fst kv) formatted_value))%io.

Definition _display_all_results (result : dict) : io unit :=
  (Logger.info "Function returned the following data:" ;;
   io_for result display_item)%io.

Definition _display_captured_results (results : dict) : io unit :=
  (Logger.info "Function returned the following requested data:" ;;
   io_for results display_item)%io.

(** [params_to_capture] is [None] or a set, given in iteration order;
    [not params_to_capture] holds for [None] and for the empty set. *)
Definition _process_results (result : dict) (params_to_capture : option (list value)) : io unit :=
  match params_to_capture with
  | None | Some [] => _display_all_results result
  | Some params =>
      (captured_results <- ([], capture_loop result [] params) ;;
       _display_captured_results captured_results)%io
  end.

Section Methods.
Variable lib : rfc_library.

Definition connect (self : t) : io t :=
  let params_dict := ConnectionParams.to_dict (conn_params self) in
  (ashost <- ([], dict_item params_dict "ashost") ;;
   sysnr <- ([], dict_item params_dict "sysnr") ;;
   client <- ([], dict_item params_dict "client") ;;
   Logger.info ("Connecting to SAP system " ++ ashost ++ " (sys: " ++ sysnr
                ++ ", client: " ++ client ++ ")...") ;;
   io_try
     (rfc (RfcOpen params_dict) (rfc_open lib params_dict) ;;
      system_info <- rfc RfcAttributes (rfc_attributes lib) ;;
      Logger.success ("Connected to SAP system: "
                      ++ dict_get_default system_info "sysId" "Unknown") ;;
      io_ret {| conn_params := conn_params self; connection := true |})
     (fun e =>
        if is_RFCError e then
          Some (Logger.error ("Connection error: " ++ exn_str e) ;;
                io_raise (SystemExit 1))
        else None))%io.

Definition close (self : t) : io unit :=
  if connection self then
    (emit RfcClose ;; Logger.info "SAP connection closed")%io
  else io_ret tt.

(** What the loop of [get_function_metadata] prints for one parameter. *)
Definition print_parameter (p : parameter) : io unit :=
  (print (ParameterRow p) ;;
   match type_desc p with
   | Some t =>
       print (StructureBegin t) ;;
       print FieldHeader ;;
       io_for (fields t) (fun f => print (FieldRow f)) ;;
       print (StructureEnd t)
   | None => io_ret tt
   end ;;
   print Rule)%io.

Definition get_function_metadata (self : t) (function_name : string) : io bool :=
  if negb (connection self) then io_raise (RuntimeError "No active connection")
  else
    (Logger.info ("Getting function description for: " ++ function_name) ;;
     io_try
       (func_desc <- rfc (RfcDescribe function_name) (rfc_description lib function_name) ;;
        match func_desc with
        | None =>
            Logger.error ("Could not retrieve description for function " ++ function_name) ;;
            io_ret false
        | Some d =>
            Logger.success ("Parameters of function: " ++ function_name) ;;
            print ParameterHeader ;;
            io_for (sorted key_lt parameter_key_function (parameters d)) print_parameter ;;
            io_ret true
        end)
       (fun e =>
          if is_RFCError e then
            Some (Logger.error ("RFC error retrieving function description: " ++ exn_str e) ;;
                  io_ret false)
          else if is_Exception e then
            Some (Logger.error ("Error retrieving function description: " ++ exn_str e) ;;
                  io_ret false)
          else None))%io.

Definition execute_function (self : t) (function_name : string)
    (import_params : option dict) (params_to_capture : option (list value)) : io bool :=
  if negb (connection self) then io_raise (RuntimeError "No active connection")
  else
    (Logger.info ("Invoking function module '" ++ function_name ++ "'...") ;;
     let import_params := match import_params with Some d => d | None => [] end in
     io_try
       (result <- rfc (RfcCall function_name import_params)
                      (rfc_call lib function_name import_params) ;;
        Logger.success ("Function module '" ++ function_name ++ "' called successfully") ;;
        (if truthy (VDict result) then _process_results result params_to_capture
         else io_ret tt) ;;
        io_ret true)
       (fun e =>
          if is_RFCError e then
            Some (Logger.error ("Function execution error: " ++ exn_str e) ;;
                  io_ret false)
          else None))%io.
End Methods.

End SAPConnection.

(** ** class ConfigManager *)

(** A [ConfigParser] after [read]: the options of the [DEFAULT] section and
    the other sections in file order, with their values as written in the
    file.  The parser has lower-cased the option names and refused
    duplicates. *)
Record config : Type := {
  config_defaults : list (string * string);
  config_sections : list (string * list (string * string))
}.

(** A path as [os.path.isfile] and the parser of its content see it. *)
Inductive file (A : Type) : Type :=
| NoFile
| Malformed (e : exn)
| Content (a : A).

Arguments NoFile {A}.
Arguments Malformed {A} e.
Arguments Content {A} a.

(** [os.path.isfile(path)]. *)
Definition isfile {A : Type} (f : file A) : bool :=
  match f with
  | NoFile => false
  | _ => true
  end.

(** [json.load] on the opened file. *)
Definition json_load (f : file value) : res value :=
  match f with
  | Content v => Ok v
  | Malformed e => Raise e
  | NoFile => Raise (OSError "No such file or directory")
  end.

(** The truth value of an optional string: [None] and [""] are false. *)
Definition opt_truthy (o : option string) : bool :=
  match o with
  | Some s => negb (String.eqb s "")
  | None => false
  end.

Module ConfigParser.

(** [config.read(path)], which skips a file it cannot open. *)
Definition read (f : file config) : res config :=
  match f with
  | Content c => Ok c
  | Malformed e => Raise e
  | NoFile => Ok {| config_defaults := []; config_sections := [] |}
  end.

Definition sections (c : config) : list string := dict_keys (config_sections c).

Definition has_option (c : config) (section option : string) : bool :=
  if String.eqb section "" || String.eqb section "DEFAULT" then
    dict_mem (config_defaults c) option
  else
    match dict_get (config_sections c) section with
    | None => false
    | Some options => dict_mem options option || dict_mem (config_defaults c) option
    end.

Definition MAX_INTERPOLATION_DEPTH : nat := 10.

Definition NoSectionError (section : string) : exn :=
  ConfigParserError ("No section: " ++ py_repr section).

Definition NoOptionError (option section : string) : exn :=
  ConfigParserError ("No option " ++ py_repr option ++ " in section: " ++ py_repr section).

(** The name in a reference whose text after the opening bracket is
    [after]: one or more characters other than a closing bracket, followed
    by a closing bracket and an [s]. *)
Definition reference_name (after : string) : option string :=
  match str_partition ")" after with
  | Some (var, String c _) =>
      if Ascii.eqb c "s" && negb (String.eqb var "") then Some var else None
  | _ => None
  end.

(** The interpolation of the parser, [BasicInterpolation]: in a value that
    is read, [%%] stands for a percent sign and [%(name)s] for the value of
    the option [name], looked up in [map] and interpolated in turn; any
    other use of a percent sign is an error. *)
Section Interpolation.
Variable option section rawval : string.
Variable map : list (string * string).

Definition InterpolationDepthError : exn :=
  ConfigParserError
    ("Recursion limit exceeded in value substitution: option " ++ py_repr option
     ++ " in section " ++ py_repr section
     ++ " contains an interpolation key which cannot be substituted in 10 steps. Raw value: "
     ++ py_repr rawval).

Definition InterpolationMissingOptionError (reference : string) : exn :=
  ConfigParserError
    ("Bad value substitution: option " ++ py_repr option ++ " in section " ++ py_repr section
     ++ " contains an interpolation key " ++ py_repr reference
     ++ " which is not a valid option name. Raw value: " ++ py_repr rawval).

Definition InterpolationSyntaxError (msg : string) : exn := ConfigParserError msg.

(** The [while] loop of [_interpolate_some], character by character: a
    character other than a percent sign is copied, and so is the text of a
    value that has been put in; [skip] counts the characters of [rest]
    that the last step has consumed already.  [deeper] interpolates a
    value that a reference stands for, one level down. *)
Fixpoint _interpolate_loop (deeper : string -> res string) (skip : nat) (rest : string)
    : res string :=
  match rest with
  | EmptyString => Ok EmptyString
  | String c rest' =>
      match skip with
      | S skip' => _interpolate_loop deeper skip' rest'
      | O =>
          if negb (Ascii.eqb c "%") then
            (accum <- _interpolate_loop deeper 0 rest' ;; Ok (String c accum))%res
          else
            match rest' with
            | String c' after =>
                if Ascii.eqb c' "%" then
                  (accum <- _interpolate_loop deeper 0 after ;; Ok (String "%" accum))%res
                else if Ascii.eqb c' "(" then
                  match reference_name after with
                  | None =>
                      Raise (InterpolationSyntaxError
                               ("bad interpolation variable reference " ++ py_repr rest))
                  | Some name =>
                      let var := str_lower name in
                      match dict_get map var with
                      | None => Raise (InterpolationMissingOptionError var)
                      | Some v =>
                          (v' <- (if str_contains "%" v then deeper v else Ok v) ;;
                           accum <- _interpolate_loop deeper (String.length name + 3) rest' ;;
                           Ok (v' ++ accum)%string)%res
                      end
                  end
                else
                  Raise (InterpolationSyntaxError
                           ("'%' must be followed by '%' or '(', found: " ++ py_repr rest))
            | EmptyString =>
                Raise (InterpolationSyntaxError
                         ("'%' must be followed by '%' or '(', found: " ++ py_repr rest))
            end
      end
  end.

(** [_interpolate_some] with [levels] levels of references left: it is
    entered at depth 1 and refuses to enter depth 11. *)
Fixpoint _interpolate_some (levels : nat) (rest : string) : res string :=
  match levels with
  | O => Raise InterpolationDepthError
  | S levels' => _interpolate_loop (_interpolate_some levels') 0 rest
  end.
End Interpolation.

(** [before_get]: the interpolated text of [rawval], the value of [option]
    in [section] as the file has it. *)
Definition before_get (section option rawval : string) (map : list (string * string))
    : res string :=
  _interpolate_some option section rawval map MAX_INTERPOLATION_DEPTH rawval.

(** [config.get(section, option)]: the section's own value first, the
    default otherwise, interpolated over the options of both. *)
Definition get (c : config) (section option : string) : res string :=
  match dict_get (config_sections c) section with
  | None =>
      if String.eqb section "DEFAULT" then
        match dict_get (config_defaults c) option with
        | Some v => before_get section option v (config_defaults c)
        | None => Raise (NoOptionError option section)
        end
      else Raise (NoSectionError section)
  | Some options =>
      match dict_get (options ++ config_defaults c) option with
      | Some v => before_get section option v (options ++ config_defaults c)
      | None => Raise (NoOptionError option section)
      end
  end.

(** [[(option, value_getter(option)) for option in orig_keys]]. *)
Fixpoint interpolated (section : string) (d entries : list (string * string))
    : res (list (string * string)) :=
  match entries with
  | [] => Ok []
  | (option, rawval) :: entries' =>
      (v <- before_get section option rawval d ;;
       l <- interpolated section d entries' ;;
       Ok ((option, v) :: l))%res
  end.

(** [config.items(section)]: the defaults, updated with the section's own
    options, each value interpolated over them. *)
Definition items (c : config) (section : string) : res (list (string * string)) :=
  match dict_get (config_sections c) section with
  | Some options =>
      let d := dict_update (config_defaults c) options in
      interpolated section d d
  | None =>
      if String.eqb section "DEFAULT" then
        interpolated section (config_defaults c) (config_defaults c)
      else Raise (NoSectionError section)
  end.

End ConfigParser.

Module ConfigManager.

(** The loop over [config.sections()] of [load_config]: the first section
    that has an option [dest] whose value is [dest]. *)
Fixpoint find_dest (c : config) (dest : string) (sections : list string) : res (option string) :=
  match sections with
  | [] => Ok None
  | section :: sections' =>
      if ConfigParser.has_option c section "dest" then
        (v <- ConfigParser.get c section "dest" ;;
         if String.eqb v dest then Ok (Some section) else find_dest c dest sections')%res
      else find_dest c dest sections'
  end.

Section Files.
Variable config_files : string -> file config.
Variable json_files : string -> file value.

Definition load_config (config_file : string) (dest : option string)
    : io (list (string * string)) :=
  if negb (isfile (config_files config_file)) then
    (Logger.error ("Configuration file not found: " ++ config_file) ;;
     io_raise (SystemExit 1))%io
  else
    io_try
      (c <- ([], ConfigParser.read (config_files config_file)) ;;
       if opt_truthy dest then
         let d := match dest with Some d => d | None => "" end in
         found <- ([], find_dest c d (ConfigParser.sections c)) ;;
         match found with
         | Some section => ([], ConfigParser.items c section)
         | None =>
             Logger.error ("Destination '" ++ d ++ "' not found in config file") ;;
             io_raise (SystemExit 1)
         end
       else
         match ConfigParser.sections c with
         | [] =>
             Logger.error ("No connection configurations found in " ++ config_file) ;;
             io_raise (SystemExit 1)
         | section :: _ => ([], ConfigParser.items c section)
         end)%io
      (fun e =>
         if is_Exception e then
           Some (Logger.error ("Error reading configuration: " ++ exn_str e) ;;
                 io_raise (SystemExit 1))%io
         else None).

Definition load_json (file_path : string) : io dict :=
  if negb (isfile (json_files file_path)) then
    (Logger.error ("File not found: " ++ file_path) ;;
     io_raise (SystemExit 1))%io
  else
    io_try
      (data <- ([], json_load (json_files file_path)) ;;
       match data with
       | VDict d => io_ret d
       | _ => io_raise (ValueError "Expected a dictionary")
       end)%io
      (fun e =>
         if is_Exception e then
           Some (Logger.error ("Error reading " ++ file_path ++ ": " ++ exn_str e) ;;
                 io_raise (SystemExit 1))%io
         else None).
End Files.

End ConfigManager.

(** ** [parse_args] and [main] *)

Module Args.
(** The namespace [argparse] builds from the command line. *)
Record t : Type := {
  connection : option string;
  dest : option string;
  user : option string;
  password : option string;
  target : option string;
  client : option string;
  sysnr : string;
  port : string;
  saprouter : option string;
  function : string;
  import_path : option string;
  export_path : option string;
  desc : bool
}.
End Args.

(** The check that ends [parse_args]; [parser.error] leaves with status 2. *)
Definition parse_args (args : Args.t) : res Args.t :=
  if negb (opt_truthy (Args.connection args))
     && negb (forallb opt_truthy
                [Args.user args; Args.password args; Args.target args; Args.client args])
  then Raise (SystemExit 2)
  else Ok args.

(** [o] is an order in which a [for] loop may visit [set(arr)]: every
    element of [arr], once. *)
Definition set_iteration (arr o : list string) : Prop :=
  NoDup o /\ forall x, In x o <-> In x arr.

(** [iter(v)] run to its end: the items of a list, the keys of a dict, the
    characters of a string, the bytes of a bytes object; [TypeError] for a
    value that is not iterable. *)
Definition py_iter (v : value) : res (list value) :=
  match v with
  | VList items => Ok items
  | VDict entries => Ok (map VStr (dict_keys entries))
  | VStr s => Ok (map VStr (str_chars s))
  | VBytes b => Ok (map (fun c => VInt (Z.of_nat (nat_of_ascii c))) (list_ascii_of_string b))
  | _ => Raise (TypeError ("'" ++ qualified_type_name v ++ "' object is not iterable"))
  end.

Section Main.
Variable lib : rfc_library.
Variable config_files : string -> file config.
Variable json_files : string -> file value.
(** The order in which this run's hash table lists the set built from a
    list of values. *)
Variable set_order : list value -> list value.

(** [set(capture)] for the ["capture"] entry of the export file, whatever
    the file holds there: [TypeError] for an entry that is not iterable and
    for an element that has no hash. *)
Definition capture_set (capture : value) : res (list value) :=
  (elements <- py_iter capture ;;
   match find (fun element => negb (hashable element)) elements with
   | Some element =>
       Raise (TypeError ("unhashable type: '" ++ type_name_of element ++ "'"))
   | None => Ok (set_order elements)
   end)%res.

(** The body of the [try] block of [main]. *)
Definition main_body (argv : Args.t) : io unit :=
  (print Banner ;;
   args <- ([], parse_args argv) ;;
   import_params <-
     (if opt_truthy (Args.import_path args) then
        d <- ConfigManager.load_json json_files
               (match Args.import_path args with Some p => p | None => "" end) ;;
        io_ret (Some d)
      else io_ret None) ;;
   export_spec <-
     (if opt_truthy (Args.export_path args) then
        d <- ConfigManager.load_json json_files
               (match Args.export_path args with Some p => p | None => "" end) ;;
        io_ret (Some d)
      else io_ret None) ;;
   params_to_capture <-
     match export_spec with
     | Some (kv :: spec) =>
         s <- ([], capture_set (dict_get_default (kv :: spec) "capture" (VList []))) ;;
         io_ret (Some s)
     | _ => io_ret None
     end ;;
   conn_params <-
     (if opt_truthy (Args.connection args) then
        d <- ConfigManager.load_config config_files
               (match Args.connection args with Some p => p | None => "" end)
               (Args.dest args) ;;
        ([], ConnectionParams.of_dict d)
      else
        match Args.user args, Args.password args, Args.target args, Args.client args with
        | Some u, Some p, Some h, Some c =>
            io_ret {| ConnectionParams.user := u;
                      ConnectionParams.passwd := p;
                      ConnectionParams.ashost := h;
                      ConnectionParams.client := c;
                      ConnectionParams.sysnr := Args.sysnr args;
                      ConnectionParams.saprouter := Args.saprouter args;
                      ConnectionParams.dest := None;
                      ConnectionParams.lang := None |}
        | _, _, _, _ => io_raise (SystemExit 2)
        end) ;;
   sap <- SAPConnection.connect lib (SAPConnection.__init__ conn_params) ;;
   io_finally
     (if Args.desc args then
        ok <- SAPConnection.get_function_metadata lib sap (Args.function args) ;;
        if negb ok then io_raise (SystemExit 1) else io_ret tt
      else
        _ <- SAPConnection.execute_function lib sap (Args.function args)
               import_params params_to_capture ;;
        io_ret tt)
     (SAPConnection.close sap))%io.

Definition main (argv : Args.t) : io unit :=
  io_try (main_body argv)
    (fun e =>
       match e with
       | KeyboardInterrupt =>
           Some (print Blank ;;
                 Logger.warning "Operation interrupted by user" ;;
                 io_raise (SystemExit 130))%io
       | _ =>
           if is_Exception e then
             Some (Logger.error ("Unhandled exception: " ++ exn_str e) ;;
                   io_raise (SystemExit 1))%io
           else None
       end).
End Main.

(** The status the process leaves with after [main()]: 0 when [main]
    returns, the code of a [SystemExit] otherwise. *)
Definition exit_code (r : res unit) : Z :=
  match r with
  | Ok _ => 0
  | Raise (SystemExit code) => code
  | Raise KeyboardInterrupt => 130
  | Raise _ => 1
  end.

(** * Properties *)

(** ** Notions the statements use *)

(** The rows of a table that are mappings, in the order of the table. *)
Definition mappings (rows : list value) : list dict :=
  flat_map (fun row => match row with VDict r => [r] | _ => [] end) rows.

(** What one specifier contributes to [captured_results], in closed form:
    the column of its table in indexed-table form, the value of its key in
    plain form, nothing when the target is missing. *)
Definition projection (result : dict) (param : string) : option value :=
  if SAPConnection.indexed_form param then
    match SAPConnection.split_specifier param with
    | Ok (table_name, field) =>
        match dict_get result table_name with
        | Some (VList rows) => Some (VList (SAPConnection.column field rows))
        | _ => None
        end
    | Raise _ => None
    end
  else dict_get result param.

(** The entries a list of specifiers contributes, in the order of the list. *)
Definition projections (result : dict) (params : list string) : dict :=
  flat_map
    (fun param =>
       match projection result param with
       | Some v => [(param, v)]
       | None => []
       end)
    params.

(** The target of a specifier is missing or of the wrong type. *)
Definition missing_target (result : dict) (param : string) : Prop :=
  if SAPConnection.indexed_form param then
    exists table_name field,
      SAPConnection.split_specifier param = Ok (table_name, field) /\
      (dict_get result table_name = None \/
       exists v, dict_get result table_name = Some v /\ isinstance_list v = false)
  else dict_get result param = None.

(** The length the specification gives for an extracted column: the number
    of rows that are mappings and contain the field or ["WA"]. *)
Definition rows_with_field (field : string) (rows : list value) : nat :=
  length (filter (fun row => dict_mem row field || dict_mem row "WA") (mappings rows)).

(** The raw result of the specification's scenario. *)
Definition scenario_result : dict :=
  [ ("ITAB", VList [VDict [("WA", VStr "x")]; VDict [("FIELD", VStr "y")]]);
    ("STATUS", VStr "OK") ].

(** What a run did and how it ended, without the value it returned. *)
Definition outcome {A : Type} (m : io A) : list event * res unit :=
  (fst m, match snd m with Ok _ => Ok tt | Raise e => Raise e end).

(** The same connection parameters with other [dest] and [lang] fields. *)
Definition with_dest_lang (p : ConnectionParams.t) (d l : option string) : ConnectionParams.t :=
  {| ConnectionParams.user := ConnectionParams.user p;
     ConnectionParams.passwd := ConnectionParams.passwd p;
     ConnectionParams.ashost := ConnectionParams.ashost p;
     ConnectionParams.client := ConnectionParams.client p;
     ConnectionParams.sysnr := ConnectionParams.sysnr p;
     ConnectionParams.saprouter := ConnectionParams.saprouter p;
     ConnectionParams.dest := d;
     ConnectionParams.lang := l |}.

(** A section matches a destination: it has an option [dest], its own or
    the default one, whose value is the destination. *)
Definition dest_matches (c : config) (dest section : string) : bool :=
  ConfigParser.has_option c section "dest" &&
  match ConfigParser.get c section "dest" with
  | Ok v => String.eqb v dest
  | Raise _ => false
  end.

(** The configuration file of the specification's scenario: two sections,
    the second with destination [QAS]. *)
Definition scenario_config : config :=
  {| config_defaults := [];
     config_sections :=
       [ ("development",
          [("dest", "DEV"); ("user", "alice"); ("passwd", "a-secret");
           ("ashost", "dev.example.org"); ("client", "100")]);
         ("quality",
          [("dest", "QAS"); ("user", "bob"); ("passwd", "b-secret");
           ("ashost", "qas.example.org"); ("client", "200")]) ] |}.

(** No option value of the file holds a percent sign, so that reading the
    values interpolates nothing. *)
Definition no_percent (c : config) : Prop :=
  forallb (fun kv => negb (str_contains "%" (snd kv)))
    (config_defaults c ++ flat_map snd (config_sections c)) = true.

(** The same two sections, with a percent sign in the second password. *)
Definition percent_config : config :=
  {| config_defaults := [];
     config_sections :=
       [ ("development",
          [("dest", "DEV"); ("user", "alice"); ("passwd", "a-secret");
           ("ashost", "dev.example.org"); ("client", "100")]);
         ("quality",
          [("dest", "QAS"); ("user", "bob"); ("passwd", "100%");
           ("ashost", "qas.example.org"); ("client", "200")]) ] |}.

(** The rank [parameter_key_function] gives a direction. *)
Definition direction_rank (direction : string) : Z :=
  dict_get_default direction_order (str_upper direction) 5%Z.

(** [p] may stand before [q] in the table of parameters: its direction
    ranks lower, or the directions rank the same and its name is not the
    greater one. *)
Definition parameter_le (p q : parameter) : Prop :=
  (direction_rank (direction p) < direction_rank (direction q))%Z \/
  (direction_rank (direction p) = direction_rank (direction q) /\
   String.leb (name p) (name q) = true).

(** A command line that gives the connection parameters directly and asks
    to call (or, with [desc], to describe) a function module. *)
Definition direct_args (function_name : string) (desc : bool) : Args.t :=
  {| Args.connection := None;
     Args.dest := None;
     Args.user := Some "alice";
     Args.password := Some "a-secret";
     Args.target := Some "dev.example.org";
     Args.client := Some "100";
     Args.sysnr := "00";
     Args.port := "3300";
     Args.saprouter := None;
     Args.function := function_name;
     Args.import_path := None;
     Args.export_path := None;
     Args.desc := desc |}.


Definition char_parameter (n dir : string) : parameter :=
  {| name := n;
     parameter_type := "RFCTYPE_CHAR";
     direction := dir;
     nuc_length := 10;
     uc_length := 20;
     decimals := 0;
     default_value := None;
     optional := false;
     type_desc := None;
     parameter_text := "" |}.

(** A system that accepts the connection, describes every function module
    alike and answers every call with an application-level fault. *)
Definition faulting_library : rfc_library :=
  {| rfc_open := fun _ => Ok tt;
     rfc_attributes := Ok [("sysId", "DEV")];
     rfc_description := fun _ =>
       Ok (Some {| parameters :=
                     [ char_parameter "RETURN" "TABLES";
                       char_parameter "RESULT" "EXPORTING";
                       char_parameter "USERNAME" "IMPORTING";
                       char_parameter "CACHE" "IMPORTING" ] |});
     rfc_call := fun _ _ => Raise (ABAPApplicationError "USER_NOT_FOUND") |}.

(** Every entry under a key in indexed-table form holds a list: what keeps
    [extend] from raising. *)
Definition lists_only (acc : dict) : Prop :=
  forall k v,
    SAPConnection.indexed_form k = true -> dict_get acc k = Some v -> isinstance_list v = true.

(** [x] may stand before [y] in a list sorted by [key]: the key of [y] is
    not below the key of [x]. *)
Definition key_le {A K : Type} (lt : K -> K -> bool) (key : A -> K) (x y : A) : Prop :=
  lt (key y) (key x) = false.

(** The connection parameters [direct_args] gives. *)
Definition direct_params : ConnectionParams.t :=
  {| ConnectionParams.user := "alice";
     ConnectionParams.passwd := "a-secret";
     ConnectionParams.ashost := "dev.example.org";
     ConnectionParams.client := "100";
     ConnectionParams.sysnr := "00";
     ConnectionParams.saprouter := None;
     ConnectionParams.dest := None;
     ConnectionParams.lang := None |}.

(** The value behind what a line shows. *)
Definition shown_value (f : formatted) : value :=
  match f with
  | Json v => v
  | Plain v => v
  end.

(** How a value is shown when it can be: as JSON text for a list or a
    dict, as it is otherwise. *)
Definition shown_as (v : value) : formatted :=
  if isinstance_list v || isinstance_dict v then Json v else Plain v.

(** The line [_display_all_results] and [_display_captured_results] print
    for one entry. *)
Definition item_event (kv : string * value) : event :=
  Print (Item (fst kv) (shown_as (snd kv))).

(** [json.dumps] serialises every list and every dict among the values of
    [d]: the display of [d] meets nothing it cannot show. *)
Definition serialisable (d : dict) : Prop :=
  forall k v,
    In (k, v) d -> isinstance_list v || isinstance_dict v = true -> json_fault v = None.

(** Every value in [d], at any depth, is one that [json.dumps] serialises:
    [d] holds no [Decimal] and no [bytes]. *)
Definition json_values (d : dict) : Prop := json_fault (VDict d) = None.

(** The entries of [d] in front of the first one that cannot be shown. *)
Fixpoint displayed (d : dict) : dict :=
  match d with
  | [] => []
  | kv :: d' =>
      match SAPConnection.format_value (snd kv) with
      | Ok _ => kv :: displayed d'
      | Raise _ => []
      end
  end.

(** How the display of [d] ends: with the exception of the first entry
    that cannot be shown, when there is one. *)
Fixpoint display_end (d : dict) : res unit :=
  match d with
  | [] => Ok tt
  | kv :: d' =>
      match SAPConnection.format_value (snd kv) with
      | Ok _ => display_end d'
      | Raise e => Raise e
      end
  end.

(** The keys and values of the [Item] lines of a trace, in order. *)
Definition items_of (trace : list event) : dict :=
  flat_map
    (fun ev =>
       match ev with
       | Print (Item k f) => [(k, shown_value f)]
       | _ => []
       end)
    trace.

(** The parameters of the [ParameterRow] lines of a trace, in order. *)
Definition parameter_rows (trace : list event) : list parameter :=
  flat_map
    (fun ev =>
       match ev with
       | Print (ParameterRow p) => [p]
       | _ => []
       end)
    trace.

(** ** Notions the further properties use *)

(** The calls into the RFC library that a trace holds, in order. *)
Definition rfc_events (trace : list event) : list event :=
  filter (fun ev => match ev with Print _ => false | _ => true end) trace.

(** A run that does not touch the RFC library. *)
Definition quiet {A : Type} (m : io A) : Prop := rfc_events (fst m) = [].

(** The fields [get_function_metadata] lists under a parameter. *)
Definition structure_fields (p : parameter) : list field_description :=
  match type_desc p with
  | Some t => fields t
  | None => []
  end.

(** The fields of the [FieldRow] lines of a trace, in order. *)
Definition field_rows (trace : list event) : list field_description :=
  flat_map
    (fun ev =>
       match ev with
       | Print (FieldRow f) => [f]
       | _ => []
       end)
    trace.

(** An exception that is no [SystemExit]. *)
Definition no_exit (e : exn) : Prop :=
  match e with
  | SystemExit _ => False
  | _ => True
  end.

(** An exception [main_body] may end with: any that is no [SystemExit], and
    a [SystemExit] with status 1 or 2. *)
Definition expected (e : exn) : Prop :=
  match e with
  | SystemExit code => code = 1%Z \/ code = 2%Z
  | _ => True
  end.

Definition ends_as_expected {A : Type} (m : io A) : Prop :=
  forall e, snd m = Raise e -> expected e.

(** The specifiers are a set of strings, or there is none. *)
Definition string_set (params_to_capture : option (list value)) : Prop :=
  match params_to_capture with
  | None => True
  | Some params => exists o, NoDup o /\ params = map VStr o
  end.

(** The RFC library and the readers of the files raise no [SystemExit] of
    their own. *)
Definition well_behaved (lib : rfc_library)
    (config_files : string -> file config) (json_files : string -> file value) : Prop :=
  (forall params e, rfc_open lib params = Raise e -> no_exit e) /\
  (forall e, rfc_attributes lib = Raise e -> no_exit e) /\
  (forall function_name e, rfc_description lib function_name = Raise e -> no_exit e) /\
  (forall function_name params e, rfc_call lib function_name params = Raise e -> no_exit e) /\
  (forall path e, config_files path = Malformed e -> no_exit e) /\
  (forall path e, json_files path = Malformed e -> no_exit e).

(** A command line that gives the connection parameters directly and names
    a file of capture specifiers. *)
Definition capture_args (function_name export_path : string) : Args.t :=
  {| Args.connection := None;
     Args.dest := None;
     Args.user := Some "alice";
     Args.password := Some "a-secret";
     Args.target := Some "dev.example.org";
     Args.client := Some "100";
     Args.sysnr := "00";
     Args.port := "3300";
     Args.saprouter := None;
     Args.function := function_name;
     Args.import_path := None;
     Args.export_path := Some export_path;
     Args.desc := false |}.

(** The connection parameters [main] builds from the flags of a command
    line that names no configuration file. *)
Definition flag_params (argv : Args.t) : ConnectionParams.t :=
  {| ConnectionParams.user := match Args.user argv with Some u => u | None => "" end;
     ConnectionParams.passwd := match Args.password argv with Some p => p | None => "" end;
     ConnectionParams.ashost := match Args.target argv with Some h => h | None => "" end;
     ConnectionParams.client := match Args.client argv with Some c => c | None => "" end;
     ConnectionParams.sysnr := Args.sysnr argv;
     ConnectionParams.saprouter := Args.saprouter argv;
     ConnectionParams.dest := None;
     ConnectionParams.lang := None |}.

(** A command line with the connection parameters on it: no configuration
    file is named, and user, password, target and client are given and not
    empty, whatever the other flags are. *)
Definition direct_flags (argv : Args.t) : Prop :=
  opt_truthy (Args.connection argv) = false /\
  forallb opt_truthy
    [Args.user argv; Args.password argv; Args.target argv; Args.client argv] = true.

(** No file of import parameters and no file of capture specifiers is
    named. *)
Definition no_files (argv : Args.t) : Prop :=
  opt_truthy (Args.import_path argv) = false /\
  opt_truthy (Args.export_path argv) = false.

(** A system that accepts the connection and answers every call with the
    raw result of the specification's scenario. *)
Definition answering_library : rfc_library :=
  {| rfc_open := fun _ => Ok tt;
     rfc_attributes := Ok [("sysId", "DEV")];
     rfc_description := fun _ => Ok None;
     rfc_call := fun _ _ => Ok scenario_result |}.

(** A connection object after [connect]. *)
Definition open_session : SAPConnection.t :=
  {| SAPConnection.conn_params := direct_params; SAPConnection.connection := true |}.

Definition address_fields : list field_description :=
  [ {| field_name := "STREET"; field_type := "RFCTYPE_CHAR";
       field_nuc_length := 30; field_nuc_offset := 0;
       field_uc_length := 60; field_uc_offset := 0;
       field_decimals := 0; field_type_description := None |};
    {| field_name := "CITY"; field_type := "RFCTYPE_CHAR";
       field_nuc_length := 20; field_nuc_offset := 30;
       field_uc_length := 40; field_uc_offset := 60;
       field_decimals := 0; field_type_description := None |} ].

(** A system that describes every function module by a scalar parameter
    and a structure, already in the order of the table, and answers every
    call with an empty result. *)
Definition structured_library : rfc_library :=
  {| rfc_open := fun _ => Ok tt;
     rfc_attributes := Ok [("sysId", "DEV")];
     rfc_description := fun _ =>
       Ok (Some {| parameters :=
                     [ char_parameter "USERNAME" "IMPORTING";
                       {| name := "ADDRESS";
                          parameter_type := "RFCTYPE_STRUCTURE";
                          direction := "EXPORTING";
                          nuc_length := 50;
                          uc_length := 100;
                          decimals := 0;
                          default_value := None;
                          optional := true;
                          type_desc :=
                            Some {| type_name := "BAPIADDR";
                                    type_nuc_length := 50;
                                    type_uc_length := 100;
                                    fields := address_fields |};
                          parameter_text := "" |} ] |});
     rfc_call := fun _ _ => Ok [] |}.

(** The [with] block of [main]: [connect] on entry, the call or the
    description inside, [close] on the way out. *)
Definition session (lib : rfc_library) (args : Args.t)
    (import_params : option dict) (params_to_capture : option (list value))
    (conn_params : ConnectionParams.t) : io unit :=
  (sap <- SAPConnection.connect lib (SAPConnection.__init__ conn_params) ;;
   io_finally
     (if Args.desc args then
        ok <- SAPConnection.get_function_metadata lib sap (Args.function args) ;;
        if negb ok then io_raise (SystemExit 1) else io_ret tt
      else
        _ <- SAPConnection.execute_function lib sap (Args.function args)
               import_params params_to_capture ;;
        io_ret tt)
     (SAPConnection.close sap))%io.

(** The ways a run may use the RFC library: not at all; a connection that
    could not be opened; one whose attributes could not be read; or a
    connection opened, asked for its attributes, used for one call or one
    description, and closed. *)
Definition lifecycle (calls : list event) : Prop :=
  calls = [] \/
  (exists params, calls = [RfcOpen params]) \/
  (exists params, calls = [RfcOpen params; RfcAttributes]) \/
  (exists params function_name import_params,
      calls = [RfcOpen params; RfcAttributes;
               RfcCall function_name import_params; RfcClose]) \/
  (exists params function_name,
      calls = [RfcOpen params; RfcAttributes; RfcDescribe function_name; RfcClose]).

(** A system that refuses the logon. *)
Definition refusing_library : rfc_library :=
  {| rfc_open := fun _ => Raise (LogonError "Name or password is incorrect");
     rfc_attributes := Ok [];
     rfc_description := fun _ => Ok None;
     rfc_call := fun _ _ => Ok [] |}.

(** A system that accepts the connection and then drops it. *)
Definition dropping_library : rfc_library :=
  {| rfc_open := fun _ => Ok tt;
     rfc_attributes := Raise (CommunicationError "connection closed");
     rfc_description := fun _ => Ok None;
     rfc_call := fun _ _ => Ok [] |}.

(** A system whose call the operator interrupts. *)
Definition interrupted_library : rfc_library :=
  {| rfc_open := fun _ => Ok tt;
     rfc_attributes := Ok [("sysId", "DEV")];
     rfc_description := fun _ => Ok None;
     rfc_call := fun _ _ => Raise KeyboardInterrupt |}.

(** A configuration file with a DEFAULT section. *)
Definition defaults_config : config :=
  {| config_defaults := [("sysnr", "01"); ("client", "000")];
     config_sections :=
       [ ("production",
          [("user", "carol"); ("passwd", "c-secret");
           ("ashost", "prd.example.org"); ("client", "300")]) ] |}.


(** ** Dictionaries *)

Section DictFacts.
Context {V : Type}.
Implicit Types (d : list (string * V)) (k : string) (v : V).

Lemma dict_get_set_same d k v : dict_get (dict_set d k v) k = Some v.
Proof.
  induction d as [|[k' v'] d IH]; simpl.
  - now rewrite String.eqb_refl.
  - destruct (String.eqb k' k) eqn:E; simpl; rewrite E; auto.
Qed.

Lemma dict_get_set_other d k k' v :
  k' <> k -> dict_get (dict_set d k v) k' = dict_get d k'.
Proof.
  intros Hne. induction d as [|[k0 v0] d IH]; simpl.
  - destruct (String.eqb_spec k k'); congruence.
  - destruct (String.eqb_spec k0 k) as [->|Hk]; simpl.
    + destruct (String.eqb_spec k k'); congruence.
    + now rewrite IH.
Qed.

Lemma dict_get_None_not_key d k : dict_get d k = None <-> ~ In k (dict_keys d).
Proof.
  induction d as [|[k' v'] d IH]; simpl.
  - tauto.
  - destruct (String.eqb_spec k' k) as [->|Hk].
    + split; [discriminate | tauto].
    + rewrite IH. tauto.
Qed.

(** A new key goes last. *)
Lemma dict_set_new d k v : dict_get d k = None -> dict_set d k v = d ++ [(k, v)].
Proof.
  induction d as [|[k' v'] d IH]; simpl; auto.
  destruct (String.eqb k' k); [discriminate|].
  intros H. now rewrite IH.
Qed.

Lemma dict_get_app d d' k :
  dict_get (d ++ d') k = match dict_get d k with Some v => Some v | None => dict_get d' k end.
Proof.
  induction d as [|[k' v'] d IH]; simpl; auto.
  destruct (String.eqb k' k); auto.
Qed.

Lemma dict_keys_app d d' : dict_keys (d ++ d') = dict_keys d ++ dict_keys d'.
Proof. apply map_app. Qed.

Lemma dict_get_In d k v : dict_get d k = Some v -> In (k, v) d.
Proof.
  induction d as [|[k' v'] d IH]; simpl; [discriminate|].
  destruct (String.eqb_spec k' k) as [->|Hne].
  - intros [= ->]. now left.
  - intros H. right. auto.
Qed.

End DictFacts.

(** ** Strings *)

Section StringFacts.
Variable c : ascii.
Local Open Scope string_scope.

Lemma str_partition_Some s :
  str_contains c s = true ->
  exists l r, str_partition c s = Some (l, r) /\ s = l ++ String c r /\ str_contains c l = false.
Proof.
  induction s as [|a s IH]; simpl; [discriminate|].
  destruct (Ascii.eqb_spec a c) as [->|Hne]; simpl.
  - intros _. exists "", s. auto.
  - intros H. destruct (IH H) as (l & r & -> & -> & Hl).
    exists (String a l), r. simpl.
    destruct (Ascii.eqb_spec a c); [contradiction|]. auto.
Qed.

Lemma str_partition_app s t l r :
  str_partition c s = Some (l, r) -> str_partition c (s ++ t) = Some (l, r ++ t).
Proof.
  revert l r. induction s as [|a s IH]; simpl; [discriminate|].
  intros l r. destruct (Ascii.eqb a c).
  - now intros [= <- <-].
  - destruct (str_partition c s) as [[l' r']|]; [|discriminate].
    intros [= <- <-]. now rewrite (IH l' r' eq_refl).
Qed.

Lemma str_contains_app s t :
  str_contains c (s ++ t) = str_contains c s || str_contains c t.
Proof.
  induction s as [|a s IH]; simpl; auto.
  rewrite IH. now rewrite orb_assoc.
Qed.

Lemma str_endswith_snoc s : str_endswith c (s ++ String c "") = true.
Proof.
  induction s as [|a s IH]; simpl.
  - apply Ascii.eqb_refl.
  - destruct (s ++ String c "") eqn:E; auto.
    destruct s; discriminate.
Qed.

Lemma str_rstrip_snoc s : str_rstrip c (s ++ String c "") = str_rstrip c s.
Proof.
  induction s as [|a s IH]; simpl.
  - now rewrite Ascii.eqb_refl.
  - now rewrite IH.
Qed.

(** [rstrip] removes a run of [c] at the end and leaves no [c] there. *)
Lemma str_rstrip_spec s :
  (exists n, s = str_rstrip c s ++ str_repeat c n) /\ str_endswith c (str_rstrip c s) = false.
Proof.
  induction s as [|a s [[n Hn] Hend]]; simpl.
  - split; [now exists 0|reflexivity].
  - destruct (str_rstrip c s) as [|b r] eqn:E.
    + destruct (Ascii.eqb_spec a c) as [->|Hne].
      * split; [|reflexivity]. exists (S n). simpl in *. now rewrite <- Hn.
      * split.
        -- exists n. simpl in *. now rewrite <- Hn.
        -- simpl. now apply Ascii.eqb_neq.
    + split.
      * exists n. simpl in *. now rewrite <- Hn.
      * exact Hend.
Qed.
End StringFacts.

(** ** The result projector *)

Section Projector.
Import SAPConnection.
Variable result : dict.

Lemma capture_all_nil acc : capture_all result acc [] = Ok acc.
Proof. reflexivity. Qed.

Lemma capture_all_cons acc param params :
  capture_all result acc (param :: params)
  = (acc' <- capture result acc param ;; capture_all result acc' params)%res.
Proof. reflexivity. Qed.

Lemma split_specifier_indexed param :
  indexed_form param = true ->
  exists table_name rest,
    split_specifier param = Ok (table_name, str_rstrip "]" rest) /\
    param = (table_name ++ String "[" rest)%string /\
    str_contains "[" table_name = false.
Proof.
  unfold indexed_form. intros H. apply andb_prop in H as [Hc _].
  destruct (str_partition_Some _ _ Hc) as (l & r & Hp & Hs & Hl).
  exists l, r. unfold split_specifier, str_split1. rewrite Hp. auto.
Qed.

(** A turn of the loop on a specifier that has no entry yet adds what the
    specifier yields, at the end. *)
Lemma capture_fresh acc param :
  dict_get acc param = None ->
  capture result acc param = Ok (acc ++ projections result [param]).
Proof.
  intros Hfresh. unfold capture, projections, projection. simpl.
  destruct (indexed_form param) eqn:Hi.
  - destruct (split_specifier_indexed _ Hi) as (t & rest & -> & _ & _). simpl.
    destruct (dict_get result t) as [[| | | |rows| | | |]|]; simpl; rewrite ?app_nil_r; auto.
    unfold extend. rewrite Hfresh. now rewrite dict_set_new.
  - destruct (dict_get result param); simpl; rewrite ?app_nil_r; auto.
    now rewrite dict_set_new.
Qed.

Lemma projections_keys params : incl (dict_keys (projections result params)) params.
Proof.
  induction params as [|p params IH]; simpl; [easy|].
  unfold projections in *. simpl. rewrite dict_keys_app.
  apply incl_app.
  - destruct (projection result p); simpl; [|easy].
    intros x [<-|[]]. now left.
  - now apply incl_tl.
Qed.

Lemma projections_cons p params :
  projections result (p :: params) = projections result [p] ++ projections result params.
Proof. unfold projections. simpl. now rewrite app_nil_r. Qed.

(** The loop over a duplicate-free list of specifiers, in closed form. *)
Lemma capture_all_closed_form params : forall acc,
  NoDup params ->
  (forall p, In p params -> dict_get acc p = None) ->
  capture_all result acc params = Ok (acc ++ projections result params).
Proof.
  induction params as [|p params IH]; intros acc Hnd Hfresh.
  - rewrite capture_all_nil. now rewrite app_nil_r.
  - inversion Hnd as [|? ? Hnotin Hnd']; subst. rewrite capture_all_cons.
    rewrite capture_fresh by (apply Hfresh; now left). cbn [res_bind].
    rewrite IH; auto.
    + now rewrite (projections_cons p params), app_assoc.
    + intros q Hq. rewrite dict_get_app, Hfresh by now right.
      apply dict_get_None_not_key. intros Hin.
      apply (projections_keys [p]) in Hin. destruct Hin as [<-|[]]. contradiction.
Qed.

Lemma dict_get_projections params p :
  NoDup params -> In p params ->
  dict_get (projections result params) p = projection result p.
Proof.
  induction params as [|q params IH]; intros Hnd Hin; [easy|].
  inversion Hnd as [|? ? Hnotin Hnd']; subst.
  unfold projections in *. simpl. rewrite dict_get_app.
  destruct Hin as [->|Hin].
  - destruct (projection result p) eqn:E; simpl.
    + now rewrite String.eqb_refl.
    + apply dict_get_None_not_key. intros Hk.
      apply projections_keys in Hk. contradiction.
  - assert (q <> p) by (intros ->; contradiction).
    destruct (projection result q); simpl; auto.
    destruct (String.eqb_spec q p); [contradiction|auto].
Qed.

Lemma capture_total acc param :
  lists_only acc ->
  exists acc',
    capture result acc param = Ok acc' /\ lists_only acc' /\
    (forall k, k <> param -> dict_get acc' k = dict_get acc k) /\
    (projection result param = None -> acc' = acc).
Proof.
  intros Hinv. unfold capture, projection.
  destruct (indexed_form param) eqn:Hi.
  - destruct (split_specifier_indexed _ Hi) as (t & rest & -> & _ & _). simpl.
    destruct (dict_get result t) as [v|] eqn:Ht; [|exists acc; auto].
    destruct v as [| | | |rows| | | |]; try (exists acc; now auto).
    unfold extend. destruct (dict_get acc param) as [old|] eqn:Hold.
    + pose proof (Hinv _ _ Hi Hold) as Hl. destruct old; try discriminate.
      eexists. split; [reflexivity|]. split; [|split; [|discriminate]].
      * intros k v Hk. destruct (string_dec k param) as [->|Hne].
        -- rewrite dict_get_set_same. now intros [= <-].
        -- rewrite dict_get_set_other by auto. intros Hg. eapply Hinv; eauto.
      * intros k Hne. now apply dict_get_set_other.
    + eexists. split; [reflexivity|]. split; [|split; [|discriminate]].
      * intros k v Hk. destruct (string_dec k param) as [->|Hne].
        -- rewrite dict_get_set_same. now intros [= <-].
        -- rewrite dict_get_set_other by auto. intros Hg. eapply Hinv; eauto.
      * intros k Hne. now apply dict_get_set_other.
  - destruct (dict_get result param) as [v|]; [|exists acc; auto].
    eexists. split; [reflexivity|]. split; [|split; [|discriminate]].
    + intros k w Hk. destruct (string_dec k param) as [->|Hne]; [congruence|].
      rewrite dict_get_set_other by auto. intros Hg. eapply Hinv; eauto.
    + intros k Hne. now apply dict_get_set_other.
Qed.

(** The loop raises nothing, whatever the specifiers, and leaves no entry
    under a key whose specifier yields nothing. *)
Lemma capture_all_total params : forall acc,
  lists_only acc ->
  exists acc',
    capture_all result acc params = Ok acc' /\ lists_only acc' /\
    (forall k, projection result k = None -> dict_get acc' k = dict_get acc k).
Proof.
  induction params as [|p params IH]; intros acc Hinv.
  - exists acc. auto.
  - rewrite capture_all_cons.
    destruct (capture_total acc p Hinv) as (acc1 & -> & Hinv1 & Hother & Hnone). simpl.
    destruct (IH acc1 Hinv1) as (acc2 & -> & Hinv2 & Hkeep).
    exists acc2. repeat split; auto.
    intros k Hk. rewrite (Hkeep k Hk).
    destruct (string_dec k p) as [->|Hne]; [now rewrite Hnone|now apply Hother].
Qed.

Lemma lists_only_empty : lists_only [].
Proof. intros k v _. discriminate. Qed.

Lemma missing_target_projection param :
  missing_target result param -> projection result param = None.
Proof.
  unfold missing_target, projection.
  destruct (indexed_form param); auto.
  intros (t & f & -> & [->|(v & -> & Hv)]); auto.
  destruct v; auto; discriminate.
Qed.
End Projector.

(** A loop that only prints raises nothing. *)
Lemma io_for_print {A : Type} (f : A -> line) (l : list A) :
  io_for l (fun a => print (f a)) = (map (fun a => Print (f a)) l, Ok tt).
Proof.
  induction l as [|a l IH]; [reflexivity|].
  cbn [io_for map]. unfold io_bind at 1. unfold print at 1, emit.
  cbn beta iota. now rewrite IH.
Qed.

Section Display.
Import SAPConnection.

Lemma first_some_None {A : Type} (l : list (option A)) :
  first_some l = None <-> forall o, In o l -> o = None.
Proof.
  induction l as [|[a|] l IH]; simpl.
  - tauto.
  - split; [discriminate|]. intros H. now apply H; left.
  - rewrite IH. split; [intros H o [<-|Ho]; auto | auto].
Qed.

Lemma json_fault_list items :
  json_fault (VList items) = None <-> forall v, In v items -> json_fault v = None.
Proof.
  cbn [json_fault]. rewrite first_some_None. split.
  - intros H v Hv. apply H. now apply in_map.
  - intros H o Ho. apply in_map_iff in Ho as (v & <- & Hv). auto.
Qed.

Lemma json_fault_dict entries :
  json_fault (VDict entries) = None <-> forall k v, In (k, v) entries -> json_fault v = None.
Proof.
  cbn [json_fault]. rewrite first_some_None. split.
  - intros H k v Hv. apply H. apply in_map_iff. now exists (k, v).
  - intros H o Ho. apply in_map_iff in Ho as ([k v] & <- & Hv). eauto.
Qed.

Lemma format_value_shown_as v f : format_value v = Ok f -> f = shown_as v.
Proof.
  unfold format_value, shown_as, json_dumps.
  destruct (isinstance_list v || isinstance_dict v); [|now intros [= <-]].
  destruct (json_fault v); [discriminate|now intros [= <-]].
Qed.

(** A value is formatted without an exception when [json.dumps] can
    serialise it or is not asked to. *)
Lemma format_value_ok v :
  (isinstance_list v || isinstance_dict v = true -> json_fault v = None) ->
  format_value v = Ok (shown_as v).
Proof.
  unfold format_value, shown_as, json_dumps.
  destruct (isinstance_list v || isinstance_dict v); [|reflexivity].
  intros H. now rewrite H.
Qed.

(** The only exception of the display is the [TypeError] of [json.dumps]. *)
Lemma format_value_raises v e :
  format_value v = Raise e ->
  exists type_name,
    json_fault v = Some type_name /\
    e = TypeError ("Object of type " ++ type_name ++ " is not JSON serializable")%string.
Proof.
  unfold format_value, json_dumps.
  destruct (isinstance_list v || isinstance_dict v); [|discriminate].
  destruct (json_fault v) as [type_name|]; [|discriminate].
  intros [= <-]. eauto.
Qed.

Lemma shown_value_shown_as v : shown_value (shown_as v) = v.
Proof. unfold shown_as. now destruct (isinstance_list v || isinstance_dict v). Qed.

Lemma items_of_item_events d : items_of (map item_event d) = d.
Proof.
  induction d as [|[k v] d IH]; simpl; auto.
  now rewrite shown_value_shown_as, IH.
Qed.

(** The loop of the two display methods prints the entries in front of the
    first one that cannot be shown, and ends with the exception of that
    one. *)
Lemma io_for_display d :
  io_for d display_item = (map item_event (displayed d), display_end d).
Proof.
  induction d as [|[k v] d IH]; [reflexivity|].
  cbn [io_for displayed display_end map]. unfold display_item at 1.
  cbn [fst snd]. destruct (format_value v) as [f|e] eqn:Hf.
  - apply format_value_shown_as in Hf. subst f.
    unfold io_bind at 1 2. cbn [app]. unfold print, emit. cbn beta iota.
    rewrite IH. reflexivity.
  - reflexivity.
Qed.

Lemma display_all_results_trace result :
  _display_all_results result
  = (Print (Log info "Function returned the following data:")
       :: map item_event (displayed result), display_end result).
Proof.
  unfold _display_all_results, Logger.info, Logger.log, print, emit, io_bind.
  now rewrite io_for_display.
Qed.

Lemma display_captured_results_trace results :
  _display_captured_results results
  = (Print (Log info "Function returned the following requested data:")
       :: map item_event (displayed results), display_end results).
Proof.
  unfold _display_captured_results, Logger.info, Logger.log, print, emit, io_bind.
  now rewrite io_for_display.
Qed.

Lemma displayed_serialisable d :
  serialisable d -> displayed d = d /\ display_end d = Ok tt.
Proof.
  induction d as [|[k v] d IH]; intros Hd; [now split|].
  cbn [displayed display_end snd].
  rewrite format_value_ok by (apply (Hd k); now left).
  destruct IH as [-> ->]; [|now split].
  intros k' v' Hin. apply (Hd k'). now right.
Qed.

Lemma displayed_prefix d : exists rest, d = displayed d ++ rest.
Proof.
  induction d as [|kv d [rest IH]]; [now exists []|].
  cbn [displayed]. destruct (format_value (snd kv)).
  - exists rest. simpl. now rewrite <- IH.
  - now exists (kv :: d).
Qed.

Lemma display_end_raises d e :
  display_end d = Raise e -> exists msg, e = TypeError msg.
Proof.
  induction d as [|kv d IH]; [discriminate|].
  cbn [display_end]. destruct (format_value (snd kv)) as [f|e'] eqn:Hf; [exact IH|].
  intros [= <-]. apply format_value_raises in Hf as (type_name & _ & ->). eauto.
Qed.

Lemma json_values_serialisable d : json_values d -> serialisable d.
Proof.
  unfold json_values. rewrite json_fault_dict. intros H k v Hin _. eauto.
Qed.

(** With specifiers to capture, what is displayed is what the loop built. *)
Lemma process_results_captured result params captured_results :
  params <> [] ->
  capture_all result [] params = Ok captured_results ->
  _process_results result (Some (map VStr params))
  = _display_captured_results captured_results.
Proof.
  intros Hne Hc. destruct params as [|p params]; [congruence|].
  unfold _process_results. cbn [map].
  change (capture_loop result [] (VStr p :: map VStr params))
    with (capture_all result [] (p :: params)).
  rewrite Hc. unfold io_bind.
  now destruct (_display_captured_results captured_results).
Qed.

Lemma column_mappings field rows : column field rows = map (extract field) (mappings rows).
Proof.
  induction rows as [|row rows IH]; simpl; auto.
  destruct row; simpl; auto. now rewrite IH.
Qed.

Lemma extract_present field row v :
  dict_get row field = Some v -> truthy v = true -> extract field row = v.
Proof.
  intros Hg Ht. unfold extract, py_or, dict_get_value. now rewrite Hg, Ht.
Qed.

Lemma extract_absent field row :
  dict_get row field = None -> extract field row = dict_get_value row "WA".
Proof.
  intros Hg. unfold extract, py_or. unfold dict_get_value at 1 2. now rewrite Hg.
Qed.

(** The entry of a specifier in indexed-table form whose table is there. *)
Lemma captured_column result params param table_name field rows :
  NoDup params -> In param params ->
  indexed_form param = true ->
  split_specifier param = Ok (table_name, field) ->
  dict_get result table_name = Some (VList rows) ->
  exists captured_results,
    capture_all result [] params = Ok captured_results /\
    dict_get captured_results param = Some (VList (map (extract field) (mappings rows))).
Proof.
  intros Hnd Hin Hi Hs Ht.
  exists (projections result params). split.
  - now rewrite capture_all_closed_form.
  - rewrite dict_get_projections by assumption.
    unfold projection. now rewrite Hi, Hs, Ht, column_mappings.
Qed.
End Display.

Ltac nodup_strings :=
  repeat (apply NoDup_cons; [simpl; intuition discriminate|]); apply NoDup_nil.

Section ProjectorClaims.
Import SAPConnection.
Local Open Scope string_scope.

Lemma str_app_assoc (a b c : string) : (a ++ b) ++ c = a ++ (b ++ c).
Proof. induction a; simpl; congruence. Qed.

Lemma indexed_form_snoc s : str_contains "[" s = true -> indexed_form (s ++ "]") = true.
Proof.
  intros H. unfold indexed_form.
  now rewrite str_contains_app, H, str_endswith_snoc.
Qed.

(** One more closing bracket changes neither the table nor the field. *)
Lemma split_specifier_snoc s :
  str_contains "[" s = true -> split_specifier (s ++ "]") = split_specifier s.
Proof.
  intros H. destruct (str_partition_Some _ _ H) as (l & r & Hp & _ & _).
  unfold split_specifier, str_split1.
  rewrite (str_partition_app _ _ "]" _ _ Hp), Hp.
  now rewrite str_rstrip_snoc.
Qed.

Lemma projection_snoc result s :
  indexed_form s = true -> projection result (s ++ "]") = projection result s.
Proof.
  intros Hi. assert (Hc : str_contains "[" s = true).
  { unfold indexed_form in Hi. now apply andb_prop in Hi. }
  unfold projection. now rewrite indexed_form_snoc, Hi, split_specifier_snoc.
Qed.

(** C1 (amended): for a raw result whose table T is a sequence and a
    specifier that parses to table T and field F, the entry captured
    under the specifier has one element for each row of T that is a
    mapping, in row order; that element equals row[F] whenever key F is
    present in the row with a truthy value, and equals the row's "WA"
    entry (None when the row has none) when key F is absent. *)
Theorem extracted_element_of_a_row
    (result : dict) (params : list string) (param table_name field : string)
    (rows : list value) :
  NoDup params -> In param params ->
  indexed_form param = true ->
  split_specifier param = Ok (table_name, field) ->
  dict_get result table_name = Some (VList rows) ->
  exists captured_results elements,
    capture_all result [] params = Ok captured_results /\
    dict_get captured_results param = Some (VList elements) /\
    Forall2
      (fun row element =>
         (forall v, dict_get row field = Some v -> truthy v = true -> element = v) /\
         (dict_get row field = None -> element = dict_get_value row "WA"))
      (mappings rows) elements.
Proof.
  intros Hnd Hin Hi Hs Ht.
  destruct (captured_column result params param table_name field rows Hnd Hin Hi Hs Ht)
    as (captured_results & Hc & Hg).
  exists captured_results, (map (extract field) (mappings rows)).
  split; [exact Hc | split; [exact Hg |]].
  clear. induction (mappings rows) as [|row l IH]; simpl; constructor; [|exact IH].
  split.
  - intros v Hv Htruthy. now apply extract_present.
  - intros Hv. now apply extract_absent.
Qed.

(** The scenario of the specification: ITAB has a row with only "WA" and a
    row with FIELD. *)
Lemma extracted_element_of_a_row_witness :
  exists captured_results elements,
    capture_all scenario_result [] ["ITAB[FIELD]"; "STATUS"] = Ok captured_results /\
    dict_get captured_results "ITAB[FIELD]" = Some (VList elements) /\
    Forall2
      (fun row element =>
         (forall v, dict_get row "FIELD" = Some v -> truthy v = true -> element = v) /\
         (dict_get row "FIELD" = None -> element = dict_get_value row "WA"))
      (mappings [VDict [("WA", VStr "x")]; VDict [("FIELD", VStr "y")]]) elements.
Proof.
  apply (extracted_element_of_a_row scenario_result ["ITAB[FIELD]"; "STATUS"]
           "ITAB[FIELD]" "ITAB" "FIELD").
  - nodup_strings.
  - simpl. auto.
  - reflexivity.
  - reflexivity.
  - reflexivity.
Defined.

(** C1 as stated fails: key F is present in the row, with the empty
    string as its value, and the element extracted is the row's "WA"
    entry. *)
Lemma present_falsy_field_yields_work_area :
  dict_get [("F", VStr ""); ("WA", VStr "x")] "F" = Some (VStr "") /\
  capture_all [("T", VList [VDict [("F", VStr ""); ("WA", VStr "x")]])] [] ["T[F]"]
  = Ok [("T[F]", VList [VStr "x"])].
Proof. split; reflexivity. Qed.

(** C2 (amended): for a raw result whose table T is a sequence and a
    specifier that parses to table T and field F, the entry under the
    specifier is an ordered sequence whose length equals the number of
    rows of T that are mappings, whether or not they contain F or "WA",
    and whose i-th element is extracted from the i-th such row. *)
Theorem column_length_and_order
    (result : dict) (params : list string) (param table_name field : string)
    (rows : list value) :
  NoDup params -> In param params ->
  indexed_form param = true ->
  split_specifier param = Ok (table_name, field) ->
  dict_get result table_name = Some (VList rows) ->
  exists captured_results elements,
    capture_all result [] params = Ok captured_results /\
    dict_get captured_results param = Some (VList elements) /\
    length elements = length (mappings rows) /\
    forall i row,
      nth_error (mappings rows) i = Some row ->
      nth_error elements i = Some (extract field row).
Proof.
  intros Hnd Hin Hi Hs Ht.
  destruct (captured_column result params param table_name field rows Hnd Hin Hi Hs Ht)
    as (captured_results & Hc & Hg).
  exists captured_results, (map (extract field) (mappings rows)).
  split; [exact Hc | split; [exact Hg | split]].
  - apply length_map.
  - intros i row Hrow. now rewrite nth_error_map, Hrow.
Qed.

(** The same scenario: two rows, two elements. *)
Lemma column_length_and_order_witness :
  exists captured_results elements,
    capture_all scenario_result [] ["ITAB[FIELD]"; "STATUS"] = Ok captured_results /\
    dict_get captured_results "ITAB[FIELD]" = Some (VList elements) /\
    length elements
    = length (mappings [VDict [("WA", VStr "x")]; VDict [("FIELD", VStr "y")]]) /\
    forall i row,
      nth_error (mappings [VDict [("WA", VStr "x")]; VDict [("FIELD", VStr "y")]]) i
      = Some row ->
      nth_error elements i = Some (extract "FIELD" row).
Proof.
  apply (column_length_and_order scenario_result ["ITAB[FIELD]"; "STATUS"]
           "ITAB[FIELD]" "ITAB" "FIELD").
  - nodup_strings.
  - simpl. auto.
  - reflexivity.
  - reflexivity.
  - reflexivity.
Defined.

(** C2 as stated fails: the only row of T is a mapping with neither F nor
    "WA", so the stated length is 0, and the entry holds one element. *)
Lemma column_counts_rows_without_the_field :
  rows_with_field "F" [VDict [("X", VInt 1)]] = 0 /\
  capture_all [("T", VList [VDict [("X", VInt 1)]])] [] ["T[F]"]
  = Ok [("T[F]", VList [VNone])].
Proof. split; reflexivity. Qed.
End ProjectorClaims.

Section ProjectorOrderClaims.
Import SAPConnection.
Local Open Scope string_scope.

Lemma dict_get_value_json (row : dict) k :
  (forall k' v, In (k', v) row -> json_fault v = None) ->
  json_fault (dict_get_value row k) = None.
Proof.
  intros Hrow. unfold dict_get_value.
  destruct (dict_get row k) as [v|] eqn:Hk; [|reflexivity].
  apply dict_get_In in Hk. eauto.
Qed.

Lemma column_json field rows :
  json_fault (VList rows) = None -> json_fault (VList (column field rows)) = None.
Proof.
  rewrite !json_fault_list. intros Hrows v Hv.
  unfold column in Hv. apply in_flat_map in Hv as (row & Hrow & Hv).
  destruct row as [| | | | |r| | |]; try contradiction.
  destruct Hv as [<-|[]].
  pose proof (Hrows _ Hrow) as Hr. rewrite json_fault_dict in Hr.
  unfold extract, py_or.
  destruct (truthy (dict_get_value r field)); now apply dict_get_value_json.
Qed.

(** What is captured from a result of JSON values holds JSON values. *)
Lemma projections_json result params :
  json_values result -> json_values (projections result params).
Proof.
  unfold json_values. rewrite !json_fault_dict. intros Hres k v Hin.
  unfold projections in Hin. apply in_flat_map in Hin as (param & _ & Hin).
  destruct (projection result param) as [w|] eqn:Hp; [|contradiction].
  destruct Hin as [[= <- <-]|[]].
  unfold projection in Hp. destruct (indexed_form param).
  - destruct (split_specifier param) as [[table_name field]|]; [|discriminate].
    destruct (dict_get result table_name) as [[| | | |rows| | | |]|] eqn:Ht;
      try discriminate.
    injection Hp as <-. apply column_json. apply dict_get_In in Ht. eauto.
  - apply dict_get_In in Hp. eauto.
Qed.

Lemma capture_loop_app result l1 : forall acc l2,
  capture_loop result acc (l1 ++ l2)
  = (acc' <- capture_loop result acc l1 ;; capture_loop result acc' l2)%res.
Proof.
  induction l1 as [|x l1 IH]; intros acc l2; [reflexivity|].
  cbn [app capture_loop]. destruct (capture_element result acc x); cbn [res_bind]; auto.
Qed.

(** The turn of the loop for a specifier whose target is missing changes
    nothing and raises nothing. *)
Lemma capture_missing result acc param :
  missing_target result param -> capture result acc param = Ok acc.
Proof.
  unfold missing_target, capture. destruct (indexed_form param); [|now intros ->].
  intros (table_name & field & Hs & Hcase). rewrite Hs. cbn.
  destruct Hcase as [->|(v & -> & Hv)]; [reflexivity|].
  now destruct v.
Qed.

Lemma capture_other result acc param acc' k :
  capture result acc param = Ok acc' -> k <> param -> dict_get acc' k = dict_get acc k.
Proof.
  unfold capture. destruct (indexed_form param).
  - destruct (split_specifier param) as [[table_name field]|]; [|discriminate]. cbn.
    destruct (dict_get result table_name) as [[| | | |rows| | | |]|];
      try (now intros [= <-]).
    unfold extend.
    destruct (dict_get acc param) as [[| | | |old| | | |]|]; try discriminate;
      intros [= <-] Hne; now apply dict_get_set_other.
  - destruct (dict_get result param);
      [intros [= <-] Hne; now apply dict_get_set_other | now intros [= <-]].
Qed.







(** C6: a specifier whose target is missing or of the wrong type (an
    indexed-table specifier whose table is absent or not a sequence, a
    plain specifier naming an absent key) raises nothing and leaves the
    captured results as they are; so it gets no entry and no line of
    output, the projector does with it what it does without it, and a set
    of such specifiers alone prints the heading and raises nothing. *)
Theorem missing_target_yields_nothing (result : dict) (param : string) :
  missing_target result param ->
  (forall captured_results, capture result captured_results param = Ok captured_results) /\
  (forall params,
      In param params ->
      exists captured_results,
        capture_all result [] params = Ok captured_results /\
        dict_mem captured_results param = false) /\
  (forall (params : list value) shown,
      In (VStr param) params ->
      ~ In (Print (Item param shown)) (fst (_process_results result (Some params)))) /\
  (forall before after : list value,
      (before ++ after)%list <> [] ->
      _process_results result (Some (before ++ VStr param :: after)%list)
      = _process_results result (Some (before ++ after)%list)) /\
  (forall params,
      In param params ->
      (forall p, In p params -> missing_target result p) ->
      _process_results result (Some (map VStr params))
      = ([Print (Log info "Function returned the following requested data:")], Ok tt)).
Proof.
  intros Hmiss.
  assert (Hturn : forall acc, capture result acc param = Ok acc).
  { intros acc. now apply capture_missing. }
  assert (Hloop : forall before after acc,
             capture_loop result acc (before ++ VStr param :: after)%list
             = capture_loop result acc (before ++ after)%list).
  { intros before after acc. rewrite !capture_loop_app.
    destruct (capture_loop result acc before) as [acc'|e]; [|reflexivity].
    cbn [res_bind capture_loop capture_element]. now rewrite Hturn. }
  split; [exact Hturn | split; [|split; [|split]]].
  - intros params Hin.
    destruct (capture_all_total result params [] (lists_only_empty))
      as (captured & Hc & _ & Hkeep).
    exists captured. split; [exact Hc|].
    unfold dict_mem. now rewrite (Hkeep _ (missing_target_projection _ _ Hmiss)).
  - intros params shown Hin.
    assert (Hrun : _process_results result (Some params)
                   = (captured_results <- ([], capture_loop result [] params) ;;
                      _display_captured_results captured_results)%io).
    { destruct params; [contradiction|reflexivity]. }
    rewrite Hrun. clear Hrun. unfold io_bind.
    destruct (capture_loop result [] params) as [captured|e] eqn:Hc;
      [|intros []].
    assert (Hnone : dict_get captured param = None).
    { apply in_split in Hin as (before & after & ->).
      rewrite Hloop in Hc. clear Hloop.
      assert (Hkeep : forall l acc acc',
                 capture_loop result acc l = Ok acc' ->
                 dict_get acc param = None -> dict_get acc' param = None).
      { induction l as [|x l IH]; intros acc acc'; [now intros [= <-]|].
        cbn [capture_loop].
        destruct (capture_element result acc x) as [acc1|e1] eqn:Hx; [|discriminate].
        cbn [res_bind]. intros Hl Hacc. apply (IH acc1 acc' Hl).
        destruct x as [| | |s|items|entries| | |]; cbn [capture_element] in Hx;
          try discriminate.
        - destruct (string_dec param s) as [<-|Hne].
          + rewrite Hturn in Hx. now injection Hx as <-.
          + now rewrite (capture_other _ _ _ _ _ Hx Hne).
        - destruct (existsb _ items); discriminate.
        - destruct (dict_mem entries "["); discriminate. }
      eapply Hkeep; [exact Hc|reflexivity]. }
    rewrite display_captured_results_trace. cbn [fst app].
    intros [Habs|Habs]; [discriminate|].
    apply in_map_iff in Habs as ([k v] & Heq & Hkv).
    unfold item_event in Heq. simpl in Heq. injection Heq as -> _.
    destruct (displayed_prefix captured) as [rest Hrest].
    apply dict_get_None_not_key in Hnone. apply Hnone.
    unfold dict_keys. apply in_map_iff. exists (param, v). split; [reflexivity|].
    rewrite Hrest. apply in_or_app. now left.
  - intros before after Hne. unfold _process_results.
    destruct (before ++ VStr param :: after)%list eqn:Hl1; [now destruct before|].
    destruct (before ++ after)%list eqn:Hl2; [congruence|].
    rewrite <- Hl1, <- Hl2. now rewrite Hloop.
  - intros params Hin Hall.
    assert (Hne : params <> []) by (intros ->; contradiction).
    assert (Hc : capture_all result [] params = Ok []).
    { clear Hin Hne. induction params as [|p params IH]; [reflexivity|].
      rewrite capture_all_cons, capture_missing by (apply Hall; now left).
      cbn [res_bind]. apply IH. intros q Hq. apply Hall. now right. }
    rewrite (process_results_captured _ _ _ Hne Hc). reflexivity.
Qed.

(** STATUS is there but is not a sequence, so STATUS[X] yields nothing. *)
Lemma missing_target_yields_nothing_witness :
  capture scenario_result [("STATUS", VStr "OK")] "STATUS[X]" = Ok [("STATUS", VStr "OK")] /\
  _process_results scenario_result (Some [VStr "STATUS"; VStr "STATUS[X]"])
  = _process_results scenario_result (Some [VStr "STATUS"]) /\
  _process_results scenario_result (Some [VStr "MISSING"; VStr "NOTAB[F]"; VStr "STATUS[X]"])
  = ([Print (Log info "Function returned the following requested data:")], Ok tt).
Proof.
  assert (Hmiss : missing_target scenario_result "STATUS[X]").
  { exists "STATUS", "X". split; [reflexivity|].
    right. exists (VStr "OK"). split; reflexivity. }
  destruct (missing_target_yields_nothing scenario_result "STATUS[X]" Hmiss)
    as (Hturn & _ & _ & Hsame & Halone).
  split; [apply Hturn | split].
  - apply (Hsame [VStr "STATUS"] []). discriminate.
  - apply (Halone ["MISSING"; "NOTAB[F]"; "STATUS[X]"]); [simpl; auto|].
    intros p [<-|[<-|[<-|[]]]].
    + reflexivity.
    + exists "NOTAB", "F". split; [reflexivity|]. now left.
    + exact Hmiss.
Defined.

(** C9: a specifier that contains an opening bracket and ends with a
    closing one has as table name the text before its first opening
    bracket, which holds none, and as field the text after it with every
    trailing closing bracket removed; so T[F] and T[F]] have the same
    table and field, and when that table is there each of them gets, under
    its own key, the sequence extracted from the table's rows for that
    field: the same sequence for both. *)
Theorem trailing_brackets_are_dropped
    (result : dict) (params : list string) (T F : string) :
  NoDup params ->
  In (T ++ "[" ++ F ++ "]") params ->
  In (T ++ "[" ++ F ++ "]]") params ->
  (forall param,
      indexed_form param = true ->
      exists table_name rest n,
        param = table_name ++ "[" ++ rest /\
        str_contains "[" table_name = false /\
        rest = str_rstrip "]" rest ++ str_repeat "]" n /\
        str_endswith "]" (str_rstrip "]" rest) = false /\
        split_specifier param = Ok (table_name, str_rstrip "]" rest)) /\
  split_specifier (T ++ "[" ++ F ++ "]]") = split_specifier (T ++ "[" ++ F ++ "]") /\
  (str_contains "[" T = false ->
   split_specifier (T ++ "[" ++ F ++ "]") = Ok (T, str_rstrip "]" F)) /\
  exists table_name field captured_results,
    split_specifier (T ++ "[" ++ F ++ "]") = Ok (table_name, field) /\
    split_specifier (T ++ "[" ++ F ++ "]]") = Ok (table_name, field) /\
    capture_all result [] params = Ok captured_results /\
    dict_get captured_results (T ++ "[" ++ F ++ "]]")
    = dict_get captured_results (T ++ "[" ++ F ++ "]") /\
    (forall rows,
        dict_get result table_name = Some (VList rows) ->
        dict_get captured_results (T ++ "[" ++ F ++ "]")
        = Some (VList (map (extract field) (mappings rows))) /\
        dict_get captured_results (T ++ "[" ++ F ++ "]]")
        = Some (VList (map (extract field) (mappings rows)))) /\
    (dict_get result table_name = None ->
     dict_get captured_results (T ++ "[" ++ F ++ "]") = None /\
     dict_get captured_results (T ++ "[" ++ F ++ "]]") = None).
Proof.
  intros Hnd Hin1 Hin2.
  assert (Hc : str_contains "[" (T ++ "[" ++ F ++ "]") = true).
  { rewrite str_contains_app. simpl. apply orb_true_r. }
  assert (Hi : indexed_form (T ++ "[" ++ F ++ "]") = true).
  { replace (T ++ "[" ++ F ++ "]") with ((T ++ "[" ++ F) ++ "]")
      by now rewrite !str_app_assoc.
    apply indexed_form_snoc. rewrite str_contains_app. simpl. apply orb_true_r. }
  assert (Hs : T ++ "[" ++ F ++ "]]" = (T ++ "[" ++ F ++ "]") ++ "]").
  { now rewrite !str_app_assoc. }
  assert (Hi2 : indexed_form (T ++ "[" ++ F ++ "]]") = true).
  { rewrite Hs. now apply indexed_form_snoc. }
  assert (Hsame : split_specifier (T ++ "[" ++ F ++ "]]")
                  = split_specifier (T ++ "[" ++ F ++ "]")).
  { rewrite Hs. now apply split_specifier_snoc. }
  split; [|split; [exact Hsame|split]].
  - intros param Hp.
    destruct (split_specifier_indexed param Hp) as (t & rest & Hsplit & Heq & Ht).
    destruct (str_rstrip_spec "]" rest) as [[n Hn] Hend].
    exists t, rest, n. auto.
  - intros HT. unfold split_specifier, str_split1.
    assert (Hp : forall s, str_contains "[" s = false ->
                           str_partition "[" (s ++ String "[" (F ++ "]"))
                           = Some (s, F ++ "]")).
    { induction s as [|a s IH]; [reflexivity|]. cbn [str_contains append str_partition].
      destruct (Ascii.eqb a "["); [discriminate|]. cbn [orb]. intros H. now rewrite IH. }
    cbn [append]. rewrite (Hp T HT). now rewrite str_rstrip_snoc.
  - destruct (split_specifier_indexed _ Hi) as (table_name & rest & Hsplit & _ & _).
    exists table_name, (str_rstrip "]" rest), (projections result params).
    split; [exact Hsplit | split; [now rewrite Hsame | split; [|split; [|split]]]].
    + now rewrite capture_all_closed_form.
    + rewrite !dict_get_projections by assumption.
      rewrite Hs. now apply projection_snoc.
    + intros rows Hrows. rewrite !dict_get_projections by assumption.
      unfold projection. rewrite Hi, Hi2, Hsame, Hsplit, Hrows, column_mappings. now split.
    + intros Hnone. rewrite !dict_get_projections by assumption.
      unfold projection. rewrite Hi, Hi2, Hsame, Hsplit, Hnone. now split.
Qed.

(** ITAB[FIELD] and ITAB[FIELD]] on the scenario of the specification. *)
Lemma trailing_brackets_are_dropped_witness :
  split_specifier "ITAB[FIELD]]" = Ok ("ITAB", "FIELD") /\
  split_specifier "ITAB[FIELD]" = Ok ("ITAB", "FIELD") /\
  exists captured_results,
    capture_all scenario_result [] ["ITAB[FIELD]"; "ITAB[FIELD]]"] = Ok captured_results /\
    dict_get captured_results "ITAB[FIELD]" = Some (VList [VStr "x"; VStr "y"]) /\
    dict_get captured_results "ITAB[FIELD]]" = Some (VList [VStr "x"; VStr "y"]).
Proof.
  destruct (trailing_brackets_are_dropped scenario_result
              ["ITAB[FIELD]"; "ITAB[FIELD]]"] "ITAB" "FIELD")
    as (_ & _ & Hsplit & table_name & field & captured_results & H1 & H2 & Hc & _ & Hrows & _).
  - nodup_strings.
  - simpl. auto.
  - simpl. auto.
  - specialize (Hsplit eq_refl). rewrite Hsplit in H1. injection H1 as <- <-.
    split; [exact H2 | split; [exact Hsplit|]].
    exists captured_results. split; [exact Hc|].
    exact (Hrows _ eq_refl).
Defined.
End ProjectorOrderClaims.

(** ** Connection parameters *)

Section ConnectionClaims.
Variable lib : rfc_library.

Lemma to_dict_with_dest_lang p d l :
  ConnectionParams.to_dict (with_dest_lang p d l) = ConnectionParams.to_dict p.
Proof.
  destruct p as [u pw h c s r d0 l0]. unfold ConnectionParams.to_dict. simpl.
  destruct r, d, l, d0, l0; reflexivity.
Qed.

Ltac run_connect :=
  repeat (match goal with
          | |- context [dict_item ?d ?k] => destruct (dict_item d k); cbn
          | |- context [rfc_open ?l ?d] => destruct (rfc_open l d) as [[]|?]; cbn
          | |- context [rfc_attributes ?l] => destruct (rfc_attributes l); cbn
          | |- context [is_RFCError ?e] => destruct (is_RFCError e); cbn
          end).

(** [connect] reads its parameters through [to_dict] only. *)
Lemma connect_outcome_by_to_dict p q :
  ConnectionParams.to_dict p = ConnectionParams.to_dict q ->
  outcome (SAPConnection.connect lib (SAPConnection.__init__ p))
  = outcome (SAPConnection.connect lib (SAPConnection.__init__ q)).
Proof.
  intros H. unfold SAPConnection.connect, SAPConnection.__init__.
  cbn [SAPConnection.conn_params]. rewrite H.
  unfold outcome, io_bind, io_try, rfc, Logger.info, Logger.success, Logger.error,
    Logger.log, print, emit, io_ret, io_raise.
  run_connect; reflexivity.
Qed.

Lemma connect_opens_with_to_dict p params :
  In (RfcOpen params) (fst (SAPConnection.connect lib (SAPConnection.__init__ p))) ->
  params = ConnectionParams.to_dict p.
Proof.
  unfold SAPConnection.connect, SAPConnection.__init__.
  cbn [SAPConnection.conn_params].
  unfold io_bind, io_try, rfc, Logger.info, Logger.success, Logger.error,
    Logger.log, print, emit, io_ret, io_raise.
  run_connect; cbn; intuition congruence.
Qed.

Lemma to_dict_explicit p :
  ConnectionParams.to_dict p
  = [ ("user", ConnectionParams.user p);
      ("passwd", ConnectionParams.passwd p);
      ("ashost", ConnectionParams.ashost p);
      ("client", ConnectionParams.client p);
      ("sysnr", ConnectionParams.sysnr p) ]
    ++ match ConnectionParams.saprouter p with
       | Some r => [("saprouter", r)]
       | None => []
       end.
Proof. destruct p as [u pw h c s r d l]. destruct r, d, l; reflexivity. Qed.

(** The first thing [connect] asks of the RFC library, whatever the
    parameters, is a connection opened with [to_dict] of them; the only
    other thing it may ask for is the attributes of that connection. *)
Lemma connect_requests p :
  exists rest,
    rfc_events (fst (SAPConnection.connect lib (SAPConnection.__init__ p)))
    = RfcOpen (ConnectionParams.to_dict p) :: rest /\
    (rest = [] \/ rest = [RfcAttributes]).
Proof.
  unfold SAPConnection.connect, SAPConnection.__init__.
  cbn [SAPConnection.conn_params].
  set (params_dict := ConnectionParams.to_dict p).
  assert (Hitem : forall k, In k ["ashost"; "sysnr"; "client"] ->
                            exists v, dict_item params_dict k = Ok v).
  { intros k Hk. subst params_dict. rewrite to_dict_explicit.
    destruct Hk as [<-|[<-|[<-|[]]]]; eexists; reflexivity. }
  destruct (Hitem "ashost") as [h ->]; [simpl; auto|].
  destruct (Hitem "sysnr") as [s ->]; [simpl; auto|].
  destruct (Hitem "client") as [c ->]; [simpl; auto|].
  clearbody params_dict. clear Hitem.
  unfold io_bind, io_try, rfc, Logger.info, Logger.success, Logger.error,
    Logger.log, print, emit, io_ret, io_raise.
  destruct (rfc_open lib params_dict) as [[]|e]; cbn.
  - destruct (rfc_attributes lib) as [attrs|e]; cbn.
    + exists [RfcAttributes]. auto.
    + destruct (is_RFCError e); cbn; exists [RfcAttributes]; auto.
  - destruct (is_RFCError e); cbn; exists []; auto.
Qed.

Ltac by_key k fin :=
  match goal with
  | |- context [String.eqb ?a k] =>
      destruct (String.eqb_spec a k) as [<-|?];
      [ cbn; fin | cbn -[String.eqb]; by_key k fin ]
  | _ => cbn; fin
  end.

(** C10: the mapping [to_dict] builds holds exactly the fields whose value
    is not None, [dest] and [lang] excepted; [connect] opens the
    connection with that mapping and asks nothing else of the RFC library
    before; so the [dest] and [lang] fields change nothing in the
    connection attempt. *)
Theorem to_dict_leaves_out_dest_and_lang (p : ConnectionParams.t) :
  ConnectionParams.to_dict p
  = [ ("user", ConnectionParams.user p);
      ("passwd", ConnectionParams.passwd p);
      ("ashost", ConnectionParams.ashost p);
      ("client", ConnectionParams.client p);
      ("sysnr", ConnectionParams.sysnr p) ]
    ++ match ConnectionParams.saprouter p with
       | Some r => [("saprouter", r)]
       | None => []
       end /\
  (forall k v,
      dict_get (ConnectionParams.to_dict p) k = Some v <->
      dict_get (ConnectionParams.__dict__ p) k = Some (Some v)
      /\ k <> "dest" /\ k <> "lang") /\
  (exists rest,
      rfc_events (fst (SAPConnection.connect lib (SAPConnection.__init__ p)))
      = RfcOpen (ConnectionParams.to_dict p) :: rest /\
      (rest = [] \/ rest = [RfcAttributes])) /\
  (forall params,
      In (RfcOpen params) (fst (SAPConnection.connect lib (SAPConnection.__init__ p))) ->
      params = ConnectionParams.to_dict p) /\
  (forall d l,
      ConnectionParams.to_dict (with_dest_lang p d l) = ConnectionParams.to_dict p /\
      outcome (SAPConnection.connect lib (SAPConnection.__init__ (with_dest_lang p d l)))
      = outcome (SAPConnection.connect lib (SAPConnection.__init__ p))).
Proof.
  split; [apply to_dict_explicit | split; [|split; [|split]]].
  - intros k v. rewrite to_dict_explicit. destruct p as [u pw h c s r d l].
    destruct r, d, l; cbn -[String.eqb];
      by_key k ltac:(split; [intros H; inversion H; subst; repeat split; congruence
                            | intros (H & Hd & Hl); congruence]).
  - apply connect_requests.
  - apply connect_opens_with_to_dict.
  - intros d l. split.
    + apply to_dict_with_dest_lang.
    + apply connect_outcome_by_to_dict, to_dict_with_dest_lang.
Qed.
End ConnectionClaims.

(** ** Configuration files *)

Section InterpolationFacts.
Variable option section rawval : string.
Variable map : list (string * string).

(** A value without a percent sign is read as it is written. *)
Lemma interpolate_loop_plain deeper rest :
  str_contains "%" rest = false ->
  ConfigParser._interpolate_loop option section rawval map deeper 0 rest = Ok rest.
Proof.
  induction rest as [|c rest IH]; [reflexivity|].
  cbn [str_contains ConfigParser._interpolate_loop].
  destruct (Ascii.eqb c "%"); [discriminate|]. cbn [orb negb].
  intros H. now rewrite (IH H).
Qed.

Lemma interpolate_loop_raises deeper :
  (forall v e, deeper v = Raise e -> is_Exception e = true) ->
  forall rest skip e,
    ConfigParser._interpolate_loop option section rawval map deeper skip rest = Raise e ->
    is_Exception e = true.
Proof.
  intros Hdeeper.
  assert (Hbind : forall (m : res string) (k : string -> res string) e,
             (forall e', m = Raise e' -> is_Exception e' = true) ->
             (forall a e', k a = Raise e' -> is_Exception e' = true) ->
             res_bind m k = Raise e -> is_Exception e = true).
  { intros [a|e'] k e Hm Hk; cbn; [apply Hk | intros [= <-]; now apply Hm]. }
  intros rest. remember (String.length rest) as n eqn:Hn.
  assert (Hle : String.length rest <= n) by lia. clear Hn. revert rest Hle.
  induction n as [|n IHn]; intros rest Hle skip e;
    (destruct rest as [|c rest]; [discriminate|]); cbn [String.length] in Hle; [lia|].
  assert (IH : forall rest' skip' e',
             String.length rest' <= String.length rest ->
             ConfigParser._interpolate_loop option section rawval map deeper skip' rest'
             = Raise e' -> is_Exception e' = true).
  { intros rest' skip' e' Hl. apply IHn. lia. }
  clear IHn. cbn [ConfigParser._interpolate_loop].
  destruct skip as [|skip]; [|now apply IH].
  destruct (negb (Ascii.eqb c "%")).
  { apply Hbind; [intros e'; now apply IH | discriminate]. }
  destruct rest as [|c' after]; [now intros [= <-]|].
  destruct (Ascii.eqb c' "%").
  { apply Hbind; [intros e'; apply IH; cbn; lia | discriminate]. }
  destruct (Ascii.eqb c' "("); [|now intros [= <-]].
  destruct (ConfigParser.reference_name after) as [name|]; [|now intros [= <-]].
  destruct (dict_get map (str_lower name)) as [v|]; [|now intros [= <-]].
  apply Hbind.
  - destruct (str_contains "%" v); [apply Hdeeper | discriminate].
  - intros v' e'. apply Hbind; [intros e2; now apply IH | discriminate].
Qed.

Lemma interpolate_some_raises levels : forall rest e,
  ConfigParser._interpolate_some option section rawval map levels rest = Raise e ->
  is_Exception e = true.
Proof.
  induction levels as [|levels IH]; intros rest e; cbn [ConfigParser._interpolate_some].
  - now intros [= <-].
  - apply interpolate_loop_raises. exact IH.
Qed.
End InterpolationFacts.

Lemma before_get_plain section option v map :
  str_contains "%" v = false -> ConfigParser.before_get section option v map = Ok v.
Proof. intros H. unfold ConfigParser.before_get. cbn. now apply interpolate_loop_plain. Qed.

Lemma before_get_raises section option v map e :
  ConfigParser.before_get section option v map = Raise e -> is_Exception e = true.
Proof. apply interpolate_some_raises. Qed.

Lemma interpolated_plain section d entries :
  (forall k v, In (k, v) entries -> str_contains "%" v = false) ->
  ConfigParser.interpolated section d entries = Ok entries.
Proof.
  induction entries as [|[k v] entries IH]; intros H; [reflexivity|].
  cbn [ConfigParser.interpolated].
  rewrite before_get_plain by (apply (H k); now left). cbn [res_bind].
  rewrite IH by (intros k' v' Hin; apply (H k'); now right). reflexivity.
Qed.

Lemma interpolated_raises section d entries e :
  ConfigParser.interpolated section d entries = Raise e -> is_Exception e = true.
Proof.
  induction entries as [|[k v] entries IH]; [discriminate|].
  cbn [ConfigParser.interpolated].
  destruct (ConfigParser.before_get section k v d) as [v'|e'] eqn:Hv; cbn [res_bind].
  - destruct (ConfigParser.interpolated section d entries); [discriminate|].
    cbn [res_bind]. intros [= <-]. now apply IH.
  - intros [= <-]. now apply before_get_raises in Hv.
Qed.

Lemma in_dict_set {V : Type} (d : list (string * V)) k v k' v' :
  In (k', v') (dict_set d k v) -> In (k', v') d \/ (k', v') = (k, v).
Proof.
  induction d as [|[k0 v0] d IH]; simpl.
  - intros [H|[]]; auto.
  - destruct (String.eqb_spec k0 k) as [->|Hne]; simpl.
    + intros [H|H]; auto.
    + intros [H|H]; auto. destruct (IH H); auto.
Qed.

Lemma in_dict_update {V : Type} (e : list (string * V)) : forall d k v,
  In (k, v) (dict_update d e) -> In (k, v) d \/ In (k, v) e.
Proof.
  unfold dict_update. induction e as [|[k0 v0] e IH]; intros d k v; simpl; [auto|].
  intros H. apply IH in H as [H|H]; [|auto].
  apply in_dict_set in H as [H|H]; auto.
Qed.

Section ConfigClaims.
Import ConfigManager.
Variable lib : rfc_library.
Variable config_files : string -> file config.
Variable json_files : string -> file value.
Variable set_order : list value -> list value.

(** A [SystemExit] that [load_config] raises passes the handlers of [main]
    and gives the process its exit code, on every command line that names
    the configuration file and no other file. *)
Lemma load_config_exit_ends_main (argv : Args.t) config_file code :
  Args.connection argv = Some config_file ->
  config_file <> "" ->
  no_files argv ->
  snd (load_config config_files config_file (Args.dest argv)) = Raise (SystemExit code) ->
  exit_code (snd (main lib config_files json_files set_order argv)) = code.
Proof.
  intros Hconn Hpath [Himp Hexp] Hexit.
  destruct argv as [conn dest user password target client sysnr port saprouter
                      fn imp exp desc].
  cbn in Hconn, Himp, Hexp, Hexit. subst conn.
  destruct config_file as [|a config_file]; [congruence|].
  destruct imp as [[|? ?]|]; try discriminate Himp;
    destruct exp as [[|? ?]|]; try discriminate Hexp;
    unfold main, main_body, parse_args;
    repeat (cbn -[load_config]);
    destruct (load_config config_files (String a config_file) dest) as [t r];
    cbn in Hexit; subst r; reflexivity.
Qed.

Lemma section_has_options c section :
  In section (ConfigParser.sections c) ->
  exists options, dict_get (config_sections c) section = Some options.
Proof.
  intros Hin. destruct (dict_get (config_sections c) section) as [o|] eqn:E; eauto.
  apply dict_get_None_not_key in E. contradiction.
Qed.

Lemma no_percent_defaults c k v :
  no_percent c -> In (k, v) (config_defaults c) -> str_contains "%" v = false.
Proof.
  unfold no_percent. rewrite forallb_forall. intros H Hin.
  specialize (H (k, v)). cbn in H. apply negb_true_iff, H, in_or_app. now left.
Qed.

Lemma no_percent_section c section options k v :
  no_percent c ->
  dict_get (config_sections c) section = Some options ->
  In (k, v) options -> str_contains "%" v = false.
Proof.
  unfold no_percent. rewrite forallb_forall. intros H Hs Hin.
  specialize (H (k, v)). cbn in H. apply negb_true_iff, H, in_or_app. right.
  apply in_flat_map. exists (section, options). split; [|exact Hin].
  now apply dict_get_In.
Qed.

(** In a file without percent signs, [config.get] gives the value as the
    file has it: the section's own, or the default one. *)
Lemma get_plain c section options option :
  no_percent c ->
  dict_get (config_sections c) section = Some options ->
  ConfigParser.get c section option
  = match dict_get options option with
    | Some v => Ok v
    | None =>
        match dict_get (config_defaults c) option with
        | Some v => Ok v
        | None => Raise (ConfigParser.NoOptionError option section)
        end
    end.
Proof.
  intros Hc Hs. unfold ConfigParser.get. rewrite Hs, dict_get_app.
  destruct (dict_get options option) as [v|] eqn:Ho.
  - apply before_get_plain. apply dict_get_In in Ho.
    eapply no_percent_section; eauto.
  - destruct (dict_get (config_defaults c) option) as [v|] eqn:Hd; [|reflexivity].
    apply before_get_plain. apply dict_get_In in Hd.
    eapply no_percent_defaults; eauto.
Qed.

(** In a file without percent signs, [config.items] gives the defaults
    updated with the section's own options. *)
Lemma items_plain c section options :
  no_percent c ->
  dict_get (config_sections c) section = Some options ->
  ConfigParser.items c section = Ok (dict_update (config_defaults c) options).
Proof.
  intros Hc Hs. unfold ConfigParser.items. rewrite Hs. cbn zeta.
  apply interpolated_plain. intros k v Hin.
  apply in_dict_update in Hin as [Hin|Hin].
  - eapply no_percent_defaults; eauto.
  - eapply no_percent_section; eauto.
Qed.

(** [config.get] does not raise on an option that [has_option] finds. *)
Lemma get_after_has_option c section option :
  no_percent c ->
  In section (ConfigParser.sections c) ->
  ConfigParser.has_option c section option = true ->
  exists v, ConfigParser.get c section option = Ok v.
Proof.
  intros Hc Hin Hhas. destruct (section_has_options c section Hin) as [options Ho].
  rewrite (get_plain c section options option Hc Ho).
  unfold ConfigParser.has_option, dict_mem in *. rewrite Ho in *.
  destruct (dict_get options option) as [v|]; eauto.
  destruct (dict_get (config_defaults c) option) as [v|]; eauto.
  destruct (String.eqb section "" || String.eqb section "DEFAULT"); discriminate.
Qed.

Lemma find_dest_none c d sections :
  no_percent c ->
  incl sections (ConfigParser.sections c) ->
  (forall s, In s sections -> dest_matches c d s = false) ->
  find_dest c d sections = Ok None.
Proof.
  intros Hc. induction sections as [|s sections IH]; intros Hincl Hno; simpl; auto.
  assert (Hs : In s (ConfigParser.sections c)) by (apply Hincl; now left).
  assert (IH' : find_dest c d sections = Ok None).
  { apply IH; [intros x Hx; apply Hincl; now right | intros x Hx; apply Hno; now right]. }
  specialize (Hno s (or_introl eq_refl)). unfold dest_matches in Hno.
  destruct (ConfigParser.has_option c s "dest") eqn:Hhas; auto.
  destruct (get_after_has_option c s "dest" Hc Hs Hhas) as [v Hv].
  rewrite Hv in *. simpl in *. now rewrite Hno.
Qed.

Lemma find_dest_first c d before section after :
  no_percent c ->
  incl (before ++ section :: after) (ConfigParser.sections c) ->
  (forall s, In s before -> dest_matches c d s = false) ->
  dest_matches c d section = true ->
  find_dest c d (before ++ section :: after) = Ok (Some section).
Proof.
  intros Hc. induction before as [|s before IH]; intros Hincl Hno Hyes; simpl.
  - unfold dest_matches in Hyes. apply andb_prop in Hyes as [Hhas Hget].
    rewrite Hhas. destruct (ConfigParser.get c section "dest") as [v|]; [|discriminate].
    simpl. now rewrite Hget.
  - assert (Hs : In s (ConfigParser.sections c)) by (apply Hincl; now left).
    assert (IH' : find_dest c d (before ++ section :: after) = Ok (Some section)).
    { apply IH; [intros x Hx; apply Hincl; now right
                | intros x Hx; apply Hno; now right | exact Hyes]. }
    specialize (Hno s (or_introl eq_refl)). unfold dest_matches in Hno.
    destruct (ConfigParser.has_option c s "dest") eqn:Hhas; auto.
    destruct (get_after_has_option c s "dest" Hc Hs Hhas) as [v Hv].
    rewrite Hv in *. simpl in *. now rewrite Hno.
Qed.

(** C7 (amended): for a file whose option values hold no percent sign:
    when --dest is given and not empty, the connection parameters are the
    options of the first section, in file order, whose dest option equals
    the given value, laid over the parser's DEFAULT options, and no other
    section contributes; when --dest is not given or is the empty string,
    they are those of the first section; a given, non-empty --dest that no
    section matches raises [SystemExit(1)], which ends the process with
    exit code 1 on every command line that names the file and no other
    file; a file without sections raises it too. *)
Theorem load_config_selects_the_section (config_file : string) (c : config) :
  config_files config_file = Content c ->
  no_percent c ->
  (forall d before section after options,
      d <> "" ->
      ConfigParser.sections c = before ++ section :: after ->
      (forall s, In s before -> dest_matches c d s = false) ->
      dest_matches c d section = true ->
      dict_get (config_sections c) section = Some options ->
      load_config config_files config_file (Some d)
      = ([], Ok (dict_update (config_defaults c) options))) /\
  (forall d argv,
      d <> "" ->
      (forall s, In s (ConfigParser.sections c) -> dest_matches c d s = false) ->
      snd (load_config config_files config_file (Some d)) = Raise (SystemExit 1) /\
      (Args.connection argv = Some config_file -> config_file <> "" ->
       Args.dest argv = Some d -> no_files argv ->
       exit_code (snd (main lib config_files json_files set_order argv)) = 1%Z)) /\
  (forall dest section rest options,
      opt_truthy dest = false ->
      ConfigParser.sections c = section :: rest ->
      dict_get (config_sections c) section = Some options ->
      load_config config_files config_file dest
      = ([], Ok (dict_update (config_defaults c) options))) /\
  (forall dest,
      opt_truthy dest = false ->
      ConfigParser.sections c = [] ->
      snd (load_config config_files config_file dest) = Raise (SystemExit 1)).
Proof.
  intros Hfile Hc.
  assert (Htruthy : forall d, d <> "" -> opt_truthy (Some d) = true).
  { intros d Hd. simpl. now destruct (String.eqb_spec d ""). }
  split; [|split; [|split]].
  - intros d before section after options Hd Hsec Hno Hyes Hopts.
    unfold load_config. rewrite Hfile, (Htruthy d Hd). simpl.
    rewrite Hsec, find_dest_first; auto.
    + simpl. now rewrite (items_plain c section options Hc Hopts).
    + rewrite <- Hsec. apply incl_refl.
  - intros d argv Hd Hno.
    assert (Hexit : snd (load_config config_files config_file (Some d))
                    = Raise (SystemExit 1)).
    { unfold load_config. rewrite Hfile, (Htruthy d Hd). simpl.
      rewrite find_dest_none; auto using incl_refl. }
    split; [exact Hexit|].
    intros Hconn Hpath Hdest Hfiles.
    apply (load_config_exit_ends_main argv config_file 1%Z Hconn Hpath Hfiles).
    now rewrite Hdest.
  - intros dest section rest options Hdest Hsec Hopts.
    unfold load_config. rewrite Hfile, Hdest. simpl.
    rewrite Hsec. simpl. now rewrite (items_plain c section options Hc Hopts).
  - intros dest Hdest Hsec.
    unfold load_config. rewrite Hfile, Hdest. simpl.
    now rewrite Hsec.
Qed.
End ConfigClaims.

(** The scenario of the specification: --dest names the destination of the
    second section, and the parameters are the second section's. *)
Lemma load_config_selects_the_section_witness :
  ConfigManager.load_config (fun _ => Content scenario_config) "sap.cfg" (Some "QAS")
  = ([], Ok [("dest", "QAS"); ("user", "bob"); ("passwd", "b-secret");
             ("ashost", "qas.example.org"); ("client", "200")]).
Proof.
  apply (proj1 (load_config_selects_the_section faulting_library
                  (fun _ => Content scenario_config) (fun _ => NoFile) (fun arr => arr)
                  "sap.cfg" scenario_config eq_refl eq_refl)
           "QAS" ["development"] "quality" []
           [("dest", "QAS"); ("user", "bob"); ("passwd", "b-secret");
            ("ashost", "qas.example.org"); ("client", "200")]).
  - discriminate.
  - reflexivity.
  - intros s [<-|[]]. reflexivity.
  - reflexivity.
  - reflexivity.
Defined.

(** C7 as stated fails twice.  --dest is given as the empty string, no
    section has that destination, and the parameters are those of the
    first section instead of a fatal exit.  And --dest names the
    destination of a section whose password is written with a percent
    sign: the parser refuses the value when the options are read, and the
    run ends with a fatal exit instead of parameters. *)
Lemma empty_dest_and_percent_sign_break_the_selection :
  dest_matches scenario_config "" "development" = false /\
  dest_matches scenario_config "" "quality" = false /\
  ConfigManager.load_config (fun _ => Content scenario_config) "sap.cfg" (Some "")
  = ([], Ok [("dest", "DEV"); ("user", "alice"); ("passwd", "a-secret");
             ("ashost", "dev.example.org"); ("client", "100")]) /\
  dest_matches percent_config "QAS" "quality" = true /\
  ConfigManager.load_config (fun _ => Content percent_config) "sap.cfg" (Some "QAS")
  = ([Print (Log error
               "Error reading configuration: '%' must be followed by '%' or '(', found: '%'")],
     Raise (SystemExit 1)).
Proof. repeat split; reflexivity. Qed.

(** Interpolation at work: a doubled percent sign is read as one, and a
    reference is replaced by the value of the option it names. *)
Lemma items_are_interpolated :
  ConfigParser.items
    {| config_defaults := [("domain", "example.org")];
       config_sections :=
         [("quality", [("ashost", "qas.%(domain)s"); ("passwd", "100%%")])] |}
    "quality"
  = Ok [("domain", "example.org"); ("ashost", "qas.example.org"); ("passwd", "100%")].
Proof. reflexivity. Qed.

(** ** Sorting *)

Section SortedFacts.
Context {A K : Type}.
Variable lt : K -> K -> bool.
Variable key : A -> K.

Local Abbreviation le := (key_le lt key).

Hypothesis lt_irrefl : forall a, lt a a = false.
Hypothesis lt_asym : forall a b, lt a b = true -> lt b a = false.
Hypothesis le_trans : forall a b c, lt b a = false -> lt c b = false -> lt c a = false.

Lemma insert_by_perm x l : Permutation (insert_by lt key x l) (x :: l).
Proof.
  induction l as [|y l IH]; simpl; auto.
  destruct (lt (key y) (key x)); auto.
  rewrite IH. apply perm_swap.
Qed.

Lemma sorted_perm l : Permutation (sorted lt key l) l.
Proof.
  induction l as [|x l IH]; simpl; auto.
  rewrite insert_by_perm. now constructor.
Qed.

Lemma insert_by_sorted x l :
  StronglySorted le l -> StronglySorted le (insert_by lt key x l).
Proof.
  induction l as [|y l IH]; intros Hs; simpl.
  - repeat constructor.
  - inversion Hs as [|? ? Hs' Hall]; subst.
    destruct (lt (key y) (key x)) eqn:E.
    + constructor; auto.
      apply (Permutation_Forall (Permutation_sym (insert_by_perm x l))).
      constructor; auto. now apply lt_asym.
    + constructor; auto. constructor; auto.
      eapply Forall_impl; [|exact Hall].
      intros z Hz. unfold key_le in *. eapply le_trans; eauto.
Qed.

Lemma sorted_sorted l : StronglySorted le (sorted lt key l).
Proof.
  induction l as [|x l IH]; simpl; [constructor|].
  now apply insert_by_sorted.
Qed.

(** Elements that share a key keep their order. *)
Lemma insert_by_filter (P : A -> bool) x l :
  (forall a b, P a = true -> P b = true -> key a = key b) ->
  filter P (insert_by lt key x l) = filter P (x :: l).
Proof.
  intros HP. induction l as [|y l IH]; simpl; auto.
  destruct (lt (key y) (key x)) eqn:E; simpl; auto.
  rewrite IH. simpl.
  destruct (P x) eqn:Px, (P y) eqn:Py; auto.
  rewrite (HP x y Px Py), lt_irrefl in E. discriminate.
Qed.

Lemma sorted_stable (P : A -> bool) l :
  (forall a b, P a = true -> P b = true -> key a = key b) ->
  filter P (sorted lt key l) = filter P l.
Proof.
  intros HP. induction l as [|x l IH]; simpl; auto.
  rewrite insert_by_filter by assumption. simpl. now rewrite IH.
Qed.
End SortedFacts.

Section KeyOrder.
Lemma str_compare_as_OT a : forall b, String.compare a b = String_as_OT.compare a b.
Proof.
  induction a as [|x a IH]; destruct b as [|y b]; simpl; auto.
Qed.

Lemma str_ltb_lt a b : String.ltb a b = true <-> String_as_OT.lt a b.
Proof.
  unfold String.ltb, String_as_OT.lt. rewrite str_compare_as_OT.
  destruct (String_as_OT.compare a b); split; congruence.
Qed.

Lemma str_ltb_irrefl a : String.ltb a a = false.
Proof.
  destruct (String.ltb a a) eqn:E; auto.
  apply str_ltb_lt in E. now apply (StrictOrder_Irreflexive a) in E.
Qed.

(** [b < a] fails exactly when [a <= b]. *)
Lemma str_ltb_false_leb a b : String.ltb b a = false <-> String.leb a b = true.
Proof.
  unfold String.ltb, String.leb. rewrite (String.compare_antisym b a).
  destruct (String.compare a b); simpl; split; congruence.
Qed.

Lemma str_leb_iff a b : String.leb a b = true <-> a = b \/ String_as_OT.lt a b.
Proof.
  unfold String.leb, String_as_OT.lt. rewrite str_compare_as_OT.
  destruct (String_as_OT.compare_spec a b) as [H|H|H]; split; auto; try congruence.
  intros [->|H']; [|discriminate].
  now apply (StrictOrder_Irreflexive b) in H.
Qed.

Lemma str_leb_trans a b c :
  String.leb a b = true -> String.leb b c = true -> String.leb a c = true.
Proof.
  rewrite !str_leb_iff. intros [->|Hab] [->|Hbc]; auto.
  right. etransitivity; eauto.
Qed.

(** The order of the sort keys, spelled out. *)
Lemma key_lt_false_iff a b :
  key_lt b a = false <->
  (fst a < fst b)%Z \/ (fst a = fst b /\ String.leb (snd a) (snd b) = true).
Proof.
  unfold key_lt. rewrite <- str_ltb_false_leb.
  destruct (Z.ltb_spec (fst b) (fst a)), (Z.eqb_spec (fst b) (fst a)); simpl;
    split; try lia; try congruence; intuition (try lia; congruence).
Qed.

Lemma key_lt_irrefl a : key_lt a a = false.
Proof. unfold key_lt. now rewrite Z.ltb_irrefl, Z.eqb_refl, str_ltb_irrefl. Qed.

Lemma key_le_trans a b c :
  key_lt b a = false -> key_lt c b = false -> key_lt c a = false.
Proof.
  rewrite !key_lt_false_iff. intros [H1|[H1 H1']] [H2|[H2 H2']]; try lia.
  right. split; [lia|]. eapply str_leb_trans; eauto.
Qed.

Lemma key_lt_asym a b : key_lt a b = true -> key_lt b a = false.
Proof.
  intros H. apply key_lt_false_iff.
  destruct (key_lt b a) eqn:E; [|now apply key_lt_false_iff].
  exfalso. unfold key_lt in *.
  apply orb_prop in H as [H|H]; apply orb_prop in E as [E|E];
    rewrite ?andb_true_iff, ?Z.ltb_lt, ?Z.eqb_eq in *; try lia.
  destruct H as [_ H], E as [_ E]. apply str_ltb_lt in H, E.
  assert (Habs : String_as_OT.lt (snd a) (snd a)) by (etransitivity; eauto).
  now apply (StrictOrder_Irreflexive (snd a)) in Habs.
Qed.
End KeyOrder.

(** ** The table of parameters *)

Section MetadataClaims.
Variable lib : rfc_library.

Lemma parameter_rows_app t1 t2 :
  parameter_rows (t1 ++ t2) = parameter_rows t1 ++ parameter_rows t2.
Proof. apply flat_map_app. Qed.

Lemma parameter_rows_fields (fs : list field_description) :
  parameter_rows (map (fun f => Print (FieldRow f)) fs) = [].
Proof. induction fs; simpl; auto. Qed.

(** One turn of the loop prints the row of its parameter and no other. *)
Lemma print_parameter_rows p :
  exists t,
    SAPConnection.print_parameter p = (t, Ok tt) /\ parameter_rows t = [p].
Proof.
  unfold SAPConnection.print_parameter. destruct (type_desc p) as [td|].
  - rewrite io_for_print. unfold io_bind, print, emit, io_ret. simpl.
    eexists. split; [reflexivity|]. simpl.
    now rewrite !parameter_rows_app, parameter_rows_fields.
  - unfold io_bind, print, emit, io_ret. simpl.
    eexists. split; reflexivity.
Qed.

Lemma print_parameters_rows l :
  exists t,
    io_for l SAPConnection.print_parameter = (t, Ok tt) /\ parameter_rows t = l.
Proof.
  induction l as [|p l (t & Ht & Hrows)]; simpl.
  - exists []. auto.
  - destruct (print_parameter_rows p) as (tp & Hp & Hprow).
    exists (tp ++ t). unfold io_bind. rewrite Hp, Ht. split; auto.
    now rewrite parameter_rows_app, Hprow, Hrows.
Qed.

Lemma StronglySorted_weaken {A : Type} (R S : A -> A -> Prop) l :
  (forall a b, R a b -> S a b) -> StronglySorted R l -> StronglySorted S l.
Proof.
  intros HRS. induction 1 as [|a l Hs IH Hall]; constructor; auto.
  eapply Forall_impl; [|exact Hall]. auto.
Qed.

(** C8: the rows of the table of parameters are the parameters of the
    description, sorted by direction, IMPORTING before EXPORTING before
    CHANGING before TABLES, then by name; parameters with the same
    direction rank and name keep the order of the description. *)
Theorem metadata_rows_are_sorted
    (self : SAPConnection.t) (function_name : string) (d : function_description) :
  SAPConnection.connection self = true ->
  rfc_description lib function_name = Ok (Some d) ->
  exists rows,
    parameter_rows (fst (SAPConnection.get_function_metadata lib self function_name)) = rows /\
    snd (SAPConnection.get_function_metadata lib self function_name) = Ok true /\
    Permutation rows (parameters d) /\
    StronglySorted parameter_le rows /\
    (forall P : parameter -> bool,
        (forall p q, P p = true -> P q = true ->
                     direction_rank (direction p) = direction_rank (direction q)
                     /\ name p = name q) ->
        filter P rows = filter P (parameters d)) /\
    direction_rank "IMPORTING" = 1%Z /\
    direction_rank "EXPORTING" = 2%Z /\
    direction_rank "CHANGING" = 3%Z /\
    direction_rank "TABLES" = 4%Z.
Proof.
  intros Hconn Hdesc.
  exists (sorted key_lt parameter_key_function (parameters d)).
  destruct (print_parameters_rows (sorted key_lt parameter_key_function (parameters d)))
    as (t & Ht & Hrows).
  assert (Hrun : SAPConnection.get_function_metadata lib self function_name
                 = (Print (Log info ("Getting function description for: " ++ function_name))
                      :: RfcDescribe function_name
                      :: Print (Log success ("Parameters of function: " ++ function_name))
                      :: Print ParameterHeader :: t ++ [], Ok true)).
  { unfold SAPConnection.get_function_metadata. rewrite Hconn. cbn [negb].
    unfold rfc. rewrite Hdesc.
    unfold io_bind, io_try, Logger.info, Logger.success, Logger.log, print, emit, io_ret.
    now rewrite Ht. }
  rewrite Hrun. cbn [fst snd].
  split; [|split; [reflexivity|split; [|split; [|split]]]].
  - cbn. now rewrite parameter_rows_app, Hrows, app_nil_r.
  - apply sorted_perm.
  - eapply StronglySorted_weaken;
      [|apply (sorted_sorted key_lt parameter_key_function key_lt_asym key_le_trans)].
    intros p q Hpq. now apply key_lt_false_iff in Hpq.
  - intros P HP. apply sorted_stable; [apply key_lt_irrefl|].
    intros p q Hp Hq. destruct (HP p q Hp Hq) as [Hrank Hname].
    unfold parameter_key_function. unfold direction_rank in Hrank. congruence.
  - repeat split; reflexivity.
Qed.
End MetadataClaims.

(** Four parameters given as TABLES, EXPORTING, IMPORTING, IMPORTING come
    out with the two IMPORTING ones first, by name. *)
Lemma metadata_rows_are_sorted_witness :
  exists rows,
    parameter_rows
      (fst (SAPConnection.get_function_metadata faulting_library
              {| SAPConnection.conn_params := direct_params;
            SAPConnection.connection := true |}
              "BAPI_USER_GET_DETAIL")) = rows /\
    rows = [ char_parameter "CACHE" "IMPORTING";
             char_parameter "USERNAME" "IMPORTING";
             char_parameter "RESULT" "EXPORTING";
             char_parameter "RETURN" "TABLES" ] /\
    StronglySorted parameter_le rows.
Proof.
  destruct (metadata_rows_are_sorted faulting_library
              {| SAPConnection.conn_params := direct_params;
            SAPConnection.connection := true |}
              "BAPI_USER_GET_DETAIL" _ eq_refl eq_refl)
    as (rows & Hrows & _ & _ & Hsorted & _).
  exists rows. split; [exact Hrows | split; [|exact Hsorted]].
  rewrite <- Hrows. reflexivity.
Defined.

(** ** The exit status *)

Section ExitClaims.
Variable lib : rfc_library.
Variable config_files : string -> file config.
Variable json_files : string -> file value.
Variable set_order : list value -> list value.

(** C3 (what the code does): when the call raises an RFC error, an
    application-level fault included, [execute_function] reports it and
    returns False, [main] drops that value, the connection is closed on
    leaving the [with] block, and the process ends with exit code 0, not
    1. *)
Theorem invocation_fault_exits_with_zero
    (function_name : string) (e : exn) (attrs : list (string * string)) :
  (forall params, rfc_open lib params = Ok tt) ->
  rfc_attributes lib = Ok attrs ->
  rfc_call lib function_name [] = Raise e ->
  is_RFCError e = true ->
  exit_code (snd (main lib config_files json_files set_order
                    (direct_args function_name false))) = 0%Z /\
  exists before,
    fst (main lib config_files json_files set_order (direct_args function_name false))
    = before ++ [ RfcCall function_name [];
                  Print (Log error ("Function execution error: " ++ exn_str e));
                  RfcClose;
                  Print (Log info "SAP connection closed") ].
Proof.
  intros Hopen Hattrs Hcall He.
  unfold main, main_body, direct_args, parse_args. cbn.
  rewrite Hopen. cbn. rewrite Hattrs. cbn. rewrite Hcall. cbn. rewrite He. cbn.
  split; [reflexivity|].
  eexists [_; _; _; _; _; _]. reflexivity.
Qed.

(** The sibling path: with [--desc], a description that cannot be fetched
    makes [get_function_metadata] return False, and [main] then leaves
    with exit code 1 after the connection is closed. *)
Lemma description_fault_exits_with_one
    (function_name : string) (e : exn) (attrs : list (string * string)) :
  (forall params, rfc_open lib params = Ok tt) ->
  rfc_attributes lib = Ok attrs ->
  rfc_description lib function_name = Raise e ->
  is_RFCError e = true ->
  exit_code (snd (main lib config_files json_files set_order
                    (direct_args function_name true))) = 1%Z /\
  exists before,
    fst (main lib config_files json_files set_order (direct_args function_name true))
    = before ++ [ RfcClose; Print (Log info "SAP connection closed") ].
Proof.
  intros Hopen Hattrs Hdesc He.
  unfold main, main_body, direct_args, parse_args. cbn.
  rewrite Hopen. cbn. rewrite Hattrs. cbn. rewrite Hdesc. cbn. rewrite He. cbn.
  split; [reflexivity|].
  eexists [_; _; _; _; _; _; _; _]. reflexivity.
Qed.
End ExitClaims.

(** The failing input of C3: the call of BAPI_USER_GET_DETAIL is answered
    with the application-level fault USER_NOT_FOUND. *)
Lemma invocation_fault_exits_with_zero_witness :
  exit_code (snd (main faulting_library (fun _ => NoFile) (fun _ => NoFile) (fun arr => arr)
                    (direct_args "BAPI_USER_GET_DETAIL" false))) = 0%Z /\
  exists before,
    fst (main faulting_library (fun _ => NoFile) (fun _ => NoFile) (fun arr => arr)
           (direct_args "BAPI_USER_GET_DETAIL" false))
    = before ++ [ RfcCall "BAPI_USER_GET_DETAIL" [];
                  Print (Log error "Function execution error: USER_NOT_FOUND");
                  RfcClose;
                  Print (Log info "SAP connection closed") ].
Proof.
  apply (invocation_fault_exits_with_zero faulting_library (fun _ => NoFile) (fun _ => NoFile)
           (fun arr => arr) "BAPI_USER_GET_DETAIL" (ABAPApplicationError "USER_NOT_FOUND")
           [("sysId", "DEV")]).
  - reflexivity.
  - reflexivity.
  - reflexivity.
  - reflexivity.
Defined.


(** * Further properties *)

(** ** The result projector *)

Section ProjectorFurther.
Import SAPConnection.
Local Open Scope string_scope.

Lemma dict_keys_projections result params :
  dict_keys (projections result params)
  = filter (fun p => match projection result p with Some _ => true | None => false end) params.
Proof.
  induction params as [|p params IH]; [reflexivity|].
  rewrite projections_cons, dict_keys_app, IH. unfold projections. simpl.
  destruct (projection result p); reflexivity.
Qed.

Lemma in_item_events (d : dict) k v :
  In (k, v) d -> In (Print (Item k (shown_as v))) (map item_event d).
Proof. intros H. apply in_map_iff. now exists (k, v). Qed.

(** The lines of a set of specifiers on a result of JSON values: one for
    each captured entry. *)
Lemma captured_lines result params :
  NoDup params -> params <> [] -> json_values result ->
  fst (_process_results result (Some (map VStr params)))
  = Print (Log info "Function returned the following requested data:")
      :: map item_event (projections result params).
Proof.
  intros Hnd Hne Hjson.
  assert (Hc : capture_all result [] params = Ok (projections result params)).
  { now rewrite capture_all_closed_form. }
  rewrite (process_results_captured _ _ _ Hne Hc), display_captured_results_trace.
  cbn [fst].
  destruct (displayed_serialisable (projections result params)) as [-> _];
    [|reflexivity].
  now apply json_values_serialisable, projections_json.
Qed.

(** X1: a specifier in plain form that names a key of the raw result gets
    that key's value, unchanged, as its entry; on a result that holds JSON
    values only, a line showing it is printed. *)
Theorem plain_specifier_copies_the_value
    (result : dict) (params : list string) (param : string) (v : value) :
  NoDup params -> In param params ->
  indexed_form param = false ->
  dict_get result param = Some v ->
  exists captured_results,
    capture_all result [] params = Ok captured_results /\
    dict_get captured_results param = Some v /\
    (json_values result ->
     In (Print (Item param (shown_as v)))
        (fst (_process_results result (Some (map VStr params))))).
Proof.
  intros Hnd Hin Hi Hv.
  assert (Hc : capture_all result [] params = Ok (projections result params)).
  { now rewrite capture_all_closed_form. }
  assert (Hg : dict_get (projections result params) param = Some v).
  { rewrite dict_get_projections by assumption. unfold projection. now rewrite Hi. }
  assert (Hne : params <> []) by (intros ->; contradiction).
  exists (projections result params). split; [exact Hc | split; [exact Hg|]].
  intros Hjson. rewrite (captured_lines _ _ Hnd Hne Hjson).
  right. now apply in_item_events, dict_get_In.
Qed.

Lemma plain_specifier_copies_the_value_witness :
  exists captured_results,
    capture_all scenario_result [] ["ITAB[FIELD]"; "STATUS"] = Ok captured_results /\
    dict_get captured_results "STATUS" = Some (VStr "OK") /\
    In (Print (Item "STATUS" (Plain (VStr "OK"))))
       (fst (_process_results scenario_result
               (Some [VStr "ITAB[FIELD]"; VStr "STATUS"]))).
Proof.
  destruct (plain_specifier_copies_the_value scenario_result ["ITAB[FIELD]"; "STATUS"]
              "STATUS" (VStr "OK")) as (captured_results & Hc & Hg & Hline).
  - nodup_strings.
  - simpl. auto.
  - reflexivity.
  - reflexivity.
  - exists captured_results. split; [exact Hc | split; [exact Hg|]].
    exact (Hline eq_refl).
Defined.

(** X2: the captured results hold exactly the requested specifiers whose
    target is there, each once and in the order they were visited: no key
    that was not asked for, no key twice. *)
Theorem captured_keys_are_requested (result : dict) (params : list string) :
  NoDup params ->
  exists captured_results,
    capture_all result [] params = Ok captured_results /\
    NoDup (dict_keys captured_results) /\
    incl (dict_keys captured_results) params /\
    (forall k, In k (dict_keys captured_results) <->
               In k params /\ ~ missing_target result k).
Proof.
  intros Hnd. exists (projections result params).
  split; [now rewrite capture_all_closed_form|].
  rewrite dict_keys_projections. split; [now apply NoDup_filter|].
  split; [apply incl_filter|].
  intros k. rewrite filter_In. split.
  - intros [Hin Hp]. split; [exact Hin|].
    intros Hm. apply missing_target_projection in Hm. now rewrite Hm in Hp.
  - intros [Hin Hm]. split; [exact Hin|].
    destruct (projection result k) eqn:Hp; [reflexivity|].
    exfalso. apply Hm. unfold missing_target, projection in *.
    destruct (indexed_form k) eqn:Hi; [|exact Hp].
    destruct (split_specifier_indexed k Hi) as (t & rest & Hs & _ & _).
    rewrite Hs in Hp. exists t, (str_rstrip "]" rest). split; [exact Hs|].
    destruct (dict_get result t) as [w|]; [|now left].
    right. exists w. split; [reflexivity|]. destruct w; try reflexivity. discriminate.
Qed.

Lemma captured_keys_are_requested_witness :
  exists captured_results,
    capture_all scenario_result [] ["MISSING"; "ITAB[FIELD]"; "NOTAB[F]"; "STATUS"]
    = Ok captured_results /\
    NoDup (dict_keys captured_results) /\
    incl (dict_keys captured_results) ["MISSING"; "ITAB[FIELD]"; "NOTAB[F]"; "STATUS"] /\
    (forall k, In k (dict_keys captured_results) <->
               In k ["MISSING"; "ITAB[FIELD]"; "NOTAB[F]"; "STATUS"]
               /\ ~ missing_target scenario_result k).
Proof.
  apply (captured_keys_are_requested scenario_result
           ["MISSING"; "ITAB[FIELD]"; "NOTAB[F]"; "STATUS"]).
  nodup_strings.
Defined.



(** X4: a table that is there but has no row that is a mapping (an empty
    table, or rows of other types only) still gets an entry, the empty
    sequence; rows that are not mappings are skipped without an error.  On
    a result that holds JSON values only, a line for the entry is
    printed. *)
Theorem table_without_mappings_yields_empty_entry
    (result : dict) (params : list string) (param table_name field : string)
    (rows : list value) :
  NoDup params -> In param params ->
  indexed_form param = true ->
  split_specifier param = Ok (table_name, field) ->
  dict_get result table_name = Some (VList rows) ->
  Forall (fun row => isinstance_dict row = false) rows ->
  exists captured_results,
    capture_all result [] params = Ok captured_results /\
    dict_get captured_results param = Some (VList []) /\
    (json_values result ->
     In (Print (Item param (Json (VList []))))
        (fst (_process_results result (Some (map VStr params))))).
Proof.
  intros Hnd Hin Hi Hs Ht Hrows.
  destruct (captured_column result params param table_name field rows Hnd Hin Hi Hs Ht)
    as (captured & Hc & Hg).
  assert (Hm : mappings rows = []).
  { clear -Hrows. induction Hrows as [|row rows Hrow _ IH]; [reflexivity|].
    destruct row; try discriminate; exact IH. }
  rewrite Hm in Hg. simpl in Hg.
  assert (Hne : params <> []) by (intros ->; contradiction).
  exists captured. split; [exact Hc | split; [exact Hg|]].
  intros Hjson. rewrite (captured_lines _ _ Hnd Hne Hjson).
  rewrite capture_all_closed_form in Hc by (auto; intros; reflexivity).
  injection Hc as <-.
  right. apply (in_item_events _ param (VList [])). now apply dict_get_In.
Qed.

Lemma table_without_mappings_yields_empty_entry_witness :
  exists captured_results,
    capture_all [("T", VList [VStr "a"; VInt 7])] [] ["T[F]"] = Ok captured_results /\
    dict_get captured_results "T[F]" = Some (VList []) /\
    In (Print (Item "T[F]" (Json (VList []))))
       (fst (_process_results [("T", VList [VStr "a"; VInt 7])] (Some [VStr "T[F]"]))).
Proof.
  destruct (table_without_mappings_yields_empty_entry [("T", VList [VStr "a"; VInt 7])]
              ["T[F]"] "T[F]" "T" "F" [VStr "a"; VInt 7])
    as (captured_results & Hc & Hg & Hline).
  - nodup_strings.
  - simpl. auto.
  - reflexivity.
  - reflexivity.
  - reflexivity.
  - repeat constructor.
  - exists captured_results. split; [exact Hc | split; [exact Hg|]].
    exact (Hline eq_refl).
Defined.
End ProjectorFurther.

(** ** Traces *)

Section TraceFacts.
Context {A B : Type}.

Lemma io_bind_fst (m : io A) (k : A -> io B) :
  fst (io_bind m k) = fst m ++ match snd m with Ok a => fst (k a) | Raise _ => [] end.
Proof.
  destruct m as [t [a|e]]; simpl; [|now rewrite app_nil_r].
  now destruct (k a).
Qed.

Lemma io_bind_snd (m : io A) (k : A -> io B) :
  snd (io_bind m k) = match snd m with Ok a => snd (k a) | Raise e => Raise e end.
Proof. destruct m as [t [a|e]]; simpl; [|reflexivity]. now destruct (k a). Qed.

Lemma io_try_fst (m : io A) (h : exn -> option (io A)) :
  fst (io_try m h)
  = fst m ++ match snd m with
             | Raise e => match h e with Some m' => fst m' | None => [] end
             | Ok _ => []
             end.
Proof.
  destruct m as [t [a|e]]; simpl; [now rewrite app_nil_r|].
  destruct (h e) as [[t' r]|]; simpl; [reflexivity|now rewrite app_nil_r].
Qed.

Lemma io_try_snd (m : io A) (h : exn -> option (io A)) :
  snd (io_try m h)
  = match snd m with
    | Raise e => match h e with Some m' => snd m' | None => Raise e end
    | Ok a => Ok a
    end.
Proof.
  destruct m as [t [a|e]]; simpl; [reflexivity|].
  now destruct (h e) as [[t' r]|].
Qed.

Lemma io_finally_fst (m : io A) (cleanup : io unit) :
  fst (io_finally m cleanup) = fst m ++ fst cleanup.
Proof. destruct m as [t r], cleanup as [t' [u|e]]; reflexivity. Qed.

Lemma io_finally_snd (m : io A) (cleanup : io unit) :
  snd (io_finally m cleanup)
  = match snd cleanup with Ok _ => snd m | Raise e => Raise e end.
Proof. destruct m as [t r], cleanup as [t' [u|e]]; reflexivity. Qed.
End TraceFacts.

Lemma rfc_events_app t1 t2 : rfc_events (t1 ++ t2) = rfc_events t1 ++ rfc_events t2.
Proof. apply filter_app. Qed.

Lemma rfc_events_prints (ls : list line) : rfc_events (map Print ls) = [].
Proof. induction ls; simpl; auto. Qed.

Lemma rfc_events_item_events (d : dict) : rfc_events (map item_event d) = [].
Proof. induction d; simpl; auto. Qed.

(** The loop over the elements of a set raises nothing on strings; on an
    element that is no string it raises [TypeError], and [AttributeError]
    for a list or a dict, which no set holds. *)
Lemma capture_loop_cases result params : forall acc,
  lists_only acc ->
  (exists acc', SAPConnection.capture_loop result acc params = Ok acc') \/
  (exists e,
      SAPConnection.capture_loop result acc params = Raise e /\
      is_Exception e = true /\ is_RFCError e = false /\
      (forallb hashable params = true -> exists msg, e = TypeError msg)).
Proof.
  induction params as [|x params IH]; intros acc Hacc; [left; now exists acc|].
  cbn [SAPConnection.capture_loop forallb].
  destruct x as [| | |s|items|entries| | |]; cbn [SAPConnection.capture_element hashable];
    try (right; eexists; split; [reflexivity|]; split; [reflexivity|];
         split; [reflexivity|]; intros _; eexists; reflexivity).
  - destruct (capture_total result acc s Hacc) as (acc1 & -> & Hacc1 & _).
    cbn [res_bind andb].
    destruct (IH acc1 Hacc1) as [H|(e & H1 & H2 & H3 & H4)]; [now left|right; eauto 8].
  - right. destruct (existsb _ items); eexists;
      (split; [reflexivity|]; split; [reflexivity|]; split; [reflexivity|]; discriminate).
  - right. destruct (dict_mem entries "["); eexists;
      (split; [reflexivity|]; split; [reflexivity|]; split; [reflexivity|]; discriminate).
Qed.

(** The projector does not touch the RFC library, and it ends normally or
    with an exception of the loop or of [json.dumps]: one of class
    [Exception] that is no RFC error, a [TypeError] when the elements of
    the set are hashable, as those of a set are. *)
Lemma process_results_end result params_to_capture :
  quiet (SAPConnection._process_results result params_to_capture) /\
  (snd (SAPConnection._process_results result params_to_capture) = Ok tt \/
   exists e,
     snd (SAPConnection._process_results result params_to_capture) = Raise e /\
     is_Exception e = true /\ is_RFCError e = false /\
     ((forall params, params_to_capture = Some params -> forallb hashable params = true) ->
      exists msg, e = TypeError msg)).
Proof.
  assert (Hdisplay : forall d,
             display_end d = Ok tt \/
             exists e, display_end d = Raise e /\ is_Exception e = true /\
                       is_RFCError e = false /\ exists msg, e = TypeError msg).
  { intros d. destruct (display_end d) as [[]|e] eqn:Hd; [now left|right].
    destruct (display_end_raises d e Hd) as [msg ->]. eauto 6. }
  assert (Hall : quiet (SAPConnection._display_all_results result) /\
                 (snd (SAPConnection._display_all_results result) = Ok tt \/
                  exists e,
                    snd (SAPConnection._display_all_results result) = Raise e /\
                    is_Exception e = true /\ is_RFCError e = false /\
                    ((forall params, params_to_capture = Some params ->
                                     forallb hashable params = true) ->
                     exists msg, e = TypeError msg))).
  { rewrite display_all_results_trace. split.
    - unfold quiet. simpl. apply rfc_events_item_events.
    - cbn [snd]. destruct (Hdisplay result) as [H|(e & H1 & H2 & H3 & H4)]; eauto 8. }
  destruct params_to_capture as [[|p params]|]; try exact Hall.
  unfold SAPConnection._process_results.
  destruct (capture_loop_cases result (p :: params) [] lists_only_empty)
    as [(c & ->)|(e & -> & He1 & He2 & He3)].
  - unfold io_bind. rewrite display_captured_results_trace. cbn [app fst snd]. split.
    + unfold quiet. simpl. apply rfc_events_item_events.
    + destruct (Hdisplay c) as [H|(e & H1 & H2 & H3 & H4)]; eauto 8.
  - unfold io_bind. split; [reflexivity|]. right. exists e. cbn [snd].
    split; [reflexivity|]. split; [exact He1|]. split; [exact He2|].
    intros Hall'. apply He3, Hall'. reflexivity.
Qed.

(** On a result that holds JSON values only and with a set of specifiers
    that are strings, the projector raises nothing. *)
Lemma process_results_json result params_to_capture :
  json_values result -> string_set params_to_capture ->
  snd (SAPConnection._process_results result params_to_capture) = Ok tt.
Proof.
  intros Hjson Hset.
  assert (Hall : snd (SAPConnection._display_all_results result) = Ok tt).
  { rewrite display_all_results_trace.
    now apply displayed_serialisable, json_values_serialisable. }
  destruct params_to_capture as [params|]; [|exact Hall].
  destruct Hset as (o & Hnd & ->).
  destruct o as [|p o]; [exact Hall|].
  rewrite (process_results_captured result (p :: o) (projections result (p :: o)))
    by (discriminate || now rewrite capture_all_closed_form).
  rewrite display_captured_results_trace.
  now apply displayed_serialisable, json_values_serialisable, projections_json.
Qed.

(** ** Calling and describing a function module *)

Section SessionFurther.
Variable lib : rfc_library.
Local Open Scope string_scope.

Lemma execute_function_cases
    (self : SAPConnection.t) (function_name : string)
    (import_params : option dict) (params_to_capture : option (list value)) :
  SAPConnection.connection self = true ->
  match rfc_call lib function_name
          (match import_params with Some d => d | None => [] end) with
  | Ok result =>
      snd (SAPConnection.execute_function lib self function_name import_params
             params_to_capture)
      = match snd (if truthy (VDict result)
                   then SAPConnection._process_results result params_to_capture
                   else io_ret tt) with
        | Ok _ => Ok true
        | Raise e => Raise e
        end
  | Raise e =>
      snd (SAPConnection.execute_function lib self function_name import_params
             params_to_capture)
      = if is_RFCError e then Ok false else Raise e
  end /\
  rfc_events
    (fst (SAPConnection.execute_function lib self function_name import_params
            params_to_capture))
  = [RfcCall function_name (match import_params with Some d => d | None => [] end)].
Proof.
  intros Hconn. unfold SAPConnection.execute_function. rewrite Hconn. cbn [negb].
  unfold rfc, Logger.info, Logger.success, Logger.error, Logger.log, print, emit, io_ret.
  destruct (rfc_call lib function_name _) as [result|e].
  - unfold io_bind, io_try. cbn beta iota.
    destruct (truthy (VDict result)); [|cbn; split; reflexivity].
    destruct (process_results_end result params_to_capture) as [Hq Hr].
    destruct (SAPConnection._process_results result params_to_capture) as [t r].
    unfold quiet in Hq. cbn [fst snd] in *.
    destruct r as [[]|e].
    + unfold io_bind, io_try. cbn [fst snd app]. split; [reflexivity|].
      unfold rfc_events in *. cbn [filter]. now rewrite !app_nil_r, Hq.
    + destruct Hr as [Hr|(e' & [= <-] & _ & He & _)]; [discriminate|].
      unfold io_bind, io_try. cbn [fst snd app]. rewrite He. cbn [fst snd].
      split; [reflexivity|].
      unfold rfc_events in *. cbn [filter]. now rewrite Hq.
  - destruct (is_RFCError e) eqn:He; unfold io_bind, io_try; cbn; rewrite He; cbn;
      split; reflexivity.
Qed.

(** X5: on an open connection, [execute_function] returns False exactly
    when the call raised an RFC error and lets any other exception of the
    call through unchanged.  When the call returned, it returns True or
    ends with an exception of the projector, of class [Exception] and no
    RFC error (a [TypeError] when the elements of the set are hashable);
    it returns True whenever the result is empty, and whenever the result
    holds JSON values only and the specifiers are a set of strings.  That
    one call is all it asks of the RFC library. *)
Theorem execute_function_outcome
    (self : SAPConnection.t) (function_name : string)
    (import_params : option dict) (params_to_capture : option (list value)) :
  SAPConnection.connection self = true ->
  match rfc_call lib function_name
          (match import_params with Some d => d | None => [] end) with
  | Ok result =>
      (snd (SAPConnection.execute_function lib self function_name import_params
              params_to_capture) = Ok true \/
       exists e,
         snd (SAPConnection.execute_function lib self function_name import_params
                params_to_capture) = Raise e /\
         is_Exception e = true /\ is_RFCError e = false /\
         ((forall params, params_to_capture = Some params ->
                          forallb hashable params = true) ->
          exists msg, e = TypeError msg)) /\
      (result = [] \/ (json_values result /\ string_set params_to_capture) ->
       snd (SAPConnection.execute_function lib self function_name import_params
              params_to_capture) = Ok true)
  | Raise e =>
      snd (SAPConnection.execute_function lib self function_name import_params
             params_to_capture)
      = if is_RFCError e then Ok false else Raise e
  end /\
  rfc_events
    (fst (SAPConnection.execute_function lib self function_name import_params
            params_to_capture))
  = [RfcCall function_name (match import_params with Some d => d | None => [] end)].
Proof.
  intros Hconn.
  destruct (execute_function_cases self function_name import_params params_to_capture Hconn)
    as [Hend Hcalls].
  split; [|exact Hcalls].
  destruct (rfc_call lib function_name _) as [result|e]; [|exact Hend].
  rewrite Hend. split.
  - destruct (truthy (VDict result)); [|now left].
    destruct (process_results_end result params_to_capture)
      as [_ [->|(e & -> & H)]]; [now left|right; now exists e].
  - intros [->|[Hjson Hset]]; [reflexivity|].
    destruct (truthy (VDict result)); [|reflexivity].
    now rewrite process_results_json.
Qed.

(** X6: a call that returns an empty result prints neither a data header
    nor an item; it is reported as called successfully and
    [execute_function] returns True. *)
Theorem empty_result_prints_no_data
    (self : SAPConnection.t) (function_name : string)
    (import_params : option dict) (params_to_capture : option (list value)) :
  SAPConnection.connection self = true ->
  rfc_call lib function_name (match import_params with Some d => d | None => [] end)
  = Ok [] ->
  SAPConnection.execute_function lib self function_name import_params params_to_capture
  = ([ Print (Log info ("Invoking function module '" ++ function_name ++ "'..."));
       RfcCall function_name (match import_params with Some d => d | None => [] end);
       Print (Log success ("Function module '" ++ function_name
                           ++ "' called successfully")) ],
     Ok true).
Proof.
  intros Hconn Hcall. unfold SAPConnection.execute_function. rewrite Hconn. cbn [negb].
  unfold rfc. rewrite Hcall. reflexivity.
Qed.

Lemma metadata_success_trace self function_name d t :
  SAPConnection.connection self = true ->
  rfc_description lib function_name = Ok (Some d) ->
  io_for (sorted key_lt parameter_key_function (parameters d)) (SAPConnection.print_parameter)
  = (t, Ok tt) ->
  SAPConnection.get_function_metadata lib self function_name
  = (Print (Log info ("Getting function description for: " ++ function_name))
       :: RfcDescribe function_name
       :: Print (Log success ("Parameters of function: " ++ function_name))
       :: Print ParameterHeader :: (t ++ [])%list, Ok true).
Proof.
  intros Hconn Hdesc Ht.
  unfold SAPConnection.get_function_metadata. rewrite Hconn. cbn [negb].
  unfold rfc. rewrite Hdesc.
  unfold io_bind, io_try, Logger.info, Logger.success, Logger.log, print, emit, io_ret.
  now rewrite Ht.
Qed.

Lemma get_function_metadata_cases (self : SAPConnection.t) (function_name : string) :
  SAPConnection.connection self = true ->
  match rfc_description lib function_name with
  | Ok (Some _) =>
      snd (SAPConnection.get_function_metadata lib self function_name) = Ok true
  | Ok None =>
      snd (SAPConnection.get_function_metadata lib self function_name) = Ok false /\
      parameter_rows (fst (SAPConnection.get_function_metadata lib self function_name)) = []
  | Raise e =>
      snd (SAPConnection.get_function_metadata lib self function_name)
      = (if is_Exception e then Ok false else Raise e) /\
      parameter_rows (fst (SAPConnection.get_function_metadata lib self function_name)) = []
  end.
Proof.
  intros Hconn. destruct (rfc_description lib function_name) as [[d|]|e] eqn:Hdesc.
  - destruct (print_parameters_rows (sorted key_lt parameter_key_function (parameters d)))
      as (t & Ht & _).
    now rewrite (metadata_success_trace self function_name d t Hconn Hdesc Ht).
  - unfold SAPConnection.get_function_metadata. rewrite Hconn. cbn [negb].
    unfold rfc. rewrite Hdesc. split; reflexivity.
  - unfold SAPConnection.get_function_metadata. rewrite Hconn. cbn [negb].
    unfold rfc. rewrite Hdesc.
    unfold io_bind, io_try, Logger.info, Logger.error, Logger.log, print, emit, io_ret.
    cbn. destruct e; cbn; split; reflexivity.
Qed.

(** X7: on an open connection, [get_function_metadata] returns True
    exactly when the library gave a description; a missing description and
    every exception of the Exception class make it return False with no
    parameter row printed; only an exception outside that class, such as a
    keyboard interrupt, leaves it. *)
Theorem get_function_metadata_outcome (self : SAPConnection.t) (function_name : string) :
  SAPConnection.connection self = true ->
  match rfc_description lib function_name with
  | Ok (Some _) =>
      snd (SAPConnection.get_function_metadata lib self function_name) = Ok true
  | Ok None =>
      snd (SAPConnection.get_function_metadata lib self function_name) = Ok false /\
      parameter_rows (fst (SAPConnection.get_function_metadata lib self function_name)) = []
  | Raise e =>
      snd (SAPConnection.get_function_metadata lib self function_name)
      = (if is_Exception e then Ok false else Raise e) /\
      parameter_rows (fst (SAPConnection.get_function_metadata lib self function_name)) = []
  end.
Proof. apply get_function_metadata_cases. Qed.

Lemma field_rows_app t1 t2 :
  field_rows (t1 ++ t2)%list = (field_rows t1 ++ field_rows t2)%list.
Proof. apply flat_map_app. Qed.

Lemma field_rows_fields (fs : list field_description) :
  field_rows (map (fun f => Print (FieldRow f)) fs) = fs.
Proof. induction fs as [|f fs IH]; simpl; [reflexivity|]. now rewrite IH. Qed.

Lemma print_parameter_fields p :
  exists t,
    SAPConnection.print_parameter p = (t, Ok tt) /\ field_rows t = structure_fields p.
Proof.
  unfold SAPConnection.print_parameter, structure_fields.
  destruct (type_desc p) as [td|].
  - rewrite io_for_print. unfold io_bind, print, emit, io_ret. simpl.
    eexists. split; [reflexivity|]. simpl.
    now rewrite !field_rows_app, field_rows_fields, !app_nil_r.
  - unfold io_bind, print, emit, io_ret. simpl.
    eexists. split; reflexivity.
Qed.

Lemma print_parameters_fields l :
  exists t,
    io_for l SAPConnection.print_parameter = (t, Ok tt) /\
    field_rows t = flat_map structure_fields l.
Proof.
  induction l as [|p l (t & Ht & Hrows)]; simpl.
  - exists []. auto.
  - destruct (print_parameter_fields p) as (tp & Hp & Hprow).
    exists (tp ++ t)%list. unfold io_bind. rewrite Hp, Ht. split; auto.
    now rewrite field_rows_app, Hprow, Hrows.
Qed.

(** X8: the table of parameters goes one level into structures: the field
    rows printed are the fields of each sorted parameter's structure
    description, parameter after parameter, each structure's fields in
    their own order, and nothing for a parameter without one. *)
Theorem structure_fields_follow_their_parameter
    (self : SAPConnection.t) (function_name : string) (d : function_description) :
  SAPConnection.connection self = true ->
  rfc_description lib function_name = Ok (Some d) ->
  field_rows (fst (SAPConnection.get_function_metadata lib self function_name))
  = flat_map structure_fields (sorted key_lt parameter_key_function (parameters d)).
Proof.
  intros Hconn Hdesc.
  destruct (print_parameters_fields (sorted key_lt parameter_key_function (parameters d)))
    as (t & Ht & Hrows).
  rewrite (metadata_success_trace self function_name d t Hconn Hdesc Ht).
  cbn. now rewrite field_rows_app, Hrows, app_nil_r.
Qed.

Lemma sorted_of_sorted {A K : Type} (lt : K -> K -> bool) (key : A -> K) (l : list A) :
  StronglySorted (key_le lt key) l -> sorted lt key l = l.
Proof.
  induction 1 as [|x l Hs IH Hall]; [reflexivity|].
  simpl. fold (sorted lt key l). rewrite IH.
  destruct l as [|y l]; [reflexivity|]. simpl.
  inversion Hall as [|? ? Hxy _]; subst. unfold key_le in Hxy. now rewrite Hxy.
Qed.

(** X9: a description whose parameters already stand in the order of the
    table (by direction rank, then by name) is printed in the order the
    library gave, row for row. *)
Theorem sorted_description_is_printed_as_given
    (self : SAPConnection.t) (function_name : string) (d : function_description) :
  SAPConnection.connection self = true ->
  rfc_description lib function_name = Ok (Some d) ->
  StronglySorted parameter_le (parameters d) ->
  parameter_rows (fst (SAPConnection.get_function_metadata lib self function_name))
  = parameters d.
Proof.
  intros Hconn Hdesc Hsorted.
  destruct (print_parameters_rows (sorted key_lt parameter_key_function (parameters d)))
    as (t & Ht & Hrows).
  rewrite (metadata_success_trace self function_name d t Hconn Hdesc Ht).
  cbn. rewrite parameter_rows_app, Hrows, app_nil_r.
  apply sorted_of_sorted.
  eapply StronglySorted_weaken; [|exact Hsorted].
  intros p q Hpq. now apply key_lt_false_iff.
Qed.
End SessionFurther.

Lemma execute_function_outcome_witness :
  snd (SAPConnection.execute_function faulting_library
         {| SAPConnection.conn_params := direct_params; SAPConnection.connection := true |}
         "BAPI_USER_GET_DETAIL" None None)
  = Ok false /\
  rfc_events
    (fst (SAPConnection.execute_function faulting_library
            {| SAPConnection.conn_params := direct_params; SAPConnection.connection := true |}
            "BAPI_USER_GET_DETAIL" None None))
  = [RfcCall "BAPI_USER_GET_DETAIL" []].
Proof.
  apply (execute_function_outcome faulting_library
           {| SAPConnection.conn_params := direct_params; SAPConnection.connection := true |}
           "BAPI_USER_GET_DETAIL" None None).
  reflexivity.
Defined.

Lemma empty_result_prints_no_data_witness :
  SAPConnection.execute_function structured_library open_session "BAPI_USER_GET_DETAIL"
    None (Some [VStr "STATUS"])
  = ([ Print (Log info "Invoking function module 'BAPI_USER_GET_DETAIL'...");
       RfcCall "BAPI_USER_GET_DETAIL" [];
       Print (Log success "Function module 'BAPI_USER_GET_DETAIL' called successfully") ],
     Ok true).
Proof.
  apply (empty_result_prints_no_data structured_library open_session
           "BAPI_USER_GET_DETAIL" None (Some [VStr "STATUS"])).
  - reflexivity.
  - reflexivity.
Defined.

Lemma get_function_metadata_outcome_witness :
  snd (SAPConnection.get_function_metadata answering_library open_session
         "BAPI_USER_GET_DETAIL") = Ok false /\
  parameter_rows (fst (SAPConnection.get_function_metadata answering_library open_session
                         "BAPI_USER_GET_DETAIL")) = [].
Proof.
  apply (get_function_metadata_outcome answering_library open_session
           "BAPI_USER_GET_DETAIL").
  reflexivity.
Defined.

Lemma structure_fields_follow_their_parameter_witness :
  field_rows (fst (SAPConnection.get_function_metadata structured_library open_session
                     "BAPI_USER_GET_DETAIL"))
  = address_fields.
Proof.
  exact (structure_fields_follow_their_parameter structured_library open_session
           "BAPI_USER_GET_DETAIL" _ eq_refl eq_refl).
Defined.

Lemma sorted_description_is_printed_as_given_witness :
  parameter_rows (fst (SAPConnection.get_function_metadata structured_library open_session
                         "BAPI_USER_GET_DETAIL"))
  = [ char_parameter "USERNAME" "IMPORTING";
      {| name := "ADDRESS";
         parameter_type := "RFCTYPE_STRUCTURE";
         direction := "EXPORTING";
         nuc_length := 50;
         uc_length := 100;
         decimals := 0;
         default_value := None;
         optional := true;
         type_desc :=
           Some {| type_name := "BAPIADDR";
                   type_nuc_length := 50;
                   type_uc_length := 100;
                   fields := address_fields |};
         parameter_text := "" |} ].
Proof.
  apply (sorted_description_is_printed_as_given structured_library open_session
           "BAPI_USER_GET_DETAIL" _ eq_refl eq_refl).
  repeat constructor; left; reflexivity.
Defined.

(** ** Files *)

Section FilesFurther.
Import ConfigManager.
Variable config_files : string -> file config.
Variable json_files : string -> file value.
Local Open Scope string_scope.

(** The three ways [load_json] ends. *)
Lemma load_json_cases file_path :
  (exists d, json_files file_path = Content (VDict d) /\
             load_json json_files file_path = ([], Ok d)) \/
  (exists msg, load_json json_files file_path
               = ([Print (Log error msg)], Raise (SystemExit 1))) \/
  (exists e, json_files file_path = Malformed e /\ is_Exception e = false /\
             load_json json_files file_path = ([], Raise e)).
Proof.
  unfold load_json. destruct (json_files file_path) as [|e|v]; cbn.
  - right. left. eauto.
  - destruct (is_Exception e) eqn:He; cbn.
    + right. left. eauto.
    + right. right. exists e. auto.
  - destruct v; cbn; try (right; left; eauto; fail).
    left. eauto.
Qed.

Lemma get_raises_exception c section option e :
  ConfigParser.get c section option = Raise e -> is_Exception e = true.
Proof.
  unfold ConfigParser.get.
  destruct (dict_get (config_sections c) section) as [options|].
  - destruct (dict_get (options ++ config_defaults c) option) as [v|];
      [apply before_get_raises | now intros [= <-]].
  - destruct (String.eqb section "DEFAULT"); [|now intros [= <-]].
    destruct (dict_get (config_defaults c) option) as [v|];
      [apply before_get_raises | now intros [= <-]].
Qed.

Lemma find_dest_raises_exception c d sections e :
  find_dest c d sections = Raise e -> is_Exception e = true.
Proof.
  induction sections as [|s sections IH]; simpl; [discriminate|].
  destruct (ConfigParser.has_option c s "dest"); [|exact IH].
  destruct (ConfigParser.get c s "dest") as [v|e'] eqn:Hget; simpl.
  - destruct (String.eqb v d); [discriminate|exact IH].
  - intros [= <-]. eapply get_raises_exception; eauto.
Qed.

Lemma items_raises_exception c section e :
  ConfigParser.items c section = Raise e -> is_Exception e = true.
Proof.
  unfold ConfigParser.items.
  destruct (dict_get (config_sections c) section); [apply interpolated_raises|].
  destruct (String.eqb section "DEFAULT"); [apply interpolated_raises|].
  now intros [= <-].
Qed.

(** The three ways [load_config] ends. *)
Lemma load_config_cases config_file dest :
  (exists d, load_config config_files config_file dest = ([], Ok d)) \/
  (exists msg, load_config config_files config_file dest
               = ([Print (Log error msg)], Raise (SystemExit 1))) \/
  (exists e, config_files config_file = Malformed e /\ is_Exception e = false /\
             load_config config_files config_file dest = ([], Raise e)).
Proof.
  unfold load_config. destruct (config_files config_file) as [|e|c]; cbn -[find_dest].
  - right. left. eauto.
  - destruct (is_Exception e) eqn:He; cbn.
    + right. left. eauto.
    + right. right. exists e. auto.
  - destruct (opt_truthy dest).
    + destruct (find_dest c _ (ConfigParser.sections c)) as [[section|]|e] eqn:Hfind;
        cbn -[find_dest].
      * destruct (ConfigParser.items c section) as [d|e] eqn:Hitems; cbn.
        -- left. eauto.
        -- rewrite (items_raises_exception _ _ _ Hitems). cbn. right. left. eauto.
      * right. left. eauto.
      * rewrite (find_dest_raises_exception _ _ _ _ Hfind). cbn. right. left. eauto.
    + destruct (ConfigParser.sections c) as [|section rest]; cbn.
      * right. left. eauto.
      * destruct (ConfigParser.items c section) as [d|e] eqn:Hitems; cbn.
        -- left. eauto.
        -- rewrite (items_raises_exception _ _ _ Hitems). cbn. right. left. eauto.
Qed.
End FilesFurther.

(** ** Runs that leave the RFC library alone *)

Section QuietFacts.
Context {A B : Type}.

Lemma quiet_ret (a : A) : quiet (io_ret a).
Proof. reflexivity. Qed.

Lemma quiet_raise (e : exn) : quiet (@io_raise A e).
Proof. reflexivity. Qed.

Lemma quiet_pure (r : res A) : quiet (([], r) : io A).
Proof. reflexivity. Qed.

Lemma quiet_bind (m : io A) (k : A -> io B) :
  quiet m -> (forall a, quiet (k a)) -> quiet (io_bind m k).
Proof.
  unfold quiet. intros Hm Hk. rewrite io_bind_fst, rfc_events_app, Hm.
  destruct (snd m); [apply Hk|reflexivity].
Qed.

Lemma quiet_try (m : io A) (h : exn -> option (io A)) :
  quiet m -> (forall e m', h e = Some m' -> quiet m') -> quiet (io_try m h).
Proof.
  unfold quiet. intros Hm Hh. rewrite io_try_fst, rfc_events_app, Hm.
  destruct (snd m) as [a|e]; [reflexivity|].
  destruct (h e) as [m'|] eqn:He; [now apply (Hh e)|reflexivity].
Qed.

End QuietFacts.

Lemma quiet_for {A : Type} (l : list A) (body : A -> io unit) :
  (forall a, quiet (body a)) -> quiet (io_for l body).
Proof.
  intros Hb. induction l as [|a l IH]; [reflexivity|].
  cbn [io_for]. apply quiet_bind; auto.
Qed.

Lemma quiet_print (l : line) : quiet (print l).
Proof. reflexivity. Qed.

Lemma quiet_print_parameter p : quiet (SAPConnection.print_parameter p).
Proof.
  unfold SAPConnection.print_parameter.
  repeat (apply quiet_bind; [|intros ?]); try apply quiet_print.
  destruct (type_desc p); [|apply quiet_ret].
  repeat (apply quiet_bind; [|intros ?]); try apply quiet_print.
  apply quiet_for. intros f. apply quiet_print.
Qed.

Section LifecycleFacts.
Variable lib : rfc_library.
Local Open Scope string_scope.

(** How [connect] ends, and what it asks of the library on the way. *)
Lemma connect_cases (self : SAPConnection.t) :
  let params := ConnectionParams.to_dict (SAPConnection.conn_params self) in
  snd (SAPConnection.connect lib self)
  = match rfc_open lib params with
    | Raise e => if is_RFCError e then Raise (SystemExit 1) else Raise e
    | Ok _ =>
        match rfc_attributes lib with
        | Raise e => if is_RFCError e then Raise (SystemExit 1) else Raise e
        | Ok _ => Ok {| SAPConnection.conn_params := SAPConnection.conn_params self;
                        SAPConnection.connection := true |}
        end
    end /\
  rfc_events (fst (SAPConnection.connect lib self))
  = match rfc_open lib params with
    | Raise _ => [RfcOpen params]
    | Ok _ => [RfcOpen params; RfcAttributes]
    end.
Proof.
  intros params. unfold SAPConnection.connect. fold params.
  assert (Hh : dict_item params "ashost"
               = Ok (ConnectionParams.ashost (SAPConnection.conn_params self))).
  { subst params. rewrite to_dict_explicit. reflexivity. }
  assert (Hs : dict_item params "sysnr"
               = Ok (ConnectionParams.sysnr (SAPConnection.conn_params self))).
  { subst params. rewrite to_dict_explicit. reflexivity. }
  assert (Hc : dict_item params "client"
               = Ok (ConnectionParams.client (SAPConnection.conn_params self))).
  { subst params. rewrite to_dict_explicit. reflexivity. }
  rewrite Hh, Hs, Hc. clear Hh Hs Hc.
  unfold io_bind, io_try, rfc, Logger.info, Logger.success, Logger.error,
    Logger.log, print, emit, io_ret, io_raise.
  destruct (rfc_open lib params) as [[]|e]; cbn.
  - destruct (rfc_attributes lib) as [attrs|e]; cbn; [split; reflexivity|].
    destruct (is_RFCError e); cbn; split; reflexivity.
  - destruct (is_RFCError e); cbn; split; reflexivity.
Qed.

Lemma close_open_session (self : SAPConnection.t) :
  SAPConnection.connection self = true ->
  SAPConnection.close self = ([RfcClose; Print (Log info "SAP connection closed")], Ok tt).
Proof. intros H. unfold SAPConnection.close. now rewrite H. Qed.

Lemma rfc_events_io_for_parameters l :
  rfc_events (fst (io_for l SAPConnection.print_parameter)) = [].
Proof. apply (quiet_for l). apply quiet_print_parameter. Qed.

Lemma metadata_rfc_events (self : SAPConnection.t) function_name :
  SAPConnection.connection self = true ->
  rfc_events (fst (SAPConnection.get_function_metadata lib self function_name))
  = [RfcDescribe function_name].
Proof.
  intros Hconn. destruct (rfc_description lib function_name) as [[d|]|e] eqn:Hdesc.
  - pose proof (rfc_events_io_for_parameters
                  (sorted key_lt parameter_key_function (parameters d))) as Hq.
    destruct (print_parameters_rows (sorted key_lt parameter_key_function (parameters d)))
      as (t & Ht & _).
    rewrite Ht in Hq. cbn [fst] in Hq.
    rewrite (metadata_success_trace lib self function_name d t Hconn Hdesc Ht).
    cbn [fst]. unfold rfc_events in *. cbn [filter].
    now rewrite app_nil_r, Hq.
  - unfold SAPConnection.get_function_metadata. rewrite Hconn. cbn [negb].
    unfold rfc. rewrite Hdesc. reflexivity.
  - unfold SAPConnection.get_function_metadata. rewrite Hconn. cbn [negb].
    unfold rfc. rewrite Hdesc.
    unfold io_bind, io_try, Logger.info, Logger.error, Logger.log, print, emit, io_ret.
    cbn. destruct e; reflexivity.
Qed.
End LifecycleFacts.

Section SessionLifecycle.
Variable lib : rfc_library.
Local Open Scope string_scope.

Lemma session_body_events (args : Args.t) (sap : SAPConnection.t)
    (import_params : option dict) (params_to_capture : option (list value)) :
  SAPConnection.connection sap = true ->
  exists call,
    (call = RfcCall (Args.function args)
              (match import_params with Some d => d | None => [] end) \/
     call = RfcDescribe (Args.function args)) /\
    rfc_events
      (fst (if Args.desc args then
              ok <- SAPConnection.get_function_metadata lib sap (Args.function args) ;;
              if negb ok then io_raise (SystemExit 1) else io_ret tt
            else
              _ <- SAPConnection.execute_function lib sap (Args.function args)
                     import_params params_to_capture ;;
              io_ret tt)%io)
    = [call].
Proof.
  intros Hconn. destruct (Args.desc args).
  - exists (RfcDescribe (Args.function args)). split; [now right|].
    rewrite io_bind_fst, rfc_events_app, metadata_rfc_events by assumption.
    destruct (snd _) as [[]|e]; reflexivity.
  - eexists. split; [now left|].
    rewrite io_bind_fst, rfc_events_app.
    rewrite (proj2 (execute_function_cases lib sap (Args.function args)
                      import_params params_to_capture Hconn)).
    destruct (snd _); reflexivity.
Qed.

Lemma session_lifecycle (args : Args.t)
    (import_params : option dict) (params_to_capture : option (list value))
    (conn_params : ConnectionParams.t) :
  lifecycle (rfc_events (fst (session lib args import_params params_to_capture conn_params))).
Proof.
  unfold session. rewrite io_bind_fst, rfc_events_app.
  destruct (connect_cases lib (SAPConnection.__init__ conn_params)) as [Hsnd Hev].
  cbn zeta in Hsnd, Hev. rewrite Hev, Hsnd. clear Hsnd Hev.
  set (params := ConnectionParams.to_dict _).
  destruct (rfc_open lib params) as [[]|e].
  - destruct (rfc_attributes lib) as [attrs|e].
    + cbn beta iota. rewrite io_finally_fst, rfc_events_app.
      rewrite close_open_session by reflexivity.
      destruct (session_body_events args
                  {| SAPConnection.conn_params :=
                       SAPConnection.conn_params (SAPConnection.__init__ conn_params);
                     SAPConnection.connection := true |}
                  import_params params_to_capture eq_refl) as (call & Hcall & Hev).
      match goal with
      | |- lifecycle (_ ++ ?x ++ _) => replace x with [call] by (symmetry; exact Hev)
      end.
      destruct Hcall as [-> | ->]; cbn.
      * right. right. right. left. eauto.
      * right. right. right. right. eauto.
    + destruct (is_RFCError e); cbn; right; right; left; eauto.
  - destruct (is_RFCError e); cbn; right; left; eauto.
Qed.
End SessionLifecycle.

(** ** The whole run *)

Lemma no_exit_expected e : no_exit e -> expected e.
Proof. destruct e; simpl; tauto. Qed.

Section EndsFacts.
Context {A B : Type}.

Lemma ends_bind (m : io A) (k : A -> io B) :
  ends_as_expected m -> (forall a, ends_as_expected (k a)) -> ends_as_expected (io_bind m k).
Proof.
  unfold ends_as_expected. intros Hm Hk e. rewrite io_bind_snd.
  destruct (snd m) as [a|e'] eqn:Hs; [apply Hk|].
  intros [= <-]. now apply Hm.
Qed.

Lemma ends_pure (r : res A) :
  (forall e, r = Raise e -> expected e) -> ends_as_expected (([], r) : io A).
Proof. intros H e He. now apply H. Qed.

Lemma ends_ret (a : A) : ends_as_expected (io_ret a).
Proof. intros e. discriminate. Qed.
End EndsFacts.

Section MainFurther.
Variable lib : rfc_library.
Variable config_files : string -> file config.
Variable json_files : string -> file value.
Variable set_order : list value -> list value.
Local Open Scope string_scope.

Lemma lifecycle_step {A B : Type} (m : io A) (k : A -> io B) :
  quiet m ->
  (forall a, lifecycle (rfc_events (fst (k a)))) ->
  lifecycle (rfc_events (fst (io_bind m k))).
Proof.
  unfold quiet. intros Hm Hk. rewrite io_bind_fst, rfc_events_app, Hm.
  destruct (snd m) as [a|e]; [apply Hk|now left].
Qed.

Lemma quiet_load_json file_path : quiet (ConfigManager.load_json json_files file_path).
Proof.
  destruct (load_json_cases json_files file_path)
    as [(d & _ & ->)|[(msg & ->)|(e & _ & _ & ->)]]; reflexivity.
Qed.

Lemma quiet_load_config config_file dest :
  quiet (ConfigManager.load_config config_files config_file dest).
Proof.
  destruct (load_config_cases config_files config_file dest)
    as [(d & ->)|[(msg & ->)|(e & _ & _ & ->)]]; reflexivity.
Qed.

Lemma main_body_lifecycle (argv : Args.t) :
  lifecycle (rfc_events (fst (main_body lib config_files json_files set_order argv))).
Proof.
  unfold main_body.
  apply lifecycle_step; [apply quiet_print|intros _].
  apply lifecycle_step; [apply quiet_pure|intros args].
  apply lifecycle_step.
  { destruct (opt_truthy _); [|apply quiet_ret].
    apply quiet_bind; [apply quiet_load_json|intros; apply quiet_ret]. }
  intros import_params.
  apply lifecycle_step.
  { destruct (opt_truthy _); [|apply quiet_ret].
    apply quiet_bind; [apply quiet_load_json|intros; apply quiet_ret]. }
  intros export_spec.
  apply lifecycle_step.
  { destruct export_spec as [[|kv spec]|]; try apply quiet_ret.
    apply quiet_bind; [apply quiet_pure|intros; apply quiet_ret]. }
  intros params_to_capture.
  apply lifecycle_step.
  { destruct (opt_truthy _).
    - apply quiet_bind; [apply quiet_load_config|intros; apply quiet_pure].
    - destruct (Args.user args), (Args.password args), (Args.target args),
        (Args.client args); try apply quiet_raise; apply quiet_ret. }
  intros conn_params.
  exact (session_lifecycle lib args import_params params_to_capture conn_params).
Qed.

(** X10: whatever the command line, the files and the answers of the
    library, a run opens at most one connection, makes at most one call or
    asks for one description, only on a connection that was opened and
    whose attributes were read, and then closes that connection exactly
    once; it closes nothing after a connect that failed. *)
Theorem main_uses_one_connection (argv : Args.t) :
  lifecycle (rfc_events (fst (main lib config_files json_files set_order argv))).
Proof.
  unfold main. rewrite io_try_fst, rfc_events_app.
  pose proof (main_body_lifecycle argv) as H.
  destruct (snd (main_body lib config_files json_files set_order argv)) as [u|e];
    [now rewrite app_nil_r|].
  destruct e; cbn; now rewrite app_nil_r.
Qed.

Hypothesis world : well_behaved lib config_files json_files.

Lemma ends_load_json file_path :
  ends_as_expected (ConfigManager.load_json json_files file_path).
Proof.
  destruct world as (_ & _ & _ & _ & _ & Hjson).
  destruct (load_json_cases json_files file_path)
    as [(d & _ & ->)|[(msg & ->)|(e & Hfile & _ & ->)]]; intros e'; cbn;
    try discriminate; intros [= <-]; cbn; auto.
  apply no_exit_expected. eapply Hjson; eauto.
Qed.

Lemma ends_load_config config_file dest :
  ends_as_expected (ConfigManager.load_config config_files config_file dest).
Proof.
  destruct world as (_ & _ & _ & _ & Hconfig & _).
  destruct (load_config_cases config_files config_file dest)
    as [(d & ->)|[(msg & ->)|(e & Hfile & _ & ->)]]; intros e'; cbn;
    try discriminate; intros [= <-]; cbn; auto.
  apply no_exit_expected. eapply Hconfig; eauto.
Qed.

Lemma ends_session (args : Args.t)
    (import_params : option dict) (params_to_capture : option (list value))
    (conn_params : ConnectionParams.t) :
  ends_as_expected (session lib args import_params params_to_capture conn_params).
Proof.
  destruct world as (Hopen & Hattrs & Hdesc & Hcall & _ & _).
  unfold session. intros e. rewrite io_bind_snd.
  destruct (connect_cases lib (SAPConnection.__init__ conn_params)) as [Hsnd _].
  cbn zeta in Hsnd. rewrite Hsnd. clear Hsnd.
  destruct (rfc_open lib _) as [[]|e1] eqn:Ho.
  - destruct (rfc_attributes lib) as [attrs|e1] eqn:Ha.
    + cbn beta iota. rewrite io_finally_snd, close_open_session by reflexivity.
      cbn [snd]. destruct (Args.desc args).
      * rewrite io_bind_snd.
        pose proof (get_function_metadata_cases lib
                      {| SAPConnection.conn_params :=
                           SAPConnection.conn_params (SAPConnection.__init__ conn_params);
                         SAPConnection.connection := true |}
                      (Args.function args) eq_refl) as Hm.
        destruct (rfc_description lib (Args.function args)) as [[d|]|e1] eqn:Hd.
        -- rewrite Hm. discriminate.
        -- destruct Hm as [-> _]. intros [= <-]. cbn. auto.
        -- destruct Hm as [-> _]. destruct (is_Exception e1).
           ++ intros [= <-]. cbn. auto.
           ++ intros [= <-]. apply no_exit_expected. eapply Hdesc; eauto.
      * rewrite io_bind_snd.
        destruct (execute_function_cases lib
                    {| SAPConnection.conn_params :=
                         SAPConnection.conn_params (SAPConnection.__init__ conn_params);
                       SAPConnection.connection := true |}
                    (Args.function args) import_params params_to_capture eq_refl)
          as [Hend _].
        destruct (rfc_call lib _ _) as [r|e1] eqn:Hc; rewrite Hend.
        -- destruct (truthy (VDict r)); [|discriminate].
           destruct (process_results_end r params_to_capture)
             as [_ [->|(e2 & -> & He2 & _)]]; [discriminate|].
           intros [= <-]. destruct e2; try discriminate; exact I.
        -- destruct (is_RFCError e1); [discriminate|].
           intros [= <-]. apply no_exit_expected. eapply Hcall; eauto.
    + destruct (is_RFCError e1); intros [= <-]; cbn; auto.
      apply no_exit_expected. eapply Hattrs; eauto.
  - destruct (is_RFCError e1); intros [= <-]; cbn; auto.
    apply no_exit_expected. eapply Hopen; eauto.
Qed.

Lemma ends_main_body (argv : Args.t) :
  ends_as_expected (main_body lib config_files json_files set_order argv).
Proof.
  unfold main_body.
  apply ends_bind; [apply ends_ret|intros _].
  apply ends_bind.
  { apply ends_pure. unfold parse_args. intros e.
    destruct (_ && _); [|discriminate]. intros [= <-]. cbn. auto. }
  intros args. apply ends_bind.
  { destruct (opt_truthy _); [|apply ends_ret].
    apply ends_bind; [apply ends_load_json|intros; apply ends_ret]. }
  intros import_params. apply ends_bind.
  { destruct (opt_truthy _); [|apply ends_ret].
    apply ends_bind; [apply ends_load_json|intros; apply ends_ret]. }
  intros export_spec. apply ends_bind.
  { destruct export_spec as [[|kv spec]|]; try apply ends_ret.
    apply ends_bind; [|intros; apply ends_ret].
    apply ends_pure. unfold capture_set, py_iter. intros e.
    destruct (dict_get_default _ _ _); cbn [res_bind];
      try (intros [= <-]; exact I);
      (destruct (find _ _); [|discriminate]); intros [= <-]; exact I. }
  intros params_to_capture. apply ends_bind.
  { destruct (opt_truthy _).
    - apply ends_bind; [apply ends_load_config|intros d].
      apply ends_pure. unfold ConnectionParams.of_dict. intros e.
      destruct (negb _); [intros [= <-]; exact I|].
      destruct (dict_get d "user"), (dict_get d "passwd"), (dict_get d "ashost"),
        (dict_get d "client"); try discriminate; intros [= <-]; exact I.
    - destruct (Args.user args), (Args.password args), (Args.target args),
        (Args.client args); try apply ends_ret; intros e [= <-]; cbn; auto. }
  intros conn_params.
  exact (ends_session args import_params params_to_capture conn_params).
Qed.

(** X11: as long as the library and the file readers raise no SystemExit
    of their own, the process ends with exit status 0, 1, 2 or 130 and no
    other: 0 when [main] returns, 130 after a keyboard interrupt, 2 from
    the check of the command line, 1 for every other failure. *)
Theorem exit_status_is_0_1_2_or_130 (argv : Args.t) :
  In (exit_code (snd (main lib config_files json_files set_order argv)))
     [0%Z; 1%Z; 2%Z; 130%Z].
Proof.
  unfold main. rewrite io_try_snd.
  pose proof (ends_main_body argv) as H. unfold ends_as_expected in H.
  destruct (snd (main_body lib config_files json_files set_order argv)) as [u|e].
  - cbn. auto.
  - specialize (H e eq_refl).
    destruct e; cbn in *; try (right; left; reflexivity).
    + destruct H as [-> | ->]; cbn; auto.
    + right. right. right. left. reflexivity.
Qed.
End MainFurther.

Lemma exit_status_is_0_1_2_or_130_witness :
  In (exit_code (snd (main faulting_library (fun _ => NoFile) (fun _ => NoFile)
                        (fun arr => arr) (direct_args "BAPI_USER_GET_DETAIL" false))))
     [0%Z; 1%Z; 2%Z; 130%Z].
Proof.
  apply (exit_status_is_0_1_2_or_130 faulting_library (fun _ => NoFile) (fun _ => NoFile)
           (fun arr => arr)).
  repeat split; cbn; intros; try discriminate.
  match goal with H : Raise _ = Raise _ |- _ => injection H as <- end. exact I.
Defined.

(** ** Files and connection parameters *)

Section FilesOutcome.
Import ConfigManager.
Variable config_files : string -> file config.
Variable json_files : string -> file value.
Local Open Scope string_scope.

(** X15: [load_json] ends in one of three ways: the file holds a JSON
    object, which is returned as it is with nothing printed; or exactly one
    error line is printed and SystemExit(1) is raised (missing file,
    unreadable content, content that is no object); or reading raised
    something outside the Exception class, which passes unchanged. *)
Theorem load_json_returns_the_object_or_exits (file_path : string) :
  (exists d, json_files file_path = Content (VDict d) /\
             load_json json_files file_path = ([], Ok d)) \/
  (exists msg, load_json json_files file_path
               = ([Print (Log error msg)], Raise (SystemExit 1))) \/
  (exists e, json_files file_path = Malformed e /\ is_Exception e = false /\
             load_json json_files file_path = ([], Raise e)).
Proof. apply load_json_cases. Qed.

Lemma find_dest_in c d sections section :
  find_dest c d sections = Ok (Some section) -> In section sections.
Proof.
  induction sections as [|s sections IH]; simpl; [discriminate|].
  destruct (ConfigParser.has_option c s "dest"); [|auto].
  destruct (ConfigParser.get c s "dest") as [v|e]; simpl; [|discriminate].
  destruct (String.eqb v d); [|auto]. intros [= ->]. now left.
Qed.

(** A lookup after [d.update(e)]: the binding of [e] when it has one. *)
Lemma dict_get_update {V : Type} (e : list (string * V)) : forall d k,
  NoDup (dict_keys e) ->
  dict_get (dict_update d e) k
  = match dict_get e k with Some v => Some v | None => dict_get d k end.
Proof.
  unfold dict_update.
  induction e as [|[k1 v1] e IH]; intros d k Hnd; [reflexivity|].
  inversion Hnd as [|? ? Hnotin Hnd']; subst. cbn [fold_left fst snd dict_get].
  rewrite IH by assumption.
  destruct (String.eqb_spec k1 k) as [->|Hne].
  - apply dict_get_None_not_key in Hnotin. rewrite Hnotin.
    apply dict_get_set_same.
  - destruct (dict_get e k); [reflexivity|].
    apply dict_get_set_other. congruence.
Qed.

(** The section behind a successful [load_config]. *)
Lemma load_config_selected config_file dest c d :
  config_files config_file = Content c ->
  no_percent c ->
  load_config config_files config_file dest = ([], Ok d) ->
  exists section options,
    In section (ConfigParser.sections c) /\
    dict_get (config_sections c) section = Some options /\
    d = dict_update (config_defaults c) options.
Proof.
  intros Hfile Hc. unfold load_config. rewrite Hfile. cbn -[find_dest].
  assert (Hitems : forall section,
             In section (ConfigParser.sections c) ->
             io_try (([], ConfigParser.items c section) : io _)
               (fun e =>
                  if is_Exception e then
                    Some (Logger.error ("Error reading configuration: " ++ exn_str e) ;;
                          io_raise (SystemExit 1))%io
                  else None) = ([], Ok d) ->
             exists section options,
               In section (ConfigParser.sections c) /\
               dict_get (config_sections c) section = Some options /\
               d = dict_update (config_defaults c) options).
  { intros section Hin. destruct (section_has_options c section Hin) as [options Ho].
    rewrite (items_plain c section options Hc Ho). cbn. intros [= <-]. eauto. }
  destruct (opt_truthy dest).
  - destruct (find_dest c _ (ConfigParser.sections c)) as [[section|]|e] eqn:Hfind;
      cbn -[find_dest].
    + apply Hitems. eapply find_dest_in; eauto.
    + discriminate.
    + rewrite (find_dest_raises_exception _ _ _ _ Hfind). discriminate.
  - destruct (ConfigParser.sections c) as [|section rest] eqn:Hs; cbn; [discriminate|].
    intros H. destruct (Hitems section (or_introl eq_refl) H) as (s' & o & Hin & Ho & Hd).
    eauto.
Qed.

(** X16: [load_config] ends in one of three ways: it returns the
    parameters with nothing printed; or it prints exactly one error line
    and raises SystemExit(1) (missing file, unreadable content, a value
    that the parser's interpolation refuses, no section, destination not
    found); or reading raised something outside the
    Exception class, which passes unchanged.  It raises no other
    exception. *)
Theorem load_config_returns_or_exits (config_file : string) (dest : option string) :
  (exists d, load_config config_files config_file dest = ([], Ok d)) \/
  (exists msg, load_config config_files config_file dest
               = ([Print (Log error msg)], Raise (SystemExit 1))) \/
  (exists e, config_files config_file = Malformed e /\ is_Exception e = false /\
             load_config config_files config_file dest = ([], Raise e)).
Proof. apply load_config_cases. Qed.

(** X17: for a file whose option values hold no percent sign, the
    parameters [load_config] returns are those of one section of the file:
    under every name, that section's own option when it has one, the
    DEFAULT option of that name otherwise. *)
Theorem section_options_override_defaults
    (config_file : string) (dest : option string) (c : config)
    (d : list (string * string)) :
  config_files config_file = Content c ->
  no_percent c ->
  (forall section options,
      dict_get (config_sections c) section = Some options -> NoDup (dict_keys options)) ->
  load_config config_files config_file dest = ([], Ok d) ->
  exists section options,
    In section (ConfigParser.sections c) /\
    dict_get (config_sections c) section = Some options /\
    forall k,
      dict_get d k
      = match dict_get options k with
        | Some v => Some v
        | None => dict_get (config_defaults c) k
        end.
Proof.
  intros Hfile Hc Hnd Hload.
  destruct (load_config_selected config_file dest c d Hfile Hc Hload)
    as (section & options & Hin & Ho & ->).
  exists section, options. split; [exact Hin | split; [exact Ho|]].
  intros k. apply dict_get_update. eapply Hnd; eauto.
Qed.
End FilesOutcome.

Lemma section_options_override_defaults_witness :
  exists section options,
    In section (ConfigParser.sections defaults_config) /\
    dict_get (config_sections defaults_config) section = Some options /\
    forall k,
      dict_get [("sysnr", "01"); ("client", "300"); ("user", "carol");
                ("passwd", "c-secret"); ("ashost", "prd.example.org")] k
      = match dict_get options k with
        | Some v => Some v
        | None => dict_get (config_defaults defaults_config) k
        end.
Proof.
  apply (section_options_override_defaults (fun _ => Content defaults_config)
           "sap.cfg" None defaults_config).
  - reflexivity.
  - reflexivity.
  - intros section options. cbn -[String.eqb].
    destruct (String.eqb "production" section); [|discriminate].
    intros [= <-]. nodup_strings.
  - reflexivity.
Defined.

Section ParametersFurther.
Local Open Scope string_scope.

Lemma list_mem_In k ks : list_mem k ks = true <-> In k ks.
Proof.
  unfold list_mem. rewrite existsb_exists. split.
  - intros (x & Hx & Heq). apply String.eqb_eq in Heq. now subst.
  - intros H. exists k. split; [exact H|apply String.eqb_refl].
Qed.

(** X18: from a configuration section to the keywords of the RFC library:
    when the section's options make a ConnectionParams, every option other
    than dest and lang reaches the library with its value unchanged, sysnr
    is "00" when the section does not set it, and dest and lang are not
    passed on. *)
Theorem section_options_reach_the_library
    (d : list (string * string)) (p : ConnectionParams.t) :
  ConnectionParams.of_dict d = Ok p ->
  forall k,
    dict_get (ConnectionParams.to_dict p) k
    = if list_mem k ["dest"; "lang"] then None
      else if String.eqb k "sysnr" then Some (dict_get_default d "sysnr" "00")
      else dict_get d k.
Proof.
  intros Hp k. unfold ConnectionParams.of_dict in Hp.
  destruct (forallb _ _) eqn:Hall; cbn [negb] in Hp; [|discriminate].
  destruct (dict_get d "user") as [u|] eqn:Hu; [|discriminate].
  destruct (dict_get d "passwd") as [pw|] eqn:Hpw; [|discriminate].
  destruct (dict_get d "ashost") as [h|] eqn:Hh; [|discriminate].
  destruct (dict_get d "client") as [c|] eqn:Hc; [|discriminate].
  injection Hp as <-. rewrite to_dict_explicit. unfold list_mem.
  cbn -[String.eqb].
  rewrite (String.eqb_sym k "dest"), (String.eqb_sym k "lang"), (String.eqb_sym k "sysnr").
  destruct (String.eqb_spec "user" k) as [<-|N1]; [cbn; now rewrite Hu|].
  destruct (String.eqb_spec "passwd" k) as [<-|N2]; [cbn; now rewrite Hpw|].
  destruct (String.eqb_spec "ashost" k) as [<-|N3]; [cbn; now rewrite Hh|].
  destruct (String.eqb_spec "client" k) as [<-|N4]; [cbn; now rewrite Hc|].
  destruct (String.eqb_spec "sysnr" k) as [<-|N5]; [reflexivity|].
  destruct (String.eqb_spec "dest" k) as [<-|N6].
  { destruct (dict_get d "saprouter"); reflexivity. }
  destruct (String.eqb_spec "lang" k) as [<-|N7].
  { destruct (dict_get d "saprouter"); reflexivity. }
  cbn -[String.eqb].
  destruct (String.eqb_spec "saprouter" k) as [<-|N8].
  { destruct (dict_get d "saprouter"); cbn; reflexivity. }
  assert (Hnone : dict_get d k = None).
  { apply dict_get_None_not_key. intros Hin.
    rewrite forallb_forall in Hall. apply Hall, list_mem_In in Hin.
    cbn in Hin. intuition congruence. }
  rewrite Hnone.
  destruct (dict_get d "saprouter"); cbn -[String.eqb];
    [destruct (String.eqb_spec "saprouter" k); [contradiction|]|]; reflexivity.
Qed.

Lemma section_options_reach_the_library_witness :
  ConnectionParams.of_dict
    [("dest", "QAS"); ("user", "bob"); ("passwd", "b-secret");
     ("ashost", "qas.example.org"); ("client", "200")]
  = Ok {| ConnectionParams.user := "bob";
          ConnectionParams.passwd := "b-secret";
          ConnectionParams.ashost := "qas.example.org";
          ConnectionParams.client := "200";
          ConnectionParams.sysnr := "00";
          ConnectionParams.saprouter := None;
          ConnectionParams.dest := Some "QAS";
          ConnectionParams.lang := None |} /\
  dict_get (ConnectionParams.to_dict
              {| ConnectionParams.user := "bob";
                 ConnectionParams.passwd := "b-secret";
                 ConnectionParams.ashost := "qas.example.org";
                 ConnectionParams.client := "200";
                 ConnectionParams.sysnr := "00";
                 ConnectionParams.saprouter := None;
                 ConnectionParams.dest := Some "QAS";
                 ConnectionParams.lang := None |}) "ashost"
  = Some "qas.example.org".
Proof.
  split; [reflexivity|].
  exact (section_options_reach_the_library
           [("dest", "QAS"); ("user", "bob"); ("passwd", "b-secret");
            ("ashost", "qas.example.org"); ("client", "200")] _ eq_refl "ashost").
Defined.

End ParametersFurther.

Section BadSection.
Variable lib : rfc_library.
Variable config_files : string -> file config.
Variable json_files : string -> file value.
Variable set_order : list value -> list value.
Local Open Scope string_scope.

End BadSection.


(** ** Runs with the connection parameters on the command line *)

Lemma items_of_app t1 t2 : items_of (t1 ++ t2) = items_of t1 ++ items_of t2.
Proof. apply flat_map_app. Qed.

Lemma projections_of_empty_result (params : list string) : projections [] params = [].
Proof.
  induction params as [|p params IH]; [reflexivity|].
  rewrite projections_cons, IH, app_nil_r. unfold projections, projection. simpl.
  destruct (SAPConnection.indexed_form p); [|reflexivity].
  destruct (SAPConnection.split_specifier p) as [[t f]|]; reflexivity.
Qed.

(** The cases of a command line with direct flags: each of the four
    required flags is given and not empty, and no file is named. *)
Ltac direct_cases argv Hdirect Hfiles :=
  let Hconn := fresh "Hconn" in
  let Hflags := fresh "Hflags" in
  let Himp := fresh "Himp" in
  let Hexp := fresh "Hexp" in
  destruct Hdirect as [Hconn Hflags]; destruct Hfiles as [Himp Hexp];
  destruct argv as [conn dest user password target client sysnr port saprouter
                      fn imp exp desc];
  cbn in Hconn, Hflags, Himp, Hexp;
  destruct user as [[|? ?]|]; try discriminate Hflags;
  destruct password as [[|? ?]|]; try discriminate Hflags;
  destruct target as [[|? ?]|]; try discriminate Hflags;
  destruct client as [[|? ?]|]; try discriminate Hflags;
  destruct conn as [[|? ?]|]; try discriminate Hconn;
  destruct imp as [[|? ?]|]; try discriminate Himp;
  destruct exp as [[|? ?]|]; try discriminate Hexp;
  destruct saprouter as [?|];
  clear Hconn Hflags Himp Hexp.

Section DirectRuns.
Variable lib : rfc_library.
Variable config_files : string -> file config.
Variable json_files : string -> file value.
Variable set_order : list value -> list value.
Local Open Scope string_scope.

(** X12: with the connection parameters on the command line and no file
    named, when the logon succeeds and the call raises something that is
    no RFC error, the connection is still closed on the way out, after
    which a keyboard interrupt gives exit status 130 and any other
    exception gives 1. *)
Theorem other_call_exception_closes_and_fails
    (argv : Args.t) (e : exn) (attrs : list (string * string)) :
  direct_flags argv -> no_files argv ->
  Args.desc argv = false ->
  rfc_open lib (ConnectionParams.to_dict (flag_params argv)) = Ok tt ->
  rfc_attributes lib = Ok attrs ->
  rfc_call lib (Args.function argv) [] = Raise e ->
  is_RFCError e = false ->
  no_exit e ->
  exit_code (snd (main lib config_files json_files set_order argv))
  = match e with KeyboardInterrupt => 130%Z | _ => 1%Z end /\
  rfc_events (fst (main lib config_files json_files set_order argv))
  = [ RfcOpen (ConnectionParams.to_dict (flag_params argv)); RfcAttributes;
      RfcCall (Args.function argv) []; RfcClose ].
Proof.
  intros Hdirect Hfiles Hdesc Hopen Hattrs Hcall He Hno.
  direct_cases argv Hdirect Hfiles; cbn in Hdesc, Hopen, Hcall; subst desc;
    unfold main, main_body, parse_args; cbn;
    rewrite Hopen; cbn; rewrite Hattrs; cbn; rewrite Hcall; cbn; rewrite He; cbn;
    (destruct e; try discriminate; try contradiction; cbn; split; reflexivity).
Qed.

(** X13: with the connection parameters on the command line and no file
    named, when the connection cannot be opened, whatever the exception,
    nothing else is asked of the library: no attributes, no call, no
    description, no close; the exit status is 130 for a keyboard interrupt
    and 1 otherwise. *)
Theorem failed_open_ends_the_run (argv : Args.t) (e : exn) :
  direct_flags argv -> no_files argv ->
  rfc_open lib (ConnectionParams.to_dict (flag_params argv)) = Raise e ->
  no_exit e ->
  exit_code (snd (main lib config_files json_files set_order argv))
  = match e with KeyboardInterrupt => 130%Z | _ => 1%Z end /\
  rfc_events (fst (main lib config_files json_files set_order argv))
  = [RfcOpen (ConnectionParams.to_dict (flag_params argv))].
Proof.
  intros Hdirect Hfiles Hopen Hno.
  direct_cases argv Hdirect Hfiles; cbn in Hopen;
    unfold main, main_body, parse_args; cbn; rewrite Hopen; cbn;
    (destruct e; try contradiction; cbn; split; reflexivity).
Qed.

(** X14: with the connection parameters on the command line and no file
    named, when the connection opens but its attributes cannot be read,
    [connect] fails inside [__enter__], so [__exit__] never runs: the
    process ends with status 1 (130 for a keyboard interrupt) and the
    connection that was opened is not closed. *)
Theorem failed_attributes_leave_the_connection_open (argv : Args.t) (e : exn) :
  direct_flags argv -> no_files argv ->
  rfc_open lib (ConnectionParams.to_dict (flag_params argv)) = Ok tt ->
  rfc_attributes lib = Raise e ->
  no_exit e ->
  exit_code (snd (main lib config_files json_files set_order argv))
  = match e with KeyboardInterrupt => 130%Z | _ => 1%Z end /\
  rfc_events (fst (main lib config_files json_files set_order argv))
  = [RfcOpen (ConnectionParams.to_dict (flag_params argv)); RfcAttributes] /\
  ~ In RfcClose (fst (main lib config_files json_files set_order argv)).
Proof.
  intros Hdirect Hfiles Hopen Hattrs Hno.
  direct_cases argv Hdirect Hfiles; cbn in Hopen;
    unfold main, main_body, parse_args; cbn; rewrite Hopen; cbn; rewrite Hattrs; cbn;
    (destruct e; try contradiction; cbn;
     (split; [reflexivity | split; [reflexivity | intuition discriminate]])).
Qed.

(** X20: with the connection parameters on the command line and no file
    named, against a system that accepts the logon and answers the call
    with a result whose lists and dicts [json.dumps] can serialise: the
    function is called with no parameters, every entry of the answer is
    shown, in the answer's order, the connection is opened with the
    keywords of the flags and closed after the call, and the exit status
    is 0. *)
Theorem successful_call_shows_the_whole_result
    (argv : Args.t) (result : dict) (attrs : list (string * string)) :
  direct_flags argv -> no_files argv ->
  Args.desc argv = false ->
  rfc_open lib (ConnectionParams.to_dict (flag_params argv)) = Ok tt ->
  rfc_attributes lib = Ok attrs ->
  rfc_call lib (Args.function argv) [] = Ok result ->
  serialisable result ->
  exit_code (snd (main lib config_files json_files set_order argv)) = 0%Z /\
  items_of (fst (main lib config_files json_files set_order argv)) = result /\
  rfc_events (fst (main lib config_files json_files set_order argv))
  = [ RfcOpen (ConnectionParams.to_dict (flag_params argv)); RfcAttributes;
      RfcCall (Args.function argv) []; RfcClose ].
Proof.
  intros Hdirect Hfiles Hdesc Hopen Hattrs Hcall Hres.
  destruct (displayed_serialisable result Hres) as [Hshown Hend].
  assert (Hrun : SAPConnection._process_results result None
                 = (Print (Log info "Function returned the following data:")
                      :: map item_event result, Ok tt)).
  { change (SAPConnection._process_results result None)
      with (SAPConnection._display_all_results result).
    now rewrite display_all_results_trace, Hshown, Hend. }
  direct_cases argv Hdirect Hfiles; cbn in Hdesc, Hopen, Hcall; subst desc;
    unfold main, main_body, parse_args;
    cbn -[SAPConnection._process_results];
    rewrite Hopen; cbn -[SAPConnection._process_results];
    rewrite Hattrs; cbn -[SAPConnection._process_results]; rewrite Hcall;
    (destruct result as [|kv r];
     [ cbn; repeat split; reflexivity
     | cbn -[SAPConnection._process_results]; rewrite Hrun;
       cbn -[items_of rfc_events item_event map];
       split; [reflexivity|]; split;
       [ repeat (rewrite items_of_app || cbn [items_of flat_map app]);
         change (flat_map _ (map item_event (kv :: r)))
           with (items_of (map item_event (kv :: r)));
         rewrite items_of_item_events; now rewrite ?app_nil_r
       | repeat (rewrite rfc_events_app || cbn [rfc_events filter app]);
         change (filter _ (map item_event (kv :: r)))
           with (rfc_events (map item_event (kv :: r)));
         rewrite rfc_events_item_events; reflexivity ] ]).
Qed.

(** X21: with the connection parameters on the command line, no file of
    import parameters and a capture file whose "capture" entry is a
    non-empty array of strings, against a system that accepts the logon and
    answers the call with a result of JSON values: what is shown is the
    projection of the answer on the specifiers, taken in the iteration
    order of the set made from the array, and the exit status is 0. *)
Theorem captured_run_shows_the_projection
    (argv : Args.t) (export_file : string) (spec : dict) (arr o : list string)
    (result : dict) (attrs : list (string * string)) :
  direct_flags argv ->
  opt_truthy (Args.import_path argv) = false ->
  Args.export_path argv = Some export_file ->
  export_file <> "" ->
  json_files export_file = Content (VDict spec) ->
  dict_get spec "capture" = Some (VList (map VStr arr)) ->
  arr <> [] ->
  set_order (map VStr arr) = map VStr o ->
  set_iteration arr o ->
  Args.desc argv = false ->
  rfc_open lib (ConnectionParams.to_dict (flag_params argv)) = Ok tt ->
  rfc_attributes lib = Ok attrs ->
  rfc_call lib (Args.function argv) [] = Ok result ->
  json_values result ->
  exit_code (snd (main lib config_files json_files set_order argv)) = 0%Z /\
  items_of (fst (main lib config_files json_files set_order argv))
  = projections result o.
Proof.
  intros Hdirect Himport Hexport Hpath Hjf Hspec Harr Hset [Hnd Hin] Hdesc
    Hopen Hattrs Hcall Hjson.
  assert (Hload : ConfigManager.load_json json_files export_file = ([], Ok spec)).
  { unfold ConfigManager.load_json. rewrite Hjf. reflexivity. }
  assert (Hspec' : spec <> []) by (intros ->; discriminate).
  assert (Hcap : capture_set set_order (dict_get_default spec "capture" (VList []))
                 = Ok (map VStr o)).
  { unfold dict_get_default. rewrite Hspec. unfold capture_set, py_iter. cbn [res_bind].
    replace (find _ (map VStr arr)) with (@None value); [now rewrite Hset|].
    clear. induction arr as [|s arr IH]; [reflexivity|exact IH]. }
  assert (Hne : o <> []).
  { destruct arr as [|x arr]; [congruence|]. intros ->.
    apply (Hin x). now left. }
  assert (Hrun : SAPConnection._process_results result (Some (map VStr o))
                 = (Print (Log info "Function returned the following requested data:")
                      :: map item_event (projections result o), Ok tt)).
  { rewrite (process_results_captured result o (projections result o) Hne)
      by now rewrite capture_all_closed_form.
    rewrite display_captured_results_trace.
    destruct (displayed_serialisable (projections result o)) as [-> ->]; [|reflexivity].
    now apply json_values_serialisable, projections_json. }
  destruct export_file as [|a export_file]; [congruence|].
  destruct spec as [|kv spec]; [congruence|].
  destruct argv as [conn dest user password target client sysnr port saprouter
                      fn imp exp desc].
  cbn in Hexport, Hdesc, Hopen, Hcall. subst exp desc.
  destruct Hdirect as [Hconn Hflags]. rename Himport into Himp.
  cbn in Hconn, Hflags, Himp.
  destruct user as [[|? ?]|]; try discriminate Hflags;
  destruct password as [[|? ?]|]; try discriminate Hflags;
  destruct target as [[|? ?]|]; try discriminate Hflags;
  destruct client as [[|? ?]|]; try discriminate Hflags;
  destruct conn as [[|? ?]|]; try discriminate Hconn;
  destruct imp as [[|? ?]|]; try discriminate Himp;
  destruct saprouter as [?|];
    cbn in Hopen;
    unfold main, main_body, parse_args;
    repeat (cbn -[SAPConnection._process_results ConfigManager.load_json capture_set
                  dict_get_default];
            rewrite ?Hload, ?Hcap, ?Hopen, ?Hattrs, ?Hcall);
    (destruct result as [|kv' r];
     [ cbn; rewrite projections_of_empty_result; split; reflexivity
     | cbn -[SAPConnection._process_results]; rewrite Hrun;
       cbn -[items_of item_event map projections];
       split; [reflexivity|];
       repeat (rewrite items_of_app || cbn [items_of flat_map app]);
       change (flat_map _ (map item_event ?l)) with (items_of (map item_event l));
       rewrite items_of_item_events; now rewrite ?app_nil_r ]).
Qed.
End DirectRuns.

Lemma other_call_exception_closes_and_fails_witness :
  exit_code (snd (main interrupted_library (fun _ => NoFile) (fun _ => NoFile)
                    (fun arr => arr) (direct_args "BAPI_USER_GET_DETAIL" false)))
  = 130%Z /\
  rfc_events (fst (main interrupted_library (fun _ => NoFile) (fun _ => NoFile)
                     (fun arr => arr) (direct_args "BAPI_USER_GET_DETAIL" false)))
  = [ RfcOpen (ConnectionParams.to_dict direct_params); RfcAttributes;
      RfcCall "BAPI_USER_GET_DETAIL" []; RfcClose ].
Proof.
  apply (other_call_exception_closes_and_fails interrupted_library (fun _ => NoFile)
           (fun _ => NoFile) (fun arr => arr) (direct_args "BAPI_USER_GET_DETAIL" false)
           KeyboardInterrupt [("sysId", "DEV")]).
  - split; reflexivity.
  - split; reflexivity.
  - reflexivity.
  - reflexivity.
  - reflexivity.
  - reflexivity.
  - reflexivity.
  - exact I.
Defined.

Lemma failed_open_ends_the_run_witness :
  exit_code (snd (main refusing_library (fun _ => NoFile) (fun _ => NoFile)
                    (fun arr => arr) (direct_args "BAPI_USER_GET_DETAIL" true)))
  = 1%Z /\
  rfc_events (fst (main refusing_library (fun _ => NoFile) (fun _ => NoFile)
                     (fun arr => arr) (direct_args "BAPI_USER_GET_DETAIL" true)))
  = [RfcOpen (ConnectionParams.to_dict direct_params)].
Proof.
  apply (failed_open_ends_the_run refusing_library (fun _ => NoFile) (fun _ => NoFile)
           (fun arr => arr) (direct_args "BAPI_USER_GET_DETAIL" true)
           (LogonError "Name or password is incorrect")).
  - split; reflexivity.
  - split; reflexivity.
  - reflexivity.
  - exact I.
Defined.

Lemma failed_attributes_leave_the_connection_open_witness :
  exit_code (snd (main dropping_library (fun _ => NoFile) (fun _ => NoFile)
                    (fun arr => arr) (direct_args "BAPI_USER_GET_DETAIL" false)))
  = 1%Z /\
  rfc_events (fst (main dropping_library (fun _ => NoFile) (fun _ => NoFile)
                     (fun arr => arr) (direct_args "BAPI_USER_GET_DETAIL" false)))
  = [RfcOpen (ConnectionParams.to_dict direct_params); RfcAttributes] /\
  ~ In RfcClose (fst (main dropping_library (fun _ => NoFile) (fun _ => NoFile)
                        (fun arr => arr) (direct_args "BAPI_USER_GET_DETAIL" false))).
Proof.
  apply (failed_attributes_leave_the_connection_open dropping_library (fun _ => NoFile)
           (fun _ => NoFile) (fun arr => arr) (direct_args "BAPI_USER_GET_DETAIL" false)
           (CommunicationError "connection closed")).
  - split; reflexivity.
  - split; reflexivity.
  - reflexivity.
  - reflexivity.
  - exact I.
Defined.

Lemma successful_call_shows_the_whole_result_witness :
  exit_code (snd (main answering_library (fun _ => NoFile) (fun _ => NoFile)
                    (fun arr => arr) (direct_args "BAPI_USER_GET_DETAIL" false)))
  = 0%Z /\
  items_of (fst (main answering_library (fun _ => NoFile) (fun _ => NoFile)
                   (fun arr => arr) (direct_args "BAPI_USER_GET_DETAIL" false)))
  = scenario_result /\
  rfc_events (fst (main answering_library (fun _ => NoFile) (fun _ => NoFile)
                     (fun arr => arr) (direct_args "BAPI_USER_GET_DETAIL" false)))
  = [ RfcOpen (ConnectionParams.to_dict direct_params); RfcAttributes;
      RfcCall "BAPI_USER_GET_DETAIL" []; RfcClose ].
Proof.
  apply (successful_call_shows_the_whole_result answering_library
           (fun _ => NoFile) (fun _ => NoFile) (fun arr => arr)
           (direct_args "BAPI_USER_GET_DETAIL" false) scenario_result [("sysId", "DEV")]).
  - split; reflexivity.
  - split; reflexivity.
  - reflexivity.
  - reflexivity.
  - reflexivity.
  - reflexivity.
  - intros k v Hin _. simpl in Hin.
    destruct Hin as [[= <- <-]|[[= <- <-]|[]]]; reflexivity.
Defined.

Lemma captured_run_shows_the_projection_witness :
  exit_code (snd (main answering_library (fun _ => NoFile)
                    (fun _ => Content (VDict [("capture",
                                               VList [VStr "STATUS"; VStr "ITAB[FIELD]"])]))
                    (fun arr => rev arr)
                    (capture_args "BAPI_USER_GET_DETAIL" "export.json")))
  = 0%Z /\
  items_of (fst (main answering_library (fun _ => NoFile)
                   (fun _ => Content (VDict [("capture",
                                              VList [VStr "STATUS"; VStr "ITAB[FIELD]"])]))
                   (fun arr => rev arr)
                   (capture_args "BAPI_USER_GET_DETAIL" "export.json")))
  = projections scenario_result ["ITAB[FIELD]"; "STATUS"].
Proof.
  apply (captured_run_shows_the_projection answering_library (fun _ => NoFile)
           (fun _ => Content (VDict [("capture",
                                      VList [VStr "STATUS"; VStr "ITAB[FIELD]"])]))
           (fun arr => rev arr)
           (capture_args "BAPI_USER_GET_DETAIL" "export.json") "export.json"
           [("capture", VList [VStr "STATUS"; VStr "ITAB[FIELD]"])]
           ["STATUS"; "ITAB[FIELD]"] ["ITAB[FIELD]"; "STATUS"]
           scenario_result [("sysId", "DEV")]).
  - split; reflexivity.
  - reflexivity.
  - reflexivity.
  - discriminate.
  - reflexivity.
  - reflexivity.
  - discriminate.
  - reflexivity.
  - split.
    + nodup_strings.
    + intros x. simpl. tauto.
  - reflexivity.
  - reflexivity.
  - reflexivity.
  - reflexivity.
  - reflexivity.
Defined.
